(** * Kalshi BTC range-trading bot: decision and position-lifecycle engine

    A shallow embedding of [main.py]: the range-probability model
    ([normal_cdf], [range_probability]), the volatility estimate
    ([estimate_vol]) on the rolling price window, the position monitor
    ([monitor_positions]), and the phases of a cycle of [run_bot]: the
    capital check with reconciliation, the market scan, the ranking and
    the execution; and of [src/clients/kalshi_client.py] the market list
    ([get_btc_markets]) and the bodies of the orders it posts.

    Python floats are embedded through the interface [PyFloat], which has
    two instances: exact rational arithmetic ([Q]), in which the general
    properties are proved, and IEEE binary64 ([float]), in which the
    concrete runs can be replayed bit for bit.  Prices quoted by the venue
    are integer cents ([Z]); [None] stands for a missing or null JSON
    field. *)

From Stdlib Require Import ZArith QArith Qminmax Floats Lqa Lia.
From Stdlib Require Import List String Ascii Bool.
From Stdlib Require Import Sorted.
From stdpp Require Import base option list gmap strings.
Import ListNotations.

Set Warnings "-inexact-float".
Set Warnings "-clear-no-such-hyp".

(* ------------------------------------------------------------------ *)
(** ** Python floats *)

(** The float operations the bot uses.  [float_of_int] is the implicit
    conversion of an [int] operand; [feq] is [==]. *)
Class PyFloat (F : Type) := {
  float_of_int : Z -> F;
  fadd : F -> F -> F;
  fsub : F -> F -> F;
  fmul : F -> F -> F;
  fdiv : F -> F -> F;
  fle : F -> F -> bool;
  flt : F -> F -> bool;
  feq : F -> F -> bool
}.

Declare Scope py_scope.
Delimit Scope py_scope with py.
Notation "x + y" := (fadd x y) : py_scope.
Notation "x - y" := (fsub x y) : py_scope.
Notation "x * y" := (fmul x y) : py_scope.
Notation "x / y" := (fdiv x y) : py_scope.
Notation "x <=? y" := (fle x y) : py_scope.
Notation "x <? y" := (flt x y) : py_scope.
Notation "x >=? y" := (fle y x) (at level 70) : py_scope.
Notation "x >? y" := (flt y x) (at level 70) : py_scope.

(** Exact arithmetic: a float is the rational it denotes. *)
#[export] Instance exact : PyFloat Q | 0 := {|
  float_of_int := inject_Z;
  fadd := Qplus;
  fsub := Qminus;
  fmul := Qmult;
  fdiv := Qdiv;
  fle := Qle_bool;
  flt := fun a b => negb (Qle_bool b a);
  feq := Qeq_bool
|}.

(** [float(n)] for an integer below 2^63 in absolute value. *)
Definition Z_to_float (z : Z) : float :=
  match z with
  | Z0 => 0%float
  | Zpos _ => PrimFloat.of_uint63 (Uint63.of_Z z)
  | Zneg p => PrimFloat.opp (PrimFloat.of_uint63 (Uint63.of_Z (Zpos p)))
  end.

(** IEEE 754 binary64, the arithmetic CPython runs. *)
#[export] Instance binary64 : PyFloat float | 10 := {|
  float_of_int := Z_to_float;
  fadd := PrimFloat.add;
  fsub := PrimFloat.sub;
  fmul := PrimFloat.mul;
  fdiv := PrimFloat.div;
  fle := PrimFloat.leb;
  flt := PrimFloat.ltb;
  feq := PrimFloat.eqb
|}.

(** Errors the arithmetic of [range_probability] can raise. *)
Inductive PyErr := ZeroDivisionError | ValueError.

Inductive result (A : Type) :=
| Ok (a : A)
| Raise (e : PyErr).
Arguments Ok {A} a.
Arguments Raise {A} e.

Definition bind {A B} (r : result A) (k : A -> result B) : result B :=
  match r with
  | Ok a => k a
  | Raise e => Raise e
  end.

Notation "'let*' x ':=' r 'in' k" := (bind r (fun x => k))
  (at level 10, x name, r at level 100, k at level 200).

(** [math.sqrt], [math.log] and [math.erf] on their domains. *)
Record Libm (F : Type) := {
  m_sqrt : F -> F;
  m_log : F -> F;
  m_erf : F -> F
}.
Arguments m_sqrt {F} _ _.
Arguments m_log {F} _ _.
Arguments m_erf {F} _ _.

Section Floats.
Context {F : Type} `{PyFloat F}.
Local Open Scope py_scope.

(** The decimal literal [n/d], e.g. [lit 99 100] for [0.99]: the
    correctly rounded quotient of two exactly represented integers is
    the float the literal denotes. *)
Definition lit (n d : Z) : F := float_of_int n / float_of_int d.

(** Truthiness of a float: [if x]. *)
Definition truthy (x : F) : bool := negb (feq x (float_of_int 0)).

(** [max(a, b)] and [min(a, b)] keep the first argument unless the
    second is strictly better. *)
Definition pymax (a b : F) : F := if a <? b then b else a.
Definition pymin (a b : F) : F := if b <? a then b else a.

(** [a / b], raising on a zero divisor. *)
Definition pydiv (a b : F) : result F :=
  if feq b (float_of_int 0) then Raise ZeroDivisionError else Ok (a / b).

(** [math.log(x)]: a domain error unless [x > 0]; a NaN, which compares
    unequal to itself, goes through. *)
Definition pylog (m : Libm F) (x : F) : result F :=
  if float_of_int 0 <? x then Ok (m_log m x)
  else if feq x x then Raise ValueError
  else Ok (m_log m x).

(* ---------------------------------------------------------------- *)
(** ** MATH *)

(** [0.5 * (1.0 + math.erf(x / math.sqrt(2)))] *)
Definition normal_cdf (m : Libm F) (x : F) : F :=
  lit 1 2 * (float_of_int 1 + m_erf m (x / m_sqrt m (float_of_int 2))).

(** [1.0 if floor_s <= btc <= cap_s else 0.0] *)
Definition in_range (btc floor_s cap_s : F) : F :=
  if (floor_s <=? btc) && (btc <=? cap_s)
  then float_of_int 1 else float_of_int 0.

Definition range_probability (m : Libm F)
    (btc floor_s cap_s vol_per_min mins : F) : result F :=
  if mins <=? float_of_int 0 then Ok (in_range btc floor_s cap_s)
  else
    let sigma_t := vol_per_min * m_sqrt m mins in
    if sigma_t <? lit 1 1000000000 then Ok (in_range btc floor_s cap_s)
    else
      let* r_cap := pydiv cap_s btc in
      let* l_cap := pylog m r_cap in
      let d_cap := l_cap / sigma_t in
      let* r_floor := pydiv floor_s btc in
      let* l_floor := pylog m r_floor in
      let d_floor := l_floor / sigma_t in
      Ok (pymax (float_of_int 0)
            (pymin (float_of_int 1)
               (normal_cdf m d_cap - normal_cdf m d_floor))).
End Floats.

(* ------------------------------------------------------------------ *)
(** ** CONFIG and STRATEGY PARAMS *)

(** The module constants of [main.py].  [LIVE_MODE] is read from the
    environment; the others are fixed in [main_config]. *)
Record Config (F : Type) := {
  LIVE_MODE : bool;
  MAX_TRADE_USD : F;
  MAX_EXPOSURE_PCT : F;
  MAX_TRADES_PER_CYCLE : Z;
  TIME_MIN_MINS : Z;
  TIME_MAX_MINS : Z;
  MIN_EDGE : F;
  STOP_LOSS_PCT : F
}.
Arguments LIVE_MODE {F} _.
Arguments MAX_TRADE_USD {F} _.
Arguments MAX_EXPOSURE_PCT {F} _.
Arguments MAX_TRADES_PER_CYCLE {F} _.
Arguments TIME_MIN_MINS {F} _.
Arguments TIME_MAX_MINS {F} _.
Arguments MIN_EDGE {F} _.
Arguments STOP_LOSS_PCT {F} _.

Definition main_config {F} `{PyFloat F} (live : bool) : Config F := {|
  LIVE_MODE := live;
  MAX_TRADE_USD := lit 2 1;
  MAX_EXPOSURE_PCT := lit 99 100;
  MAX_TRADES_PER_CYCLE := 3;
  TIME_MIN_MINS := 5;
  TIME_MAX_MINS := 30000;
  MIN_EDGE := lit 8 100;
  STOP_LOSS_PCT := lit 40 100
|}.

(* ------------------------------------------------------------------ *)
(** ** Data *)

Inductive Side := YES | NO.

Definition Side_eqb (a b : Side) : bool :=
  match a, b with
  | YES, YES | NO, NO => true
  | _, _ => false
  end.

Inductive Status := IsOpen | IsClosed.

(** A market as the venue's JSON gives it.  Quotes are integer cents;
    [close_time] is the parsed close time in seconds since the epoch,
    [None] when the field is missing or does not parse. *)
Record Market (F : Type) := {
  ticker : string;
  m_status : string;
  m_result : string;
  yes_ask : option Z;
  yes_bid : option Z;
  no_ask : option Z;
  no_bid : option Z;
  floor_strike : option F;
  cap_strike : option F;
  close_time : option F
}.
Arguments ticker {F} _.
Arguments m_status {F} _.
Arguments m_result {F} _.
Arguments yes_ask {F} _.
Arguments yes_bid {F} _.
Arguments no_ask {F} _.
Arguments no_bid {F} _.
Arguments floor_strike {F} _.
Arguments cap_strike {F} _.
Arguments close_time {F} _.

(** Modelled from the spec: the [Position] of [src/utils/database.py],
    which is not among the sources.  The fields are those [main.py] reads
    and writes; closing records the exit value and the realized P&L
    [(exit_value - entry_price) * quantity]. *)
Record Position (F : Type) := {
  market_id : string;
  side : Side;
  entry_price : F;
  quantity : Z;
  live : bool;
  status : Status;
  exit_value : option F;
  realized_pnl : option F
}.
Arguments market_id {F} _.
Arguments side {F} _.
Arguments entry_price {F} _.
Arguments quantity {F} _.
Arguments live {F} _.
Arguments status {F} _.
Arguments exit_value {F} _.
Arguments realized_pnl {F} _.

(** A closing order handed to the gateway's [close_position]. *)
Record Order := {
  o_ticker : string;
  o_side : Side;
  o_quantity : Z;
  o_price_cents : Z
}.

Inductive StopReason (F : Type) :=
| STOP_LOSS (loss : F)
| EDGE_FLIPPED (loss : F).
Arguments STOP_LOSS {F} loss.
Arguments EDGE_FLIPPED {F} loss.

(** What a cycle prints and writes to the trade log. *)
Inductive Event (F : Type) :=
| EvSettled (id : string) (exit_value pnl : F)
| EvTakeProfit (id : string) (s : Side) (exit_price pnl : F)
| EvStop (id : string) (why : StopReason F) (curr_val pnl : F)
| EvStatus (id : string) (s : Side) (entry curr_val pct : F)
| EvError (id : string)
| EvReconcile (id : string).
Arguments EvSettled {F} id exit_value pnl.
Arguments EvTakeProfit {F} id s exit_price pnl.
Arguments EvStop {F} id why curr_val pnl.
Arguments EvStatus {F} id s entry curr_val pct.
Arguments EvError {F} id.
Arguments EvReconcile {F} id.

(** The state a cycle threads: the position store (a row's index is its
    id), the closing orders sent so far, and the output. *)
Record World (F : Type) := {
  db : list (Position F);
  orders : list Order;
  log : list (Event F)
}.
Arguments db {F} _.
Arguments orders {F} _.
Arguments log {F} _.

(** The gateway as the cycle sees it: the market behind a ticker ([None]
    when the request fails), and whether the [n]-th closing order sent is
    accepted ([false]: [close_position] returns [None]). *)
Record Gateway (F : Type) := {
  get_market : string -> option (Market F);
  close_accepted : nat -> Order -> bool
}.
Arguments get_market {F} _ _.
Arguments close_accepted {F} _ _ _.

(* ------------------------------------------------------------------ *)
(** ** Strings *)

Definition lower_ascii (c : ascii) : ascii :=
  let n := nat_of_ascii c in
  if Nat.leb 65 n && Nat.leb n 90 then ascii_of_nat (n + 32) else c.

(** [str.lower] on ASCII text. *)
Fixpoint lower (s : string) : string :=
  match s with
  | EmptyString => EmptyString
  | String c s' => String (lower_ascii c) (lower s')
  end.

Section Bot.
Context {F : Type} `{PyFloat F}.
Local Open Scope py_scope.

(* ---------------------------------------------------------------- *)
(** ** Position store *)

Definition is_open (p : Position F) : bool :=
  match status p with
  | IsOpen => true
  | IsClosed => false
  end.

Fixpoint open_from (i : nat) (d : list (Position F))
    : list (nat * Position F) :=
  match d with
  | [] => []
  | p :: d' =>
      if is_open p then (i, p) :: open_from (S i) d'
      else open_from (S i) d'
  end.

(** Modelled from the spec: [get_open_positions] of the absent
    [DatabaseManager]; the open rows, each with its id, in store order. *)
Definition get_open_positions (d : list (Position F))
    : list (nat * Position F) :=
  open_from 0 d.

Definition mark_closed (p : Position F) (exit : F) : Position F := {|
  market_id := market_id p;
  side := side p;
  entry_price := entry_price p;
  quantity := quantity p;
  live := live p;
  status := IsClosed;
  exit_value := Some exit;
  realized_pnl :=
    Some ((exit - entry_price p) * float_of_int (quantity p))
|}.

(** Modelled from the spec: [close_position_with_pnl] of the absent
    [DatabaseManager]; row [i] becomes closed, with the exit value and
    the realized P&L recorded. *)
Definition close_position_with_pnl (d : list (Position F)) (i : nat)
    (p : Position F) (exit : F) : list (Position F) :=
  <[ i := mark_closed p exit ]> d.

(* ---------------------------------------------------------------- *)
(** ** World steps *)

Definition emit (e : Event F) (w : World F) : World F :=
  {| db := db w; orders := orders w; log := log w ++ [e] |}.

Definition close_in_store (i : nat) (p : Position F) (exit : F)
    (w : World F) : World F :=
  {| db := close_position_with_pnl (db w) i p exit;
     orders := orders w; log := log w |}.

(** [await kalshi.close_position(...)]: the order goes out, the answer
    is [true] unless the gateway returns [None]. *)
Definition send_close (gw : Gateway F) (o : Order) (w : World F)
    : bool * World F :=
  (close_accepted gw (length (orders w)) o,
   {| db := db w; orders := orders w ++ [o]; log := log w |}).

(** [m.get(key) or 0] *)
Definition quote (q : option Z) : Z := default 0%Z q.

(** [c / 100.0] *)
Definition cents (c : Z) : F := float_of_int c / float_of_int 100.

(* ---------------------------------------------------------------- *)
(** ** POSITION MONITOR *)

Definition is_settled (market : Market F) : bool :=
  (String.eqb (m_status market) "settled"
   || String.eqb (m_status market) "closed"
   || String.eqb (m_status market) "finalized")
  && negb (String.eqb (m_result market) "").

Definition settlement_value (pos : Position F) (result : string) : F :=
  if String.eqb (lower result) "yes" then
    match side pos with
    | YES => float_of_int 1
    | NO => float_of_int 0
    end
  else if String.eqb (lower result) "no" then
    match side pos with
    | YES => float_of_int 0
    | NO => float_of_int 1
    end
  else entry_price pos.

(** The current value of a position: the complement of the YES ask for
    NO, the YES bid for YES; the entry price when the quote is zero. *)
Definition curr_val (pos : Position F) (market : Market F) : F :=
  let yes_ask_now := quote (yes_ask market) in
  let yes_bid_now := quote (yes_bid market) in
  match side pos with
  | NO =>
      if Z.eqb yes_ask_now 0 then entry_price pos
      else float_of_int (100 - yes_ask_now) / float_of_int 100
  | YES =>
      if Z.eqb yes_bid_now 0 then entry_price pos
      else cents yes_bid_now
  end.

Definition unrealized_loss_pct (pos : Position F) (cv : F) : F :=
  if truthy (entry_price pos)
  then (entry_price pos - cv) / entry_price pos
  else float_of_int 0.

(** The model probability the stop-loss stage gets to see: [Some p]
    when BTC price and volatility are given and nonzero, the close time
    parses, both strikes are set and nonzero, time is left, and
    [range_probability] returns [p]; [None] otherwise (any exception is
    swallowed). *)
Definition model_view (m : Libm F) (now : F) (btc vol_pm : option F)
    (market : Market F) : option F :=
  match btc, vol_pm with
  | Some b, Some v =>
      if truthy b && truthy v then
        match close_time market with
        | Some close_ts =>
            let mins_left := (close_ts - now) / float_of_int 60 in
            match floor_strike market, cap_strike market with
            | Some floor_s, Some cap_s =>
                if truthy floor_s && truthy cap_s
                   && (mins_left >? float_of_int 0)
                then
                  match range_probability m b floor_s cap_s v mins_left with
                  | Ok model_prob => Some model_prob
                  | Raise _ => None
                  end
                else None
            | _, _ => None
            end
        | None => None
        end
      else None
  | _, _ => None
  end.

Definition edge_flipped (pos : Position F) (market : Market F)
    (model : option F) : bool :=
  match model with
  | Some model_prob =>
      match side pos with
      | YES => model_prob <? cents (quote (yes_ask market))
      | NO => model_prob >? float_of_int 1 - cents (quote (no_ask market))
      end
  | None => false
  end.

(** [should_stop] and [stop_reason]: [None] when no stop fires. *)
Definition stop_decision (cfg : Config F) (loss : F) (flipped : bool)
    : option (StopReason F) :=
  if loss >=? STOP_LOSS_PCT cfg then Some (STOP_LOSS loss)
  else if flipped && (loss >? lit 5 100) then Some (EDGE_FLIPPED loss)
  else None.

Definition status_display (pos : Position F) (cv : F) (w : World F)
    : World F :=
  let pct :=
    if truthy (entry_price pos)
    then (cv - entry_price pos) / entry_price pos * float_of_int 100
    else float_of_int 0 in
  emit (EvStatus (market_id pos) (side pos) (entry_price pos) cv pct) w.

(** Stop-loss (model-based and fixed percentage), then status display. *)
Definition stop_loss_stage (cfg : Config F) (gw : Gateway F) (i : nat)
    (pos : Position F) (market : Market F) (model : option F)
    (w : World F) : World F :=
  let yes_bid_now := quote (yes_bid market) in
  let no_bid_now := quote (no_bid market) in
  let cv := curr_val pos market in
  let loss := unrealized_loss_pct pos cv in
  match stop_decision cfg loss (edge_flipped pos market model) with
  | Some stop_reason =>
      let pnl := (cv - entry_price pos) * float_of_int (quantity pos) in
      let closed w' :=
        emit (EvStop (market_id pos) stop_reason cv pnl)
             (close_in_store i pos cv w') in
      if LIVE_MODE cfg then
        match side pos with
        | NO =>
            if (0 <? no_bid_now)%Z then
              let (r, w1) :=
                send_close gw
                  {| o_ticker := market_id pos; o_side := NO;
                     o_quantity := quantity pos;
                     o_price_cents := no_bid_now |} w in
              if r then closed w1 else status_display pos cv w1
            else status_display pos cv w
        | YES =>
            if (0 <? yes_bid_now)%Z then
              let (r, w1) :=
                send_close gw
                  {| o_ticker := market_id pos; o_side := YES;
                     o_quantity := quantity pos;
                     o_price_cents := yes_bid_now |} w in
              if r then closed w1 else status_display pos cv w1
            else status_display pos cv w
        end
      else closed w
  | None => status_display pos cv w
  end.

(** Take-profit of a YES position: the YES bid is at 80 cents or above. *)
Definition take_profit_yes (cfg : Config F) (gw : Gateway F) (i : nat)
    (pos : Position F) (market : Market F) (model : option F)
    (w : World F) : World F :=
  let yes_bid_now := quote (yes_bid market) in
  if Side_eqb (side pos) YES && (80 <=? yes_bid_now)%Z then
    let exit_price := cents yes_bid_now in
    let pnl := (exit_price - entry_price pos) * float_of_int (quantity pos) in
    let closed w' :=
      emit (EvTakeProfit (market_id pos) (side pos) exit_price pnl)
           (close_in_store i pos exit_price w') in
    if LIVE_MODE cfg then
      let (r, w1) :=
        send_close gw
          {| o_ticker := market_id pos; o_side := YES;
             o_quantity := quantity pos;
             o_price_cents := yes_bid_now |} w in
      if r then closed w1
      else stop_loss_stage cfg gw i pos market model w1
    else closed w
  else stop_loss_stage cfg gw i pos market model w.

(** Take-profit of a NO position: the YES ask is at 5 cents or below. *)
Definition take_profit_no (cfg : Config F) (gw : Gateway F) (i : nat)
    (pos : Position F) (market : Market F) (model : option F)
    (w : World F) : World F :=
  let yes_ask_now := quote (yes_ask market) in
  let no_bid_now := quote (no_bid market) in
  if Side_eqb (side pos) NO && (0 <? yes_ask_now)%Z
     && (yes_ask_now <=? 5)%Z then
    let exit_price :=
      if (0 <? no_bid_now)%Z then cents no_bid_now
      else float_of_int (100 - yes_ask_now) / float_of_int 100 in
    let pnl := (exit_price - entry_price pos) * float_of_int (quantity pos) in
    let closed w' :=
      emit (EvTakeProfit (market_id pos) (side pos) exit_price pnl)
           (close_in_store i pos exit_price w') in
    if LIVE_MODE cfg && (0 <? no_bid_now)%Z then
      let (r, w1) :=
        send_close gw
          {| o_ticker := market_id pos; o_side := NO;
             o_quantity := quantity pos;
             o_price_cents := no_bid_now |} w in
      if r then closed w1
      else take_profit_yes cfg gw i pos market model w1
    else if negb (LIVE_MODE cfg) then closed w
    else take_profit_yes cfg gw i pos market model w
  else take_profit_yes cfg gw i pos market model w.

(** One position against its market: settlement, take-profit,
    stop-loss, status display, in that order. *)
Definition check_position (cfg : Config F) (gw : Gateway F) (i : nat)
    (pos : Position F) (market : Market F) (model : option F)
    (w : World F) : World F :=
  if is_settled market then
    let ev := settlement_value pos (m_result market) in
    let pnl := (ev - entry_price pos) * float_of_int (quantity pos) in
    emit (EvSettled (market_id pos) ev pnl) (close_in_store i pos ev w)
  else take_profit_no cfg gw i pos market model w.

(** The body of the loop over the open positions; a failing
    [get_market] is caught and reported for that position alone. *)
Definition monitor_step (cfg : Config F) (gw : Gateway F) (m : Libm F)
    (now : F) (btc vol_pm : option F) (w : World F)
    (ip : nat * Position F) : World F :=
  let (i, pos) := ip in
  match get_market gw (market_id pos) with
  | Some market =>
      check_position cfg gw i pos market
        (model_view m now btc vol_pm market) w
  | None => emit (EvError (market_id pos)) w
  end.

Definition monitor_positions (cfg : Config F) (gw : Gateway F)
    (m : Libm F) (now : F) (btc vol_pm : option F) (w : World F)
    : World F :=
  fold_left (monitor_step cfg gw m now btc vol_pm)
    (get_open_positions (db w)) w.
End Bot.

(* ------------------------------------------------------------------ *)
(** ** MAIN BOT LOOP *)

(** A candidate of one scan. *)
Record Candidate (F : Type) := {
  c_ticker : string;
  c_side : Side;
  c_price_cents : Z;
  c_model_prob : F;
  c_implied_prob : F;
  c_exec_prob : F;
  c_edge : F;
  c_mins_left : F
}.
Arguments c_ticker {F} _.
Arguments c_side {F} _.
Arguments c_price_cents {F} _.
Arguments c_model_prob {F} _.
Arguments c_implied_prob {F} _.
Arguments c_exec_prob {F} _.
Arguments c_edge {F} _.
Arguments c_mins_left {F} _.

(** What the scan loop does with one market: [continue], append a
    candidate, or let an exception of the model end the cycle. *)
Inductive Scan (F : Type) :=
| Skipped
| Appended (c : Candidate F)
| CycleError (e : PyErr).
Arguments Skipped {F}.
Arguments Appended {F} c.
Arguments CycleError {F} e.

(** Where BTC stands against the range of a candidate, with the distance
    in percent. *)
Inductive BtcPos (F : Type) :=
| AboveCap (pct : F)
| BelowFloor (pct : F)
| InsideRange.
Arguments AboveCap {F} pct.
Arguments BelowFloor {F} pct.
Arguments InsideRange {F}.

Section Cycle.
Context {F : Type} `{PyFloat F}.
Local Open Scope py_scope.

(* ---------------------------------------------------------------- *)
(** *** Phase 2: capital check *)

(** Paper mode trades a notional balance when the account is empty. *)
Definition effective_balance (cfg : Config F) (balance : F) : F :=
  if (balance <=? float_of_int 0) && negb (LIVE_MODE cfg)
  then lit 1000 1 else balance.

(** [{p["ticker"]: p.get("position", 0) for p in ...}]: a later entry
    for a ticker replaces an earlier one. *)
Definition live_positions (held_on_venue : list (string * option Z))
    : gmap string Z :=
  fold_left (fun d p => <[ p.1 := default 0%Z p.2 ]> d) held_on_venue ∅.

Definition zero_on_venue (live_pos : gmap string Z) (p : Position F)
    : bool :=
  Z.eqb (default 0%Z (live_pos !! market_id p)) 0.

Definition reconcile_step (live_pos : gmap string Z) (w : World F)
    (ip : nat * Position F) : World F :=
  let (i, p) := ip in
  if zero_on_venue live_pos p
  then emit (EvReconcile (market_id p))
         (close_in_store i p (entry_price p) w)
  else w.

(** Live mode only: a position the venue no longer holds is closed in
    the store at its entry price. *)
Definition reconcile (cfg : Config F)
    (held_on_venue : list (string * option Z)) (w : World F) : World F :=
  if LIVE_MODE cfg then
    fold_left (reconcile_step (live_positions held_on_venue))
      (get_open_positions (db w)) w
  else w.

(** [sum(p.entry_price * p.quantity for p in positions)] *)
Definition exposure_of (positions : list (nat * Position F)) : F :=
  fold_left
    (fun acc ip => acc + entry_price ip.2 * float_of_int (quantity ip.2))
    positions (float_of_int 0).

(** [exposure / total if total > 0 else 1.0] *)
Definition exp_pct (balance exposure : F) : F :=
  let total := balance + exposure in
  if total >? float_of_int 0 then exposure / total else float_of_int 1.

(** The circuit breaker: [true] when the cycle sleeps and continues
    without scanning or trading. *)
Definition skips_new_trades (cfg : Config F) (balance exposure : F)
    : bool :=
  exp_pct balance exposure >=? MAX_EXPOSURE_PCT cfg.

(** Phase 2 of a cycle on the balance the gateway reports: the world
    after reconciliation, and whether the entry phase is skipped. *)
Definition capital_check (cfg : Config F) (reported_balance : F)
    (held_on_venue : list (string * option Z)) (w : World F)
    : bool * World F :=
  let balance := effective_balance cfg reported_balance in
  let w1 := reconcile cfg held_on_venue w in
  let positions := get_open_positions (db w1) in
  (skips_new_trades cfg balance (exposure_of positions), w1).

(** [held = {p.market_id for p in positions}] *)
Definition held_ids (positions : list (nat * Position F)) : gset string :=
  list_to_set (map (fun ip => market_id ip.2) positions).

(* ---------------------------------------------------------------- *)
(** *** Phase 4: scan markets *)

(** The NO ask the edge is computed against: the quoted one when it
    lies strictly between 0 and 100 cents, the complement of the YES
    bid otherwise. *)
Definition no_ask_price (no_ask_q yes_bid_q : Z) : Z :=
  if (0 <? no_ask_q)%Z && (no_ask_q <? 100)%Z then no_ask_q
  else (100 - yes_bid_q)%Z.

Definition edge_yes (model_prob : F) (yes_ask_q : Z) : F :=
  model_prob - cents yes_ask_q.

Definition edge_no (model_prob : F) (no_ask_p : Z) : F :=
  (float_of_int 1 - model_prob) - cents no_ask_p.

(** Side, price in cents and edge of the entry, if any. *)
Definition choose_side (cfg : Config F) (model_prob : F)
    (yes_ask_q yes_bid_q no_ask_q : Z) : option (Side * Z * F) :=
  let nap := no_ask_price no_ask_q yes_bid_q in
  if edge_yes model_prob yes_ask_q >=? MIN_EDGE cfg
  then Some (YES, yes_ask_q, edge_yes model_prob yes_ask_q)
  else if edge_no model_prob nap >=? MIN_EDGE cfg
  then Some (NO, nap, edge_no model_prob nap)
  else None.

(** The filters a market passes before it is priced; the result is the
    minutes left and the two strikes. *)
Definition scan_filters (cfg : Config F) (held : gset string)
    (now_ts : F) (market : Market F) : option (F * F * F) :=
  if bool_decide (ticker market ∈ held) then None
  else
    match close_time market with
    | None => None
    | Some close_ts =>
        let mins_left := (close_ts - now_ts) / float_of_int 60 in
        if negb ((float_of_int (TIME_MIN_MINS cfg) <=? mins_left)
                 && (mins_left <=? float_of_int (TIME_MAX_MINS cfg)))
        then None
        else if (quote (yes_bid market) <=? 0)%Z then None
        else
          match floor_strike market, cap_strike market with
          | Some floor_s, Some cap_s =>
              if negb (truthy floor_s) || negb (truthy cap_s) then None
              else if (quote (yes_ask market) <=? 0)%Z
                      || (100 <=? quote (yes_ask market))%Z then None
              else Some (mins_left, floor_s, cap_s)
          | _, _ => None
          end
    end.

(** The position description of lines 410-416; the percentage divides
    by the BTC price, which raises when that price is zero. *)
Definition btc_pos (btc floor_s cap_s : F) : result (BtcPos F) :=
  if btc >? cap_s then
    let* r := pydiv (btc - cap_s) btc in
    Ok (AboveCap (r * float_of_int 100))
  else if btc <? floor_s then
    let* r := pydiv (floor_s - btc) btc in
    Ok (BelowFloor (r * float_of_int 100))
  else Ok InsideRange.

(** Lines 386-434 of the loop body, on the model probability of a
    market that passed the filters. *)
Definition scan_priced (cfg : Config F) (market : Market F)
    (btc floor_s cap_s mins_left model_prob : F) : Scan F :=
  let yes_ask_q := quote (yes_ask market) in
  let yes_bid_q := quote (yes_bid market) in
  let mid_prob := float_of_int (yes_bid_q + yes_ask_q) / float_of_int 200 in
  match choose_side cfg model_prob yes_ask_q yes_bid_q
          (quote (no_ask market)) with
  | Some (s, price_cents, edge) =>
      if (price_cents <=? 0)%Z || (100 <=? price_cents)%Z then Skipped
      else
        match btc_pos btc floor_s cap_s with
        | Ok _ =>
            Appended
              {| c_ticker := ticker market;
                 c_side := s;
                 c_price_cents := price_cents;
                 c_model_prob := model_prob;
                 c_implied_prob := mid_prob;
                 c_exec_prob := cents price_cents;
                 c_edge := edge;
                 c_mins_left := mins_left |}
        | Raise e => CycleError e
        end
  | None => Skipped
  end.

(** The body of the scan loop for one market. *)
Definition scan_market (cfg : Config F) (m : Libm F) (held : gset string)
    (now_ts btc vol_pm : F) (market : Market F) : Scan F :=
  match scan_filters cfg held now_ts market with
  | None => Skipped
  | Some (mins_left, floor_s, cap_s) =>
      match range_probability m btc floor_s cap_s vol_pm mins_left with
      | Ok model_prob =>
          scan_priced cfg market btc floor_s cap_s mins_left model_prob
      | Raise e => CycleError e
      end
  end.

(** The scan loop over the markets, before ranking: the candidates in
    market order, or the exception that ended the cycle. *)
Fixpoint scan_markets (cfg : Config F) (m : Libm F) (held : gset string)
    (now_ts btc vol_pm : F) (markets : list (Market F))
    : result (list (Candidate F)) :=
  match markets with
  | [] => Ok []
  | market :: rest =>
      match scan_market cfg m held now_ts btc vol_pm market with
      | Skipped => scan_markets cfg m held now_ts btc vol_pm rest
      | Appended c =>
          let* cs := scan_markets cfg m held now_ts btc vol_pm rest in
          Ok (c :: cs)
      | CycleError e => Raise e
      end
  end.

(** Phase 4 on the store the capital check left: held tickers are
    skipped. *)
Definition scan_phase (cfg : Config F) (m : Libm F) (now_ts btc vol_pm : F)
    (markets : list (Market F)) (w : World F)
    : result (list (Candidate F)) :=
  scan_markets cfg m (held_ids (get_open_positions (db w))) now_ts btc
    vol_pm markets.
End Cycle.

(* ------------------------------------------------------------------ *)
(** ** Auxiliary definitions of the statements *)

(** The current value an event reports. *)
Definition event_curr_val {F} (e : Event F) : option F :=
  match e with
  | EvStop _ _ cv _ => Some cv
  | EvStatus _ _ _ cv _ => Some cv
  | _ => None
  end.

(** A configuration with another stop-loss fraction. *)
Definition with_stop_loss {F} (cfg : Config F) (t : F) : Config F := {|
  LIVE_MODE := LIVE_MODE cfg;
  MAX_TRADE_USD := MAX_TRADE_USD cfg;
  MAX_EXPOSURE_PCT := MAX_EXPOSURE_PCT cfg;
  MAX_TRADES_PER_CYCLE := MAX_TRADES_PER_CYCLE cfg;
  TIME_MIN_MINS := TIME_MIN_MINS cfg;
  TIME_MAX_MINS := TIME_MAX_MINS cfg;
  MIN_EDGE := MIN_EDGE cfg;
  STOP_LOSS_PCT := t
|}.

(** A market that is open and carries only quotes. *)
Definition quoted_market {F} (id : string) (yb ya nb na : option Z)
    : Market F := {|
  ticker := id; m_status := "active"; m_result := "";
  yes_ask := ya; yes_bid := yb; no_ask := na; no_bid := nb;
  floor_strike := None; cap_strike := None; close_time := None
|}.

(** An open position. *)
Definition open_position {F} (id : string) (s : Side) (entry : F) (qty : Z)
    (is_live : bool) : Position F := {|
  market_id := id; side := s; entry_price := entry; quantity := qty;
  live := is_live; status := IsOpen; exit_value := None;
  realized_pnl := None
|}.

(** The paper configuration with the stop-loss fraction 0.35. *)
Definition cfg35 {F} `{PyFloat F} : Config F :=
  with_stop_loss (main_config false) (lit 35 100).

(** A YES position entered at 0.40, and its market at a given YES bid. *)
Definition pos40 {F} `{PyFloat F} : Position F :=
  open_position "KXBTC-A" YES (lit 40 100) 5 false.

Definition market_at_bid {F} (yb : Z) : Market F :=
  quoted_market "KXBTC-A" (Some yb) (Some (yb + 3)%Z) None None.

(** A YES position entered at 0.35. *)
Definition pos35 {F} `{PyFloat F} : Position F :=
  open_position "KXBTC-A" YES (lit 35 100) 5 false.

(** Whether the fixed-percentage stop fires for a YES position entered
    at [entry] cents whose market bids [bid] cents. *)
Definition hard_stop_fires {F} `{PyFloat F} (cfg : Config F)
    (entry bid : Z) : bool :=
  let pos := open_position "KXBTC-A" YES (cents entry) 5 false in
  let loss := unrealized_loss_pct pos (curr_val pos (market_at_bid bid)) in
  match stop_decision cfg loss false with
  | Some _ => true
  | None => false
  end.

(** A NO position entered at 0.70, and its market with the YES ask at 20. *)
Definition pos_no {F} `{PyFloat F} : Position F :=
  open_position "KXBTC-B" NO (lit 70 100) 2 true.

Definition market_ask20 {F} : Market F :=
  quoted_market "KXBTC-B" (Some 18%Z) (Some 20%Z) (Some 79%Z) (Some 82%Z).

(** A live YES position entered at 0.90 whose market now bids 80: the
    take-profit trigger holds; the gateway rejects the first closing
    order and accepts the next. *)
Definition tp_position {F} `{PyFloat F} : Position F :=
  open_position "KXBTC-C" YES (lit 90 100) 2 true.

Definition tp_market {F} `{PyFloat F} : Market F := {|
  ticker := "KXBTC-C"; m_status := "active"; m_result := "";
  yes_ask := Some 82%Z; yes_bid := Some 80%Z;
  no_ask := Some 20%Z; no_bid := Some 18%Z;
  floor_strike := Some (float_of_int 99000);
  cap_strike := Some (float_of_int 101000);
  close_time := Some (float_of_int 3600)
|}.

Definition retry_gateway {F} `{PyFloat F} : Gateway F := {|
  get_market := fun _ => Some tp_market;
  close_accepted := fun n _ => negb (Nat.eqb n 0)
|}.

Definition tp_world {F} `{PyFloat F} : World F :=
  {| db := [tp_position]; orders := []; log := [] |}.

Definition tp_order : Order :=
  {| o_ticker := "KXBTC-C"; o_side := YES; o_quantity := 2;
     o_price_cents := 80 |}.

(** Paper-mode stores holding 100 contracts entered at 0.90, at 0.99. *)
Definition w_exposure90 {F} `{PyFloat F} : World F :=
  {| db := [open_position "KXBTC-D" YES (lit 90 100) 100 false];
     orders := []; log := [] |}.

Definition w_exposure99 {F} `{PyFloat F} : World F :=
  {| db := [open_position "KXBTC-D" YES (lit 99 100) 100 false];
     orders := []; log := [] |}.

(** An empty store. *)
Definition w_empty {F} : World F := {| db := []; orders := []; log := [] |}.

(** What reconciliation makes of a stored row: an open row whose
    contract the venue does not hold is closed at its entry price. *)
Definition reconciled {F} `{PyFloat F} (live_pos : gmap string Z)
    (p : Position F) : Position F :=
  if is_open p && zero_on_venue live_pos p
  then mark_closed p (entry_price p) else p.

(** A live store with one position the venue no longer holds and one it
    holds. *)
Definition w_flat {F} `{PyFloat F} : World F :=
  {| db := [open_position "KXBTC-E" YES (lit 50 100) 4 true;
            open_position "KXBTC-G" NO (lit 30 100) 6 true];
     orders := []; log := [] |}.

Definition venue_flat : list (string * option Z) :=
  [("KXBTC-E", Some 0%Z); ("KXBTC-G", Some 6%Z)].

(** The general formula of [range_probability] on the two logarithms. *)
Definition clamped_mass {F} `{PyFloat F} (m : Libm F)
    (sigma_t l_cap l_floor : F) : F :=
  pymax (float_of_int 0)
    (pymin (float_of_int 1)
       (fsub (normal_cdf m (fdiv l_cap sigma_t))
             (normal_cdf m (fdiv l_floor sigma_t)))).

(** What the proofs about the general formula assume of the math
    library, in exact arithmetic: [erf] is non-decreasing, [log] is
    non-decreasing on the positive numbers, and [sqrt 2] is positive. *)
Definition monotone_libm (m : Libm Q) : Prop :=
  (forall x y : Q, (x <= y)%Q -> (m_erf m x <= m_erf m y)%Q)
  /\ (forall x y : Q, (0 < x)%Q -> (x <= y)%Q -> (m_log m x <= m_log m y)%Q)
  /\ (0 < m_sqrt m 2)%Q.

(** Two runs agree: the same exception, or equal values. *)
Definition result_equiv (r1 r2 : result Q) : Prop :=
  match r1, r2 with
  | Ok a, Ok b => (a == b)%Q
  | Raise e1, Raise e2 => e1 = e2
  | _, _ => False
  end.

(** A rational stand-in for the math library, monotone but not
    accurate: the identity for [sqrt], [x - 1] for [log x], and [x]
    clamped to [-1, 1] for [erf x]. *)
Definition stand_in_libm : Libm Q := {|
  m_sqrt := fun x => x;
  m_log := fun x => (x - 1)%Q;
  m_erf := fun x => Qmax (-1) (Qmin 1 x)
|}.

(** A listed range market: strikes 99000 and 101000, closing at second
    3600 (an hour after the scan at second 0). *)
Definition range_market {F} `{PyFloat F} (id : string) (yb ya na : option Z)
    : Market F := {|
  ticker := id; m_status := "active"; m_result := "";
  yes_ask := ya; yes_bid := yb; no_ask := na; no_bid := None;
  floor_strike := Some (float_of_int 99000);
  cap_strike := Some (float_of_int 101000);
  close_time := Some (float_of_int 3600)
|}.

(** YES bid 47, YES ask 50, the NO side not quoted. *)
Definition market_47_50 {F} `{PyFloat F} : Market F :=
  range_market "KXBTC-H" (Some 47%Z) (Some 50%Z) None.

(** A crossed book in which both sides are cheap: YES bid 60, YES ask
    30, NO ask 40. *)
Definition market_both_cheap {F} `{PyFloat F} : Market F :=
  range_market "KXBTC-X" (Some 60%Z) (Some 30%Z) (Some 40%Z).

(** YES bid 100, YES ask 50, the NO side not quoted. *)
Definition market_bid_100 {F} `{PyFloat F} : Market F :=
  range_market "KXBTC-Y" (Some 100%Z) (Some 50%Z) None.

(** The side of the candidate a scan appended, if any. *)
Definition scan_side {F} (s : Scan F) : option Side :=
  match s with
  | Appended c => Some (c_side c)
  | _ => None
  end.

(* ------------------------------------------------------------------ *)
(** ** Phase 3: price window and volatility *)

(** [VOL_LOOKBACK], [DEFAULT_ANN_VOL] and [MIN_ANN_VOL] of [main.py]. *)
Definition VOL_LOOKBACK : nat := 30.

Definition DEFAULT_ANN_VOL {F} `{PyFloat F} : F := lit 55 100.

Definition MIN_ANN_VOL {F} `{PyFloat F} : F := lit 20 100.

(** [d.append(x)] on a [deque(maxlen=maxlen)]: once the window is full
    the oldest sample is discarded. *)
Definition deque_append {A} (maxlen : nat) (d : list A) (x : A) : list A :=
  drop (length (d ++ [x]) - maxlen) (d ++ [x]).

(** [btc_prices] after the samples of [history], oldest first. *)
Definition btc_prices {A} (history : list A) : list A :=
  fold_left (deque_append VOL_LOOKBACK) history [].

Section Volatility.
Context {F : Type} `{PyFloat F}.
Local Open Scope py_scope.

(** [[math.log(prices[i] / prices[i-1]) for i in range(1, len(prices))
    if prices[i-1] > 0 and prices[i] > 0]], with [prev] the sample
    before [rest]. *)
Fixpoint log_returns (m : Libm F) (prev : F) (rest : list F)
    : result (list F) :=
  match rest with
  | [] => Ok []
  | x :: rest' =>
      if (prev >? float_of_int 0) && (x >? float_of_int 0) then
        let* r := pylog m (x / prev) in
        let* rs := log_returns m x rest' in
        Ok (r :: rs)
      else log_returns m x rest'
  end.

(** Realized volatility per minute; [stdev] is [statistics.stdev], which
    is only called on three returns or more.  The square roots are those
    of the constants 525600 and 2, taken to be nonzero. *)
Definition estimate_vol (m : Libm F) (stdev : list F -> F)
    (prices : list F) : result F :=
  let annual := m_sqrt m (float_of_int 525600) in
  if (length prices <? 5)%nat then Ok (DEFAULT_ANN_VOL / annual)
  else
    let* log_rets :=
      match prices with
      | [] => Ok []
      | p0 :: rest => log_returns m p0 rest
      end in
    if (length log_rets <? 3)%nat then Ok (DEFAULT_ANN_VOL / annual)
    else
      let vol_2min := stdev log_rets in
      let vol_per_min := vol_2min / m_sqrt m (float_of_int 2) in
      let floor := MIN_ANN_VOL / annual in
      Ok (pymax vol_per_min floor).
End Volatility.

(* ------------------------------------------------------------------ *)
(** ** Phase 4: the market list and the ranking *)

Section Ranking.
Context {F : Type} `{PyFloat F}.
Local Open Scope py_scope.

(** The loop body of [get_btc_markets]: a market is kept when its ticker
    is non-empty and was not seen before. *)
Definition collect_market (acc : gset string * list (Market F))
    (m : Market F) : gset string * list (Market F) :=
  if negb (String.eqb (ticker m) "")
     && negb (bool_decide (ticker m ∈ acc.1))
  then ({[ ticker m ]} ∪ acc.1, acc.2 ++ [m])
  else acc.

(** [KalshiClient.get_btc_markets] on the events of the response, each
    given by its list of markets. *)
Definition get_btc_markets (events : list (list (Market F)))
    : list (Market F) :=
  (fold_left (fun acc markets => fold_left collect_market markets acc)
     events (∅, [])).2.

(** [abs(edge)], up to the sign of a zero. *)
Definition pyabs (x : F) : F :=
  if x <? float_of_int 0 then float_of_int 0 - x else x.

Definition abs_edge (c : Candidate F) : F := pyabs (c_edge c).

(** [c] goes before the first candidate whose key is not above its own. *)
Fixpoint insert_ranked (c : Candidate F) (l : list (Candidate F))
    : list (Candidate F) :=
  match l with
  | [] => [c]
  | d :: l' =>
      if abs_edge c <? abs_edge d then d :: insert_ranked c l'
      else c :: d :: l'
  end.

(** [candidates.sort(key=lambda x: x["abs_edge"], reverse=True)]: the
    stable sort by decreasing key, which is what the list sort computes
    when no key is a NaN. *)
Definition rank (candidates : list (Candidate F)) : list (Candidate F) :=
  foldr insert_ranked [] candidates.
End Ranking.

(* ------------------------------------------------------------------ *)
(** ** Phase 5: execute *)

(** [int(x)]: truncation toward zero; [None] when Python raises (a NaN
    or an infinity). *)
Class PyInt (F : Type) := { py_int : F -> option Z }.

#[export] Instance exact_int : PyInt Q | 0 := {|
  py_int := fun q => Some (Z.quot (Qnum q) (Zpos (Qden q)))
|}.

#[export] Instance binary64_int : PyInt float | 10 := {|
  py_int := fun x =>
    match Prim2SF x with
    | S754_zero _ => Some 0%Z
    | S754_finite s m e =>
        let mag := Z.shiftl (Zpos m) e in
        Some (if s then (- mag)%Z else mag)
    | S754_infinity _ | S754_nan => None
    end
|}.

(** What [place_market_order] posts: a limit order to buy. *)
Record BuyOrder := {
  b_ticker : string;
  b_side : Side;
  b_price_cents : Z;
  b_count : Z
}.

(** The venue on the buying side: whether the [n]-th order placed is
    accepted ([false]: [place_market_order] returns [None]). *)
Record Broker := {
  place_accepted : nat -> BuyOrder -> bool
}.

(** The state Phase 5 threads: the position store, the orders placed,
    the markets analysed within the last two hours, and
    [trades_this_cycle]. *)
Record Desk (F : Type) := {
  d_db : list (Position F);
  d_placed : list BuyOrder;
  d_analysed : gset string;
  d_trades : Z
}.
Arguments d_db {F} _.
Arguments d_placed {F} _.
Arguments d_analysed {F} _.
Arguments d_trades {F} _.

Section Execute.
Context {F : Type} `{PyFloat F} `{PyInt F}.
Local Open Scope py_scope.

(** The payload of [KalshiClient.place_market_order]: the count is
    derived from the budget and the price, floored at one cent. *)
Definition place_market_order (ticker : string) (s : Side)
    (amount_usd : F) (price_cents : Z) : option BuyOrder :=
  let safe_price := Z.max 1 price_cents in
  match py_int (amount_usd * float_of_int 100) with
  | Some budget =>
      Some {| b_ticker := ticker; b_side := s;
              b_price_cents := price_cents;
              b_count := Z.max 1 (budget / safe_price) |}
  | None => None
  end.

(** [max(1, int(MAX_TRADE_USD * 100) // price_cents)]; [None] when the
    conversion or the division raises. *)
Definition trade_quantity (cfg : Config F) (price_cents : Z) : option Z :=
  match py_int (MAX_TRADE_USD cfg * float_of_int 100) with
  | Some budget =>
      if Z.eqb price_cents 0 then None
      else Some (Z.max 1 (budget / price_cents))
  | None => None
  end.

(** Modelled from the spec: [was_recently_analyzed] of the absent
    [DatabaseManager]; whether a decision on the market was recorded
    within the window. *)
Definition was_recently_analyzed (st : Desk F) (id : string) : bool :=
  bool_decide (id ∈ d_analysed st).

(** The [Position] Phase 5 builds for a candidate, in the fields the
    cycle reads afterwards. *)
Definition new_position (cfg : Config F) (c : Candidate F) (qty : Z)
    : Position F := {|
  market_id := c_ticker c;
  side := c_side c;
  entry_price := cents (c_price_cents c);
  quantity := qty;
  live := LIVE_MODE cfg;
  status := IsOpen;
  exit_value := None;
  realized_pnl := None
|}.

(** Modelled from the spec: [add_position] and [record_market_analysis]
    of the absent [DatabaseManager]; the position is appended to the
    store and the decision on its market is recorded. *)
Definition open_trade (cfg : Config F) (c : Candidate F) (qty : Z)
    (st : Desk F) : Desk F := {|
  d_db := d_db st ++ [new_position cfg c qty];
  d_placed := d_placed st;
  d_analysed := {[ c_ticker c ]} ∪ d_analysed st;
  d_trades := (d_trades st + 1)%Z
|}.

Definition send_order (o : BuyOrder) (st : Desk F) : Desk F := {|
  d_db := d_db st;
  d_placed := d_placed st ++ [o];
  d_analysed := d_analysed st;
  d_trades := d_trades st
|}.

(** The loop over the ranked candidates; [None] when an exception ends
    the cycle. *)
Fixpoint execute (cfg : Config F) (br : Broker)
    (candidates : list (Candidate F)) (st : Desk F) : option (Desk F) :=
  match candidates with
  | [] => Some st
  | c :: rest =>
      if (MAX_TRADES_PER_CYCLE cfg <=? d_trades st)%Z then Some st
      else if was_recently_analyzed st (c_ticker c) then
        execute cfg br rest st
      else
        match trade_quantity cfg (c_price_cents c) with
        | None => None
        | Some qty =>
            if LIVE_MODE cfg then
              match place_market_order (c_ticker c) (c_side c)
                      (MAX_TRADE_USD cfg) (c_price_cents c) with
              | None => None
              | Some o =>
                  let st1 := send_order o st in
                  if place_accepted br (length (d_placed st)) o
                  then execute cfg br rest (open_trade cfg c qty st1)
                  else execute cfg br rest st1
              end
            else execute cfg br rest (open_trade cfg c qty st)
        end
  end.

(** Phase 5 from the store and the analysis records the cycle has
    reached. *)
Definition execute_phase (cfg : Config F) (br : Broker)
    (candidates : list (Candidate F)) (d : list (Position F))
    (analysed : gset string) : option (Desk F) :=
  execute cfg br candidates
    {| d_db := d; d_placed := []; d_analysed := analysed; d_trades := 0 |}.
End Execute.

(* ------------------------------------------------------------------ *)
(** ** Gateway payloads *)

(** The JSON body [close_position] posts: a market order to sell. *)
Record ClosePayload := {
  cp_ticker : string;
  cp_side : string;
  cp_yes_price : option Z;
  cp_no_price : option Z;
  cp_count : Z
}.

(** [KalshiClient.close_position]: the price goes into the field of the
    side, two cents below the price given and never below one cent. *)
Definition close_position (ticker side : string) (qty price_cents : Z)
    : ClosePayload :=
  let price := Z.max 1 (price_cents - 2) in
  let is_yes := String.eqb (lower side) "yes" in
  {| cp_ticker := ticker;
     cp_side := lower side;
     cp_yes_price := if is_yes then Some price else None;
     cp_no_price := if is_yes then None else Some price;
     cp_count := qty |}.

(** The side as [main.py] writes it. *)
Definition side_name (s : Side) : string :=
  match s with
  | YES => "YES"
  | NO => "NO"
  end.

(** The body posted for a closing order of the monitor. *)
Definition close_payload (o : Order) : ClosePayload :=
  close_position (o_ticker o) (side_name (o_side o)) (o_quantity o)
    (o_price_cents o).

(* ------------------------------------------------------------------ *)
(** ** Auxiliary definitions: what a monitor pass may do *)

(** The market an output line is about. *)
Definition event_market {F} (e : Event F) : string :=
  match e with
  | EvSettled id _ _ => id
  | EvTakeProfit id _ _ _ => id
  | EvStop id _ _ _ => id
  | EvStatus id _ _ _ _ => id
  | EvError id => id
  | EvReconcile id => id
  end.

(** A closing order that sells position [pos]: its ticker, its side, its
    whole quantity, at a positive price. *)
Definition sells {F} (pos : Position F) (o : Order) : Prop :=
  o_ticker o = market_id pos /\ o_side o = side pos
  /\ o_quantity o = quantity pos /\ (0 < o_price_cents o)%Z.

(** Row [p] was left alone or closed ([p'] is the row afterwards). *)
Definition kept_or_closed {F} `{PyFloat F} (p p' : Position F) : Prop :=
  p' = p \/ (is_open p = true /\ exists x, p' = mark_closed p x).

(** In live mode, what stands behind the closing of [pos] on an
    unsettled market: an order selling it, sent as the [n]-th order or
    later, that the gateway accepted. *)
Definition accepted_sale {F} (gw : Gateway F) (n0 : nat)
    (sent : list Order) (pos : Position F) : Prop :=
  exists n o,
    (n0 <= n)%nat /\ sent !! n = Some o
    /\ close_accepted gw n o = true /\ sells pos o.

(** What a pass makes of row [p], given the orders sent by its end. *)
Definition row_outcome {F} `{PyFloat F} (cfg : Config F) (gw : Gateway F)
    (n0 : nat) (sent : list Order) (p p' : Position F) : Prop :=
  if is_open p then
    match get_market gw (market_id p) with
    | None => p' = p
    | Some market =>
        if is_settled market
        then p' = mark_closed p (settlement_value p (m_result market))
        else p' = p
             \/ exists x,
                  p' = mark_closed p x
                  /\ (LIVE_MODE cfg = false \/ accepted_sale gw n0 sent p)
    end
  else p' = p.

(** The effect of the loop body for the open row [i], [pos]. *)
Definition step_effect {F} `{PyFloat F} (cfg : Config F) (gw : Gateway F)
    (i : nat) (pos : Position F) (w w' : World F) : Prop :=
  exists os e p',
    orders w' = orders w ++ os
    /\ log w' = log w ++ [e]
    /\ event_market e = market_id pos
    /\ (LIVE_MODE cfg = false -> os = [])
    /\ (length os <= 2)%nat
    /\ Forall (sells pos) os
    /\ (db w' = db w /\ p' = pos \/ db w' = <[ i := p' ]> (db w))
    /\ row_outcome cfg gw (length (orders w)) (orders w') pos p'.

(** Gateways that answer every ticker with one market: one accepts every
    closing order, one is down. *)
Definition accepting_gateway {F} (market : Market F) : Gateway F := {|
  get_market := fun _ => Some market;
  close_accepted := fun _ _ => true
|}.

Definition gateway_down {F} : Gateway F := {|
  get_market := fun _ => None;
  close_accepted := fun _ _ => true
|}.

(** The market of [tp_market] after it was finalized with a result. *)
Definition finalized_market {F} `{PyFloat F} (res : string) : Market F := {|
  ticker := "KXBTC-C"; m_status := "finalized"; m_result := res;
  yes_ask := None; yes_bid := None; no_ask := None; no_bid := None;
  floor_strike := Some (float_of_int 99000);
  cap_strike := Some (float_of_int 101000);
  close_time := Some (float_of_int 3600)
|}.

(* ------------------------------------------------------------------ *)
(** ** Auxiliary definitions: ranking and execution *)

(** [a] may stand before [b] in the ranking. *)
Definition ranked_before (a b : Candidate Q) : Prop :=
  (abs_edge b <= abs_edge a)%Q.

(** [p] is the position Phase 5 opens for candidate [c]. *)
Definition traded {F} `{PyFloat F} `{PyInt F} (cfg : Config F)
    (c : Candidate F) (p : Position F) : Prop :=
  exists qty,
    trade_quantity cfg (c_price_cents c) = Some qty
    /\ p = new_position cfg c qty.

(** Among the orders [placed], the [n0]-th or a later one is the order
    for candidate [c], and the venue accepted it. *)
Definition filled {F} `{PyFloat F} `{PyInt F} (cfg : Config F)
    (br : Broker) (n0 : nat) (placed : list BuyOrder) (c : Candidate F)
    : Prop :=
  exists n o,
    (n0 <= n)%nat /\ placed !! n = Some o
    /\ place_accepted br n o = true
    /\ place_market_order (c_ticker c) (c_side c) (MAX_TRADE_USD cfg)
         (c_price_cents c) = Some o.

(** The tickers of the open positions of a store. *)
Definition open_ids {F} `{PyFloat F} (d : list (Position F)) : list string :=
  map (fun ip => market_id ip.2) (get_open_positions d).

(** A candidate with a ticker, a side, a price and an edge. *)
Definition candidate_at {F} `{PyFloat F} (id : string) (s : Side)
    (price : Z) (edge : F) : Candidate F := {|
  c_ticker := id; c_side := s; c_price_cents := price;
  c_model_prob := fadd (cents price) edge;
  c_implied_prob := cents price;
  c_exec_prob := cents price;
  c_edge := edge;
  c_mins_left := float_of_int 60
|}.

(** Four ranked candidates, and a venue that rejects the first order it
    gets and accepts the others. *)
Definition four_candidates {F} `{PyFloat F} : list (Candidate F) :=
  [candidate_at "KXBTC-P" YES 37 (lit 30 100);
   candidate_at "KXBTC-Q" NO 64 (lit 20 100);
   candidate_at "KXBTC-R" YES 12 (lit 15 100);
   candidate_at "KXBTC-S" NO 90 (lit 9 100)].

Definition retry_broker : Broker := {|
  place_accepted := fun n _ => negb (Nat.eqb n 0)
|}.

(** The result string that settles in favour of a side, and the other
    side. *)
Definition side_name_lower (s : Side) : string :=
  match s with
  | YES => "yes"
  | NO => "no"
  end.

Definition other_side (s : Side) : Side :=
  match s with
  | YES => NO
  | NO => YES
  end.

(** The body posted for order [o] sells its quantity and carries one
    price, in the field of the side of [o]: at least one cent, at most
    the price of [o], at most two cents below it. *)
Definition valid_close_body (o : Order) (body : ClosePayload) : Prop :=
  cp_ticker body = o_ticker o
  /\ cp_count body = o_quantity o
  /\ cp_side body = side_name_lower (o_side o)
  /\ exists x,
       match o_side o with
       | YES => cp_yes_price body = Some x /\ cp_no_price body = None
       | NO => cp_no_price body = Some x /\ cp_yes_price body = None
       end
       /\ (1 <= x <= o_price_cents o)%Z
       /\ (o_price_cents o - 2 <= x)%Z.

(** Whether the monitor was given a BTC price and a volatility. *)
Definition has_model {F} (btc vol_pm : option F) : bool :=
  match btc, vol_pm with
  | Some _, Some _ => true
  | _, _ => false
  end.

(** What an exit line stands on, in the store [d] the pass started
    from and the markets the gateway returns: an open position of that
    market (not settled for a stop or a take-profit), the value and P&L
    the line reports, and the rule that fired.  A stop names the loss of
    the position, which reached the stop-loss fraction or, short of it,
    lies above 5% while the model view turned against the position; a
    take-profit on YES exits at a YES bid of at least 80 cents, one on
    NO follows a YES ask from 1 to 5 cents and exits at the NO bid, or
    at the complement of that ask when there is no NO bid. *)
Definition exit_justified {F} `{PyFloat F} (cfg : Config F)
    (gw : Gateway F) (model : Market F -> option F)
    (d : list (Position F)) (e : Event F) : Prop :=
  match e with
  | EvSettled id exit pnl =>
      exists pos market,
        pos ∈ d /\ is_open pos = true /\ market_id pos = id
        /\ get_market gw id = Some market
        /\ is_settled market = true
        /\ exit = settlement_value pos (m_result market)
        /\ pnl = fmul (fsub exit (entry_price pos))
                   (float_of_int (quantity pos))
  | EvStop id reason cv pnl =>
      exists pos market,
        pos ∈ d /\ is_open pos = true /\ market_id pos = id
        /\ get_market gw id = Some market
        /\ is_settled market = false
        /\ cv = curr_val pos market
        /\ pnl = fmul (fsub cv (entry_price pos))
                   (float_of_int (quantity pos))
        /\ match reason with
           | STOP_LOSS loss =>
               loss = unrealized_loss_pct pos cv
               /\ fle (STOP_LOSS_PCT cfg) loss = true
           | EDGE_FLIPPED loss =>
               loss = unrealized_loss_pct pos cv
               /\ fle (STOP_LOSS_PCT cfg) loss = false
               /\ flt (lit 5 100) loss = true
               /\ edge_flipped pos market (model market) = true
           end
  | EvTakeProfit id s exit pnl =>
      exists pos market,
        pos ∈ d /\ is_open pos = true /\ market_id pos = id
        /\ side pos = s
        /\ get_market gw id = Some market
        /\ is_settled market = false
        /\ pnl = fmul (fsub exit (entry_price pos))
                   (float_of_int (quantity pos))
        /\ match s with
           | YES =>
               (80 <= quote (yes_bid market))%Z
               /\ exit = cents (quote (yes_bid market))
           | NO =>
               (0 < quote (yes_ask market) <= 5)%Z
               /\ exit
                  = if (0 <? quote (no_bid market))%Z
                    then cents (quote (no_bid market))
                    else fdiv (float_of_int (100 - quote (yes_ask market)))
                           (float_of_int 100)
           end
  | _ => True
  end.

(** A stop for a model that turned. *)
Definition is_edge_flip {F} (e : Event F) : bool :=
  match e with
  | EvStop _ (EDGE_FLIPPED _) _ _ => true
  | _ => false
  end.

(** The scan of [market] ends the cycle with exception [e]: the market
    passes the filters, and either the model raises [e] on its strikes,
    or the model returns, a side is chosen at a price strictly between 0
    and 100 cents, and the position description raises [e]. *)
Definition scan_raises {F} `{PyFloat F} (cfg : Config F) (m : Libm F)
    (held : gset string) (now_ts btc vol_pm : F) (market : Market F)
    (e : PyErr) : Prop :=
  exists mins_left floor_s cap_s,
    scan_filters cfg held now_ts market = Some (mins_left, floor_s, cap_s)
    /\ (range_probability m btc floor_s cap_s vol_pm mins_left = Raise e
        \/ exists p s price edge,
             range_probability m btc floor_s cap_s vol_pm mins_left = Ok p
             /\ choose_side cfg p (quote (yes_ask market))
                  (quote (yes_bid market)) (quote (no_ask market))
                = Some (s, price, edge)
             /\ (0 < price < 100)%Z
             /\ btc_pos btc floor_s cap_s = Raise e).

(* ------------------------------------------------------------------ *)
(** ** Tactics *)

(** Turn divisions by constants into products, for [lra]. *)
Ltac q_consts :=
  unfold Qdiv in *;
  repeat match goal with
  | |- context [Qinv (Zpos ?a # ?b)] =>
      change (Qinv (Zpos a # b)) with (Zpos b # a)
  | H : context [Qinv (Zpos ?a # ?b)] |- _ =>
      change (Qinv (Zpos a # b)) with (Zpos b # a) in H
  | |- context [inject_Z (Zpos ?a)] =>
      change (inject_Z (Zpos a)) with (Zpos a # 1)
  | H : context [inject_Z (Zpos ?a)] |- _ =>
      change (inject_Z (Zpos a)) with (Zpos a # 1) in H
  | |- context [inject_Z Z0] => change (inject_Z Z0) with (0 # 1)
  | H : context [inject_Z Z0] |- _ =>
      change (inject_Z Z0) with (0 # 1) in H
  end.

(** Pick the orders and the output line of one branch of the monitor. *)
Ltac finish_orders :=
  (split; [reflexivity |]);
  (split; [reflexivity |]);
  (split; [reflexivity |]);
  (split; [intros; first [reflexivity | congruence] |]);
  (split; [cbn; lia |]);
  (split; [repeat constructor; cbn; first [congruence | lia] |]).

Ltac pick_orders :=
  first
    [ exists []; eexists; eexists; rewrite app_nil_r; finish_orders
    | eexists [_]; eexists; eexists; finish_orders
    | eexists [_; _]; eexists; eexists; rewrite <- app_assoc;
      finish_orders ].

(* ------------------------------------------------------------------ *)
(** ** Exact arithmetic: reflection lemmas *)

Section ExactFacts.
Local Open Scope Q_scope.

Lemma fleP (a b : Q) : reflect (a <= b) (fle a b).
Proof.
  cbn. destruct (Qle_bool a b) eqn:E; constructor.
  - now apply Qle_bool_iff.
  - intros Hle. apply Qle_bool_iff in Hle. congruence.
Qed.

Lemma fltP (a b : Q) : reflect (a < b) (flt a b).
Proof.
  cbn. destruct (Qle_bool b a) eqn:E; constructor.
  - apply Qle_bool_iff in E. now apply Qle_not_lt.
  - apply Qnot_le_lt. intros Hle. apply Qle_bool_iff in Hle. congruence.
Qed.

Lemma feqP (a b : Q) : reflect (a == b) (feq a b).
Proof.
  cbn. destruct (Qeq_bool a b) eqn:E; constructor.
  - now apply Qeq_bool_iff.
  - intros Heq. apply Qeq_bool_iff in Heq. congruence.
Qed.

Lemma truthyP (a : Q) : reflect (~ a == 0) (truthy a).
Proof.
  unfold truthy. destruct (feqP a (float_of_int 0)) as [E | E];
    constructor; cbn in E; tauto.
Qed.

Lemma cents_exact (c : Z) : cents c == inject_Z c * (1 # 100).
Proof. unfold cents. cbn. reflexivity. Qed.

Lemma lit_exact (n : Z) (d : positive) : lit n (Zpos d) == n # d.
Proof. unfold lit. cbn. symmetry. apply Qmake_Qdiv. Qed.
End ExactFacts.

(* ------------------------------------------------------------------ *)
(** ** Position monitor: valuation and stop-loss *)

Section MonitorFacts.
Local Open Scope Q_scope.

(** The stop-loss stage ends in exactly one report, a stop or a status
    line, and the report carries [curr_val]. *)
Lemma stop_loss_stage_reports (cfg : Config Q) gw i pos market model w :
  exists e,
    log (stop_loss_stage cfg gw i pos market model w) = log w ++ [e]
    /\ event_curr_val e = Some (curr_val pos market).
Proof.
  unfold stop_loss_stage, status_display, send_close.
  destruct (stop_decision _ _ _); [| eexists; split; reflexivity].
  destruct (LIVE_MODE cfg); [| eexists; split; reflexivity].
  destruct (side pos) eqn:Es; rewrite ?Es;
    destruct (Z.ltb 0 _); try (eexists; split; reflexivity);
    destruct (close_accepted _ _ _); eexists; split; reflexivity.
Qed.

Lemma curr_val_NO (pos : Position Q) market q :
  side pos = NO -> yes_ask market = Some q -> (0 < q)%Z ->
  curr_val pos market == 1 - inject_Z q / 100.
Proof.
  intros Hs Hq Hpos. unfold curr_val. rewrite Hs, Hq. cbn.
  destruct (Z.eqb_spec q 0); [lia |].
  unfold Z.sub. rewrite inject_Z_plus, inject_Z_opp.
  change (inject_Z 100) with (100 # 1). field.
Qed.

Lemma entry_nonzero (pos : Position Q) :
  0 < entry_price pos -> ~ entry_price pos == 0.
Proof. intros He E. rewrite E in He. now apply Qlt_irrefl in He. Qed.

Lemma loss_exact (pos : Position Q) cv :
  0 < entry_price pos ->
  unrealized_loss_pct pos cv == (entry_price pos - cv) / entry_price pos.
Proof.
  intros He. unfold unrealized_loss_pct.
  destruct (truthyP (entry_price pos)) as [_ | Hz]; [reflexivity |].
  exfalso. apply Hz. now apply entry_nonzero.
Qed.

Lemma loss_times_entry (pos : Position Q) cv :
  0 < entry_price pos ->
  unrealized_loss_pct pos cv * entry_price pos == entry_price pos - cv.
Proof.
  intros He. rewrite loss_exact by assumption. field.
  now apply entry_nonzero.
Qed.

Lemma hard_stop_iff (pos : Position Q) cv (t : Q) :
  0 < entry_price pos ->
  t <= unrealized_loss_pct pos cv <-> cv <= entry_price pos * (1 - t).
Proof.
  intros He. pose proof (loss_times_entry pos cv He) as Hl.
  set (l := unrealized_loss_pct pos cv) in *.
  set (e := entry_price pos) in *.
  split; intros Hle.
  - assert (t * e <= l * e) by (apply Qmult_le_r; assumption). nra.
  - apply (Qmult_le_r _ _ e); [assumption |]. nra.
Qed.

(** C2.  A NO position whose market quotes a positive YES ask [q] is
    valued at [1 - q/100]: that is the value the stop-loss stage works
    with and reports, it differs from the raw quote [q/100] (the two
    coincide only at [q = 50]), and at [q = 20] it is 0.80. *)
Theorem C2_no_side_valued_at_complement
    (cfg : Config Q) gw i (pos : Position Q) market model w q :
  side pos = NO -> yes_ask market = Some q -> (0 < q)%Z ->
  curr_val pos market == 1 - inject_Z q / 100
  /\ (q <> 50%Z -> ~ curr_val pos market == inject_Z q / 100)
  /\ (exists e,
        log (stop_loss_stage cfg gw i pos market model w) = log w ++ [e]
        /\ event_curr_val e = Some (curr_val pos market))
  /\ (q = 20%Z ->
      curr_val pos market == 80 # 100
      /\ ~ curr_val pos market == 20 # 100).
Proof.
  intros Hs Hq Hpos.
  pose proof (curr_val_NO pos market q Hs Hq Hpos) as Hv.
  repeat split.
  - exact Hv.
  - intros Hne E. rewrite Hv in E. apply Hne.
    apply inject_Z_injective. q_consts. lra.
  - apply stop_loss_stage_reports.
  - subst q. rewrite Hv. reflexivity.
  - subst q. rewrite Hv. discriminate.
Qed.

Lemma C2_witness :
  side (pos_no (F := Q)) = NO
  /\ yes_ask (market_ask20 (F := Q)) = Some 20%Z
  /\ curr_val pos_no (market_ask20 (F := Q)) == 80 # 100.
Proof.
  split; [reflexivity |]. split; [reflexivity |].
  apply (C2_no_side_valued_at_complement (main_config true) retry_gateway
           0%nat pos_no market_ask20 None tp_world 20);
    reflexivity.
Defined.

(** The same valuation in binary64: [(100 - 20) / 100.0] is [0.8]. *)
Example curr_val_no_binary64 :
  curr_val pos_no (market_ask20 (F := float)) = 0.8%float.
Proof. reflexivity. Qed.

(** In exact arithmetic, for a position with positive entry price that
    reaches the stop-loss stage, the fixed-percentage stop fires exactly
    when the loss fraction [(entry_price - curr_val) / entry_price] is
    at least [STOP_LOSS_PCT], that is when
    [curr_val <= entry_price * (1 - STOP_LOSS_PCT)]; above that value a
    stop fires only for a flipped edge together with a loss above 0.05.
    With fraction 0.35 and entry 0.40 the stop fires at 0.26 and not at
    0.27. *)
Lemma stop_loss_boundary_exact
    (cfg : Config Q) (pos : Position Q) market model :
  0 < entry_price pos ->
  let cv := curr_val pos market in
  let loss := unrealized_loss_pct pos cv in
  let flipped := edge_flipped pos market model in
  let fired := stop_decision cfg loss flipped in
  loss == (entry_price pos - cv) / entry_price pos
  /\ (fired = Some (STOP_LOSS loss) <-> STOP_LOSS_PCT cfg <= loss)
  /\ (STOP_LOSS_PCT cfg <= loss
      <-> cv <= entry_price pos * (1 - STOP_LOSS_PCT cfg))
  /\ (entry_price pos * (1 - STOP_LOSS_PCT cfg) < cv ->
      (fired = Some (EDGE_FLIPPED loss)
       <-> flipped = true /\ 5 # 100 < loss)
      /\ (fired = None <-> ~ (flipped = true /\ 5 # 100 < loss)))
  /\ (let loss26 : Q :=
        unrealized_loss_pct pos40 (curr_val pos40 (market_at_bid 26)) in
      let loss27 : Q :=
        unrealized_loss_pct pos40 (curr_val pos40 (market_at_bid 27)) in
      stop_decision cfg35 loss26 false = Some (STOP_LOSS loss26)
      /\ stop_decision cfg35 loss27 false = None).
Proof.
  intros He cv loss flipped fired.
  pose proof (hard_stop_iff pos cv (STOP_LOSS_PCT cfg) He) as Hb.
  fold loss in Hb.
  assert (Hlit : lit 5 100 == 5 # 100) by apply lit_exact.
  split; [apply loss_exact; assumption |].
  split.
  { unfold fired, stop_decision.
    destruct (fleP (STOP_LOSS_PCT cfg) loss) as [Hge | Hlt].
    - tauto.
    - split; [| tauto]. destruct (flipped && _); discriminate. }
  split; [exact Hb |].
  split.
  { intros Habove.
    assert (Hnot : ~ STOP_LOSS_PCT cfg <= loss).
    { intros Hge. apply Hb in Hge. revert Hge. apply Qlt_not_le.
      exact Habove. }
    unfold fired, stop_decision.
    destruct (fleP (STOP_LOSS_PCT cfg) loss) as [Hge | _]; [tauto |].
    destruct flipped; cbn [andb].
    - destruct (fltP (lit 5 100) loss) as [Hgt | Hle];
        [rewrite Hlit in Hgt | rewrite Hlit in Hle];
        intuition (discriminate || congruence).
    - intuition (discriminate || congruence). }
  cbv zeta. split; reflexivity.
Qed.

Lemma stop_loss_boundary_exact_witness :
  0 < entry_price (pos40 (F := Q))
  /\ stop_decision (F := Q) (main_config false)
       (unrealized_loss_pct pos40 (curr_val pos40 (market_at_bid 24)))
       (edge_flipped pos40 (market_at_bid 24) None)
     = Some (STOP_LOSS
               (unrealized_loss_pct pos40
                  (curr_val pos40 (market_at_bid 24)))).
Proof.
  assert (He : 0 < entry_price (pos40 (F := Q))) by reflexivity.
  split; [exact He |].
  destruct (stop_loss_boundary_exact (main_config false) pos40
              (market_at_bid 24) None He) as (_ & Hfire & _).
  apply (proj2 Hfire). vm_compute. discriminate.
Defined.

(** In binary64 the loss fraction at 0.26 is [0.35000000000000003]: the
    stop at fraction 0.35 fires there, and not at 0.27. *)
Example stop_boundary_binary64 :
  unrealized_loss_pct (F := float) pos40 (curr_val pos40 (market_at_bid 26))
    = 0.35000000000000003%float
  /\ stop_decision (F := float) cfg35
       (unrealized_loss_pct pos40 (curr_val pos40 (market_at_bid 26))) false
     = Some (STOP_LOSS 0.35000000000000003%float)
  /\ stop_decision (F := float) cfg35
       (unrealized_loss_pct pos40 (curr_val pos40 (market_at_bid 27))) false
     = None.
Proof. repeat split; reflexivity. Qed.
End MonitorFacts.

(** C8.  The program computes the loss fraction in binary64, and at the
    boundary the quotient can fall short of the threshold.  With the
    stop-loss fraction 0.40 of [main.py], a YES position entered at 0.35
    and a YES bid of 21 cents: the current value 0.21 is at most
    [0.35 * (1 - 0.40)], the loss is 40% of the entry price, yet the
    quotient [(0.35 - 0.21) / 0.35] is [0.39999999999999997], the stop
    does not fire, and the pass leaves the position open behind a status
    line.  In exact arithmetic the same position is stopped.  Over all
    entries and bids from 1 to 99 cents the binary64 decision differs
    from the exact one at six pairs, each a loss of exactly 40% that
    does not stop: the entries 0.35, 0.45, 0.70, 0.75, 0.85 and 0.90
    with the bid at 60% of the entry. *)
Theorem C8_stop_loss_misses_boundary (m : Libm float) :
  let cfg := main_config (F := float) false in
  let market := market_at_bid (F := float) 21 in
  let cv := curr_val pos35 market in
  let loss := unrealized_loss_pct pos35 cv in
  let w' :=
    monitor_positions cfg (accepting_gateway market) m 0%float None None
      {| db := [pos35]; orders := []; log := [] |} in
  (entry_price pos35 = 0.35%float /\ cv = 0.21%float
   /\ STOP_LOSS_PCT cfg = 0.4%float)
  /\ fle cv (fmul (entry_price pos35)
               (fsub (float_of_int 1) (STOP_LOSS_PCT cfg))) = true
  /\ loss = 0.39999999999999997%float
  /\ fle (STOP_LOSS_PCT cfg) loss = false
  /\ stop_decision cfg loss (edge_flipped pos35 market None) = None
  /\ db w' = [pos35]
  /\ map event_curr_val (log w') = [Some 0.21%float]
  /\ (let loss_exact : Q :=
        unrealized_loss_pct pos35 (curr_val pos35 (market_at_bid 21)) in
      (loss_exact == 40 # 100)%Q
      /\ stop_decision (main_config false) loss_exact false
         = Some (STOP_LOSS loss_exact))
  /\ List.filter
       (fun eb : Z * Z =>
          negb (Bool.eqb (hard_stop_fires (F := Q) (main_config false)
                            eb.1 eb.2)
                  (hard_stop_fires cfg eb.1 eb.2)))
       (list_prod (seqZ 1 99) (seqZ 1 99))
     = [(35, 21); (45, 27); (70, 42); (75, 45); (85, 51); (90, 54)]%Z
  /\ Forall
       (fun eb : Z * Z =>
          hard_stop_fires (F := Q) (main_config false) eb.1 eb.2 = true
          /\ hard_stop_fires cfg eb.1 eb.2 = false)
       [(35, 21); (45, 27); (70, 42); (75, 45); (85, 51); (90, 54)]%Z.
Proof.
  cbv zeta. split; [repeat split; reflexivity |].
  do 6 (split; [reflexivity |]).
  split; [split; reflexivity |].
  split; [vm_compute; reflexivity |].
  repeat (constructor; [split; reflexivity |]). constructor.
Qed.

(* ------------------------------------------------------------------ *)
(** ** Position monitor: a rejected take-profit order *)

Section RejectedTakeProfit.
Local Open Scope Q_scope.

Lemma no_stop_below (cfg : Config Q) loss flipped :
  loss < STOP_LOSS_PCT cfg -> (flipped = true -> loss <= 5 # 100) ->
  stop_decision cfg loss flipped = None.
Proof.
  intros Hh Hf. unfold stop_decision.
  destruct (fleP (STOP_LOSS_PCT cfg) loss) as [Hge | _].
  - exfalso. revert Hh. now apply Qle_not_lt.
  - destruct flipped; [| reflexivity]. cbn [andb].
    destruct (fltP (lit 5 100) loss) as [Hgt | _]; [| reflexivity].
    exfalso. rewrite lit_exact in Hgt. specialize (Hf eq_refl).
    revert Hgt. now apply Qle_not_lt.
Qed.

Lemma loss_bound (pos : Position Q) cv (b : Q) :
  0 < entry_price pos -> entry_price pos * (1 - b) < cv ->
  unrealized_loss_pct pos cv < b.
Proof.
  intros He Hcv. apply Qnot_le_lt. intros Hle.
  apply hard_stop_iff in Hle; [| assumption].
  revert Hcv. now apply Qle_not_lt.
Qed.

(** Live mode, a NO position bought below 1.00: when the take-profit
    order is rejected nothing else fires; the store is untouched and a
    status line is printed. *)
Lemma rejected_take_profit_no_side
    gw i (pos : Position Q) market model w :
  side pos = NO -> is_settled market = false ->
  (0 < quote (yes_ask market) <= 5)%Z -> (0 < quote (no_bid market))%Z ->
  0 < entry_price pos -> entry_price pos < 1 ->
  close_accepted gw (length (orders w))
    {| o_ticker := market_id pos; o_side := NO;
       o_quantity := quantity pos;
       o_price_cents := quote (no_bid market) |} = false ->
  let w' := check_position (main_config true) gw i pos market model w in
  db w' = db w
  /\ length (orders w') = S (length (orders w))
  /\ exists entry cv pct,
       log w' = log w ++ [EvStatus (market_id pos) NO entry cv pct].
Proof.
  intros Hs Hset [Hya1 Hya2] Hnb He0 He1 Hrej w'.
  assert (Hq : inject_Z (quote (yes_ask market)) <= 5).
  { change 5 with (inject_Z 5). now rewrite <- Zle_Qle. }
  assert (Hcv : curr_val pos market
                == (100 - inject_Z (quote (yes_ask market))) * (1 # 100)).
  { unfold curr_val. rewrite Hs.
    destruct (Z.eqb_spec (quote (yes_ask market)) 0); [lia |].
    cbn. unfold Z.sub. rewrite inject_Z_plus, inject_Z_opp.
    q_consts. ring. }
  unfold w', check_position, take_profit_no, take_profit_yes.
  rewrite Hset, Hs. cbn [Side_eqb andb LIVE_MODE main_config].
  destruct (Z.ltb_spec 0 (quote (yes_ask market))); [| lia].
  destruct (Z.leb_spec (quote (yes_ask market)) 5); [| lia].
  destruct (Z.ltb_spec 0 (quote (no_bid market))); [| lia].
  cbn [andb]. unfold stop_loss_stage.
  rewrite no_stop_below.
  - unfold send_close. rewrite Hrej.
    unfold status_display. cbn [emit db orders log]. rewrite Hs.
    split; [reflexivity |]. split.
    + rewrite length_app. cbn. lia.
    + do 3 eexists. reflexivity.
  - apply loss_bound; [assumption |].
    cbn [STOP_LOSS_PCT main_config]. rewrite lit_exact, Hcv. nra.
  - intros _. apply Qlt_le_weak. apply loss_bound; [assumption |].
    rewrite Hcv. nra.
Qed.

(** Live mode, a YES position bought at 1.00 or below, checked without
    model data (the first pass of a cycle): a rejected take-profit
    order is followed by the status line only. *)
Lemma rejected_take_profit_yes_first_pass
    gw i (pos : Position Q) market w :
  side pos = YES -> is_settled market = false ->
  (80 <= quote (yes_bid market))%Z ->
  0 < entry_price pos -> entry_price pos <= 1 ->
  close_accepted gw (length (orders w))
    {| o_ticker := market_id pos; o_side := YES;
       o_quantity := quantity pos;
       o_price_cents := quote (yes_bid market) |} = false ->
  let w' := check_position (main_config true) gw i pos market None w in
  db w' = db w
  /\ length (orders w') = S (length (orders w))
  /\ exists entry cv pct,
       log w' = log w ++ [EvStatus (market_id pos) YES entry cv pct].
Proof.
  intros Hs Hset Hyb He0 He1 Hrej w'.
  assert (Hq : 80 <= inject_Z (quote (yes_bid market))).
  { change 80 with (inject_Z 80). now rewrite <- Zle_Qle. }
  assert (Hcv : curr_val pos market
                == inject_Z (quote (yes_bid market)) * (1 # 100)).
  { unfold curr_val. rewrite Hs.
    destruct (Z.eqb_spec (quote (yes_bid market)) 0); [lia |].
    apply cents_exact. }
  unfold w', check_position, take_profit_no, take_profit_yes.
  rewrite Hset, Hs. cbn [Side_eqb andb LIVE_MODE main_config].
  destruct (Z.leb_spec 80 (quote (yes_bid market))); [| lia].
  unfold stop_loss_stage.
  rewrite no_stop_below.
  - unfold send_close. rewrite Hrej.
    unfold status_display. cbn [emit db orders log]. rewrite Hs.
    split; [reflexivity |]. split.
    + rewrite length_app. cbn. lia.
    + do 3 eexists. reflexivity.
  - apply loss_bound; [assumption |].
    cbn [STOP_LOSS_PCT main_config]. rewrite lit_exact, Hcv. nra.
  - cbn [edge_flipped]. discriminate.
Qed.

Lemma tp_edge_flipped (p : Q) :
  p < 82 # 100 -> edge_flipped tp_position tp_market (Some p) = true.
Proof.
  intros Hp. unfold edge_flipped. cbn [side tp_position open_position].
  destruct (fltP p (cents (quote (yes_ask (tp_market (F := Q))))))
    as [_ | Hn]; [reflexivity |].
  exfalso. apply Hn. rewrite cents_exact. cbn. q_consts. lra.
Qed.

(** The run of [check_position] on that position: a rejected
    take-profit order, then the edge-flip stop and an accepted order. *)
Lemma rejected_then_stopped (p : Q) :
  p < 82 # 100 ->
  check_position (main_config true) retry_gateway 0 tp_position tp_market
    (Some p) tp_world
  = emit (EvStop "KXBTC-C"
            (EDGE_FLIPPED (unrealized_loss_pct tp_position (cents 80)))
            (cents 80)
            ((cents 80 - entry_price tp_position) * inject_Z 2))
      {| db := [mark_closed tp_position (cents 80)];
         orders := [tp_order; tp_order]; log := [] |}.
Proof.
  intros Hp.
  unfold check_position, take_profit_no, take_profit_yes, stop_loss_stage.
  rewrite (tp_edge_flipped p Hp). reflexivity.
Qed.

(** C3.  The claim fails on the model-aware pass.  A live YES position
    entered at 0.90, YES bid 80 and YES ask 82, model probability below
    0.82: the take-profit trigger holds and its closing order is
    rejected, yet the monitor does not stop at the status line; the
    edge-flip stop fires (loss 11% > 5%), a second closing order goes
    out, it is accepted, and the position is marked closed. *)
Theorem C3_rejected_take_profit_reaches_stop
    (m : Libm Q) (now : Q) (btc vol_pm : option Q) (p : Q) :
  model_view m now btc vol_pm tp_market = Some p ->
  p < 82 # 100 ->
  let cfg : Config Q := main_config true in
  let w' := monitor_positions cfg retry_gateway m now btc vol_pm tp_world in
  (side (tp_position (F := Q)) = YES
   /\ (80 <= quote (yes_bid (tp_market (F := Q))))%Z)
  /\ close_accepted (retry_gateway (F := Q)) 0 tp_order = false
  /\ orders w' = [tp_order; tp_order]
  /\ map status (db w') = [IsClosed]
  /\ exists loss cv pnl,
       log w' = [EvStop "KXBTC-C" (EDGE_FLIPPED loss) cv pnl]
       /\ cv == 80 # 100.
Proof.
  intros Hmodel Hp cfg w'.
  split; [split; [reflexivity | cbn; lia] |].
  split; [reflexivity |].
  assert (Hw : w' =
    check_position cfg retry_gateway 0 tp_position tp_market (Some p)
      tp_world).
  { unfold w', monitor_positions.
    change (get_open_positions (db tp_world)) with [(0%nat, tp_position (F := Q))].
    cbn [fold_left monitor_step].
    change (get_market retry_gateway (market_id tp_position))
      with (Some (tp_market (F := Q))).
    cbv beta iota. now rewrite Hmodel. }
  rewrite Hw. unfold cfg. rewrite (rejected_then_stopped p Hp).
  cbn [emit orders db log].
  split; [reflexivity |]. split; [reflexivity |].
  do 3 eexists. split; [reflexivity |]. rewrite cents_exact. reflexivity.
Qed.

Lemma C3_witness :
  model_view stand_in_libm 0 (Some 50000) (Some (1 # 1000000000000))
    tp_market = Some 0
  /\ 0 < 82 # 100
  /\ map status
       (db (monitor_positions (main_config true) retry_gateway
              stand_in_libm 0 (Some 50000) (Some (1 # 1000000000000))
              tp_world))
     = [IsClosed].
Proof.
  assert (Hm : model_view stand_in_libm 0 (Some 50000)
                 (Some (1 # 1000000000000)) tp_market = Some 0)
    by reflexivity.
  assert (Hp : 0 < 82 # 100) by reflexivity.
  split; [exact Hm |]. split; [exact Hp |].
  exact (proj1 (proj2 (proj2 (proj2
           (C3_rejected_take_profit_reaches_stop stand_in_libm 0
              (Some 50000) (Some (1 # 1000000000000)) 0 Hm Hp))))).
Defined.

(** The same pass in binary64 with the machine square root, BTC at
    50000 and a volatility so small that the model returns 0.0 without
    reaching [log] or [erf]. *)
Example rejected_take_profit_binary64 (lg er : float -> float) :
  let m := {| m_sqrt := PrimFloat.sqrt; m_log := lg; m_erf := er |} in
  let w' :=
    monitor_positions (F := float) (main_config true) retry_gateway m
      0%float (Some 50000%float) (Some 1e-12%float) tp_world in
  orders w' = [tp_order; tp_order]
  /\ map status (db w') = [IsClosed]
  /\ log w' =
     [EvStop "KXBTC-C" (EDGE_FLIPPED 0.11111111111111108%float)
        0.8%float (-0.19999999999999996)%float].
Proof. cbv zeta. repeat split; reflexivity. Qed.
End RejectedTakeProfit.

(* ------------------------------------------------------------------ *)
(** ** Capital check *)

Section CapitalFacts.
Local Open Scope Q_scope.

Lemma exposure_fold (l : list (nat * Position Q)) (acc : Q) :
  fold_left
    (fun a ip => (a + entry_price ip.2 * float_of_int (quantity ip.2))%py)
    l acc
  == acc + fold_right
             (fun ip s => entry_price ip.2 * inject_Z (quantity ip.2) + s)
             0 l.
Proof.
  revert acc. induction l as [| ip l IH]; intros acc; cbn [fold_left fold_right].
  - ring.
  - rewrite IH. cbn. ring.
Qed.

Lemma exposure_is_sum (l : list (nat * Position Q)) :
  exposure_of l
  == fold_right
       (fun ip s => entry_price ip.2 * inject_Z (quantity ip.2) + s) 0 l.
Proof. unfold exposure_of. rewrite exposure_fold. cbn. ring. Qed.

Lemma exp_pct_positive (balance exposure : Q) :
  0 < balance + exposure ->
  exp_pct balance exposure == exposure / (balance + exposure).
Proof.
  intros Ht. unfold exp_pct.
  destruct (fltP (float_of_int 0) (balance + exposure)%py) as [_ | Hn];
    [reflexivity | tauto].
Qed.

Lemma skips_iff (live : bool) (balance exposure : Q) :
  skips_new_trades (main_config live) balance exposure = true
  <-> 99 # 100 <= exp_pct balance exposure.
Proof.
  unfold skips_new_trades. cbn [MAX_EXPOSURE_PCT main_config].
  destruct (fleP (lit 99 100) (exp_pct balance exposure)) as [Hy | Hn];
    rewrite lit_exact in *; intuition discriminate.
Qed.



(** The two runs in binary64: [0.9 * 100] is [90.0], [90.0 / 100.0] is
    [0.9]; [0.99 * 100] is [99.0] and [99.0 / 100.0] is the float
    [0.99] of the cap. *)
Example circuit_breaker_binary64 :
  capital_check (F := float) (main_config false) 10%float [] w_exposure90
    = (false, w_exposure90)
  /\ exp_pct (F := float) 10%float
       (exposure_of (get_open_positions (db w_exposure90))) = 0.9%float
  /\ capital_check (F := float) (main_config false) 1%float [] w_exposure99
     = (true, w_exposure99)
  /\ exp_pct (F := float) 1%float
       (exposure_of (get_open_positions (db w_exposure99))) = 0.99%float.
Proof. repeat split; reflexivity. Qed.

(** C10.  With a non-positive total the fraction is 1.0 rather than a
    quotient, and the circuit breaker trips: the entry phase is
    skipped. *)
Theorem C10_nonpositive_total_trips_breaker
    (live : bool) (reported : Q) venue (w : World Q) :
  let cfg := main_config live in
  let positions := get_open_positions (db (reconcile cfg venue w)) in
  let exposure := exposure_of positions in
  let balance := effective_balance cfg reported in
  balance + exposure <= 0 ->
  exp_pct balance exposure = 1
  /\ skips_new_trades cfg balance exposure = true
  /\ (capital_check cfg reported venue w).1 = true.
Proof.
  intros cfg positions exposure balance Ht.
  assert (He : exp_pct balance exposure = 1).
  { unfold exp_pct.
    destruct (fltP (float_of_int 0) (balance + exposure)%py) as [Hp | _];
      [| reflexivity].
    exfalso. apply (Qlt_not_le _ _ Hp). exact Ht. }
  assert (Hs : skips_new_trades cfg balance exposure = true).
  { unfold cfg. apply skips_iff. rewrite He. discriminate. }
  split; [exact He |]. split; [exact Hs |]. exact Hs.
Qed.

(** In binary64 too, for all floats: when the total is not above zero
    (a NaN total included) the fraction is the literal 1.0 and the
    entry phase is skipped. *)
Lemma nonpositive_total_binary64 (live : bool) (balance exposure : float) :
  PrimFloat.ltb 0 (PrimFloat.add balance exposure) = false ->
  exp_pct balance exposure = 1%float
  /\ skips_new_trades (main_config live) balance exposure = true.
Proof.
  intros Ht.
  assert (He : exp_pct balance exposure = 1%float).
  { unfold exp_pct. cbn [flt fadd binary64 float_of_int Z_to_float].
    now rewrite Ht. }
  split; [exact He |]. unfold skips_new_trades. now rewrite He.
Qed.

Lemma C10_witness :
  effective_balance (F := Q) (main_config true) 0
    + exposure_of (get_open_positions (db (reconcile (main_config true) [] w_empty)))
    <= 0
  /\ (capital_check (F := Q) (main_config true) 0 [] w_empty).1 = true.
Proof.
  assert (Ht : effective_balance (F := Q) (main_config true) 0
               + exposure_of
                   (get_open_positions
                      (db (reconcile (main_config true) [] w_empty)))
               <= 0) by (vm_compute; discriminate).
  split; [exact Ht |].
  exact (proj2 (proj2
           (C10_nonpositive_total_trips_breaker true 0 [] w_empty Ht))).
Defined.
End CapitalFacts.

(* ------------------------------------------------------------------ *)
(** ** Reconciliation *)

Section ReconcileFacts.
Context {F : Type} `{PyFloat F}.
Variable live_pos : gmap string Z.

Lemma reconcile_fold_db (d pre : list (Position F)) (w : World F) :
  db w = pre ++ d ->
  db (fold_left (reconcile_step live_pos) (open_from (length pre) d) w)
  = pre ++ map (reconciled live_pos) d.
Proof.
  revert pre w. induction d as [| p d IH]; intros pre w Hdb; [exact Hdb |].
  assert (Hlen : length (pre ++ [p]) = S (length pre))
    by (rewrite length_app; cbn; lia).
  cbn [open_from map]. unfold reconciled at 1.
  destruct (is_open p) eqn:Eo; cbn [andb].
  - cbn [fold_left reconcile_step].
    destruct (zero_on_venue live_pos p) eqn:Ez.
    + set (mc := mark_closed p (entry_price p)).
      assert (Hlen' : length (pre ++ [mc]) = S (length pre))
        by (rewrite length_app; cbn; lia).
      rewrite <- Hlen'.
      rewrite IH with (pre := pre ++ [mc]).
      * now rewrite <- app_assoc.
      * cbn [emit close_in_store db]. unfold close_position_with_pnl.
        rewrite Hdb.
        replace (length pre) with (length pre + 0)%nat by lia.
        rewrite insert_app_r. cbn. now rewrite <- app_assoc.
    + rewrite <- Hlen. rewrite IH with (pre := pre ++ [p]).
      * now rewrite <- app_assoc.
      * rewrite Hdb. now rewrite <- app_assoc.
  - rewrite <- Hlen. rewrite IH with (pre := pre ++ [p]).
    + now rewrite <- app_assoc.
    + rewrite Hdb. now rewrite <- app_assoc.
Qed.

Lemma reconciled_open (p : Position F) :
  is_open (reconciled live_pos p) = true ->
  zero_on_venue live_pos (reconciled live_pos p) = false.
Proof.
  unfold reconciled. destruct (is_open p) eqn:Eo; cbn [andb].
  - destruct (zero_on_venue live_pos p) eqn:Ez; [discriminate | auto].
  - congruence.
Qed.

Lemma open_after_reconcile (d : list (Position F)) (k : nat) :
  Forall (fun ip => zero_on_venue live_pos ip.2 = false)
    (open_from k (map (reconciled live_pos) d)).
Proof.
  revert k. induction d as [| p d IH]; intros k; cbn [map open_from].
  - constructor.
  - destruct (is_open (reconciled live_pos p)) eqn:Eo; [| apply IH].
    constructor; [| apply IH]. now apply reconciled_open.
Qed.

Lemma reconcile_fold_idle (l : list (nat * Position F)) (w : World F) :
  Forall (fun ip => zero_on_venue live_pos ip.2 = false) l ->
  fold_left (reconcile_step live_pos) l w = w.
Proof.
  induction 1 as [| [i p] l Hz _ IH]; [reflexivity |].
  cbn [fold_left reconcile_step]. cbn in Hz. now rewrite Hz.
Qed.
End ReconcileFacts.

Section ReconcileAnyFloat.
Context {F : Type} `{PyFloat F}.

Lemma reconcile_db (cfg : Config F) venue (w : World F) :
  LIVE_MODE cfg = true ->
  db (reconcile cfg venue w)
  = map (reconciled (live_positions venue)) (db w).
Proof.
  intros Hl. unfold reconcile, get_open_positions. rewrite Hl.
  apply (reconcile_fold_db (live_positions venue) (db w) [] w). reflexivity.
Qed.

Lemma none_flat_after_reconcile (cfg : Config F) venue (w : World F) :
  LIVE_MODE cfg = true ->
  Forall (fun ip => zero_on_venue (live_positions venue) ip.2 = false)
    (get_open_positions (db (reconcile cfg venue w))).
Proof.
  intros Hl. rewrite reconcile_db by exact Hl. apply open_after_reconcile.
Qed.

(** Whatever the float arithmetic, a second pass changes nothing. *)
Lemma reconcile_idempotent (cfg : Config F) venue (w : World F) :
  reconcile cfg venue (reconcile cfg venue w) = reconcile cfg venue w.
Proof.
  destruct (LIVE_MODE cfg) eqn:Hl.
  - unfold reconcile at 1. rewrite Hl. apply reconcile_fold_idle.
    now apply none_flat_after_reconcile.
  - unfold reconcile. now rewrite Hl.
Qed.
End ReconcileAnyFloat.

(** A later entry of the venue's list for a ticker replaces an earlier
    one; a ticker the list does not name is held at quantity 0. *)
Lemma live_positions_last (l : list (string * option Z)) k v :
  live_positions (l ++ [(k, v)]) = <[ k := default 0%Z v ]> (live_positions l).
Proof. unfold live_positions. now rewrite fold_left_app. Qed.

Lemma zero_on_venue_unlisted (p : Position Q) :
  zero_on_venue (live_positions []) p = true.
Proof. reflexivity. Qed.

(** C9.  In live mode a locally open position whose contract the venue
    holds at quantity zero is closed in the store at its entry price,
    with realized P&L zero, in that same pass (the one the cycle's
    capital check runs); after the pass no open position is flat on the
    venue, and a second pass over the result changes nothing: no row,
    no order, no output. *)
Theorem C9_reconcile_closes_flat_idempotent
    (cfg : Config Q) venue (w : World Q) (i : nat) (p : Position Q) :
  LIVE_MODE cfg = true ->
  db w !! i = Some p ->
  is_open p = true ->
  zero_on_venue (live_positions venue) p = true ->
  let w1 := reconcile cfg venue w in
  (exists p' pnl,
      db w1 !! i = Some p'
      /\ status p' = IsClosed
      /\ exit_value p' = Some (entry_price p)
      /\ realized_pnl p' = Some pnl /\ pnl == 0)
  /\ Forall (fun ip => zero_on_venue (live_positions venue) ip.2 = false)
       (get_open_positions (db w1))
  /\ reconcile cfg venue w1 = w1
  /\ (forall reported, (capital_check cfg reported venue w).2 = w1).
Proof.
  intros Hl Hi Ho Hz w1.
  split; [| split; [| split; [| reflexivity]]].
  - exists (mark_closed p (entry_price p)). eexists.
    split.
    + unfold w1. rewrite reconcile_db by exact Hl.
      change map with (@fmap list _).
      rewrite list_lookup_fmap, Hi. cbn.
      unfold reconciled. now rewrite Ho, Hz.
    + cbn. repeat split. ring.
  - now apply none_flat_after_reconcile.
  - apply reconcile_idempotent.
Qed.

Lemma C9_witness :
  LIVE_MODE (main_config (F := Q) true) = true
  /\ reconcile (F := Q) (main_config true) venue_flat
       (reconcile (main_config true) venue_flat w_flat)
     = reconcile (main_config true) venue_flat w_flat.
Proof.
  split; [reflexivity |].
  exact (proj1 (proj2 (proj2
           (C9_reconcile_closes_flat_idempotent (main_config true)
              venue_flat w_flat 0%nat
              (open_position "KXBTC-E" YES (lit 50 100) 4 true)
              eq_refl eq_refl eq_refl eq_refl)))).
Defined.

(** The pass in binary64: the flat position is closed at 0.5 with P&L
    [0.0], the held one stays open. *)
Example reconcile_binary64 :
  let w1 := reconcile (F := float) (main_config true) venue_flat w_flat in
  map (fun p => (status p, exit_value p, realized_pnl p)) (db w1)
  = [(IsClosed, Some 0.5%float, Some 0%float); (IsOpen, None, None)]
  /\ log w1 = [EvReconcile "KXBTC-E"]
  /\ reconcile (main_config true) venue_flat w1 = w1.
Proof. cbv zeta. repeat split; reflexivity. Qed.

(* ------------------------------------------------------------------ *)
(** ** Range probability model *)

Section RangeAnyFloat.
Context {F : Type} `{PyFloat F}.
Local Open Scope py_scope.

(** Whatever the float arithmetic: once one of the two guards holds,
    the result is the range test, a literal 1.0 or 0.0. *)
Lemma range_probability_guards (m : Libm F)
    (btc floor_s cap_s vol_per_min mins : F) :
  (mins <=? float_of_int 0)
  || (vol_per_min * m_sqrt m mins <? lit 1 1000000000) = true ->
  range_probability m btc floor_s cap_s vol_per_min mins
  = Ok (if (floor_s <=? btc) && (btc <=? cap_s)
        then float_of_int 1 else float_of_int 0).
Proof.
  intros Hg. unfold range_probability, in_range.
  destruct (mins <=? float_of_int 0); [reflexivity |].
  cbn [orb] in Hg. now rewrite Hg.
Qed.

End RangeAnyFloat.

(** The binary64 instance, spelled out. *)
Lemma degenerate_cases_binary64 (m : Libm float)
    (btc floor_s cap_s vol_per_min mins : float) :
  PrimFloat.leb mins 0
  || PrimFloat.ltb (PrimFloat.mul vol_per_min (m_sqrt m mins)) 1e-9 = true ->
  range_probability m btc floor_s cap_s vol_per_min mins
  = Ok (if PrimFloat.leb floor_s btc && PrimFloat.leb btc cap_s
        then 1%float else 0%float).
Proof.
  exact (range_probability_guards (F := float) m btc floor_s cap_s
           vol_per_min mins).
Qed.

Section RangeFacts.
Local Open Scope Q_scope.

Lemma in_range_cases (btc floor_s cap_s : Q) :
  (floor_s <= btc <= cap_s -> in_range btc floor_s cap_s = 1)
  /\ (~ floor_s <= btc <= cap_s -> in_range btc floor_s cap_s = 0).
Proof.
  unfold in_range.
  destruct (fleP floor_s btc), (fleP btc cap_s); cbn [andb];
    split; intros; solve [reflexivity | tauto].
Qed.

Lemma range_probability_degenerate
    (m : Libm Q) (btc floor_s cap_s vol_per_min mins : Q) :
  mins <= 0 \/ vol_per_min * m_sqrt m mins < 1 # 1000000000 ->
  range_probability m btc floor_s cap_s vol_per_min mins
  = Ok (in_range btc floor_s cap_s).
Proof.
  intros Hd. unfold range_probability.
  destruct (fleP mins (float_of_int 0)) as [_ | Hm]; [reflexivity |].
  destruct (fltP (vol_per_min * m_sqrt m mins)%py (lit 1 1000000000))
    as [_ | Hs]; [reflexivity |].
  exfalso. destruct Hd as [Hd | Hd]; [tauto |].
  apply Hs. rewrite lit_exact. exact Hd.
Qed.

(** C6.  With no time left, or with [sigma_t] below 1e-9, the result is
    exactly 1.0 when the current value lies in [[floor, cap]] and exactly
    0.0 otherwise, and the general formula is not evaluated: the result
    does not depend on [log] or [erf], and no exception can be raised. *)
Theorem C6_degenerate_cases
    (m : Libm Q) (btc floor_s cap_s vol_per_min mins : Q) :
  mins <= 0 \/ vol_per_min * m_sqrt m mins < 1 # 1000000000 ->
  (floor_s <= btc <= cap_s ->
   range_probability m btc floor_s cap_s vol_per_min mins = Ok 1)
  /\ (~ floor_s <= btc <= cap_s ->
      range_probability m btc floor_s cap_s vol_per_min mins = Ok 0)
  /\ (forall lg er,
        range_probability
          {| m_sqrt := m_sqrt m; m_log := lg; m_erf := er |}
          btc floor_s cap_s vol_per_min mins
        = range_probability m btc floor_s cap_s vol_per_min mins).
Proof.
  intros Hd. rewrite (range_probability_degenerate m) by exact Hd.
  destruct (in_range_cases btc floor_s cap_s) as [Hin Hout].
  split; [intros Hr; now rewrite Hin |].
  split; [intros Hr; now rewrite Hout |].
  intros lg er. now apply range_probability_degenerate.
Qed.

Lemma C6_witness :
  (0 <= 0 \/ (1 # 1000) * m_sqrt stand_in_libm 0 < 1 # 1000000000)
  /\ range_probability stand_in_libm 100000 99000 101000 (1 # 1000) 0 = Ok 1
  /\ range_probability stand_in_libm 0 99000 101000 (1 # 1000) 0 = Ok 0.
Proof.
  assert (Hd : 0 <= 0 \/ (1 # 1000) * m_sqrt stand_in_libm 0
                          < 1 # 1000000000) by (left; discriminate).
  split; [exact Hd |]. split.
  - refine (proj1 (C6_degenerate_cases stand_in_libm 100000 99000 101000
                     (1 # 1000) 0 Hd) _).
    split; discriminate.
  - refine (proj1 (proj2 (C6_degenerate_cases stand_in_libm 0 99000 101000
                            (1 # 1000) 0 Hd)) _).
    intros [Hc _]. revert Hc. vm_compute. intros Hc. now apply Hc.
Defined.

(** Outside the degenerate cases a zero price is a division by zero. *)
Lemma range_probability_zero_price
    (m : Libm Q) (floor_s cap_s vol_per_min mins : Q) :
  0 < mins -> 1 # 1000000000 <= vol_per_min * m_sqrt m mins ->
  range_probability m 0 floor_s cap_s vol_per_min mins
  = Raise ZeroDivisionError.
Proof.
  intros Hm Hs. unfold range_probability.
  destruct (fleP mins (float_of_int 0)) as [Hc | _].
  { exfalso. revert Hm. now apply Qle_not_lt. }
  destruct (fltP (vol_per_min * m_sqrt m mins)%py (lit 1 1000000000))
    as [Hc | _].
  { exfalso. rewrite lit_exact in Hc. revert Hc. now apply Qle_not_lt. }
  reflexivity.
Qed.

Lemma fle_compat (a a' b b' : Q) :
  a == a' -> b == b' -> fle a b = fle a' b'.
Proof.
  intros Ha Hb.
  destruct (fleP a b) as [H | H], (fleP a' b') as [H' | H'];
    try reflexivity; exfalso.
  - apply H'. now rewrite <- Ha, <- Hb.
  - apply H. now rewrite Ha, Hb.
Qed.

Lemma flt_compat (a a' b b' : Q) :
  a == a' -> b == b' -> flt a b = flt a' b'.
Proof.
  intros Ha Hb. cbn. f_equal. now apply fle_compat.
Qed.

Lemma feq_compat (a a' b b' : Q) :
  a == a' -> b == b' -> feq a b = feq a' b'.
Proof.
  intros Ha Hb.
  destruct (feqP a b) as [H | H], (feqP a' b') as [H' | H'];
    try reflexivity; exfalso.
  - apply H'. now rewrite <- Ha, <- Hb.
  - apply H. now rewrite Ha, Hb.
Qed.

Lemma pymin_mono (x y : Q) : x <= y -> pymin 1 x <= pymin 1 y.
Proof.
  intros Hxy. unfold pymin.
  destruct (fltP x 1), (fltP y 1); lra.
Qed.

Lemma pymax_mono (x y : Q) : x <= y -> pymax 0 x <= pymax 0 y.
Proof.
  intros Hxy. unfold pymax.
  destruct (fltP 0 x), (fltP 0 y); lra.
Qed.

Lemma div_mono (x y s : Q) : 0 < s -> x <= y -> x / s <= y / s.
Proof.
  intros Hs Hxy. unfold Qdiv. apply Qmult_le_compat_r; [exact Hxy |].
  apply Qlt_le_weak. now apply Qinv_lt_0_compat.
Qed.

Section MonotoneLibm.
Variable m : Libm Q.
Hypothesis Hm : monotone_libm m.

Lemma normal_cdf_mono (x y : Q) :
  x <= y -> normal_cdf m x <= normal_cdf m y.
Proof.
  destruct Hm as (Herf & _ & Hs2). intros Hxy.
  unfold normal_cdf. cbn.
  assert (He : m_erf m (x / m_sqrt m 2) <= m_erf m (y / m_sqrt m 2)).
  { apply Herf. now apply div_mono. }
  q_consts. lra.
Qed.

Lemma clamped_mass_mono (sigma_t lc lc' lf lf' : Q) :
  0 < sigma_t -> lc <= lc' -> lf' <= lf ->
  clamped_mass m sigma_t lc lf <= clamped_mass m sigma_t lc' lf'.
Proof.
  intros Hs Hc Hf. unfold clamped_mass.
  apply pymax_mono, pymin_mono.
  pose proof (normal_cdf_mono _ _ (div_mono _ _ _ Hs Hc)).
  pose proof (normal_cdf_mono _ _ (div_mono _ _ _ Hs Hf)).
  cbn [fsub fdiv exact] in *. lra.
Qed.

Lemma log_compat (x y : Q) : 0 < x -> x == y -> m_log m x == m_log m y.
Proof.
  destruct Hm as (_ & Hlog & _). intros Hx Hxy.
  apply Qle_antisym; apply Hlog; try assumption.
  - rewrite Hxy. apply Qle_refl.
  - now rewrite <- Hxy.
  - rewrite Hxy. apply Qle_refl.
Qed.
End MonotoneLibm.

Lemma range_probability_cases (m : Libm Q) (btc f c vol mins : Q) :
  range_probability m btc f c vol mins
  = if fle mins 0 || flt (vol * m_sqrt m mins) (lit 1 1000000000)
    then Ok (in_range btc f c)
    else if feq btc 0 then Raise ZeroDivisionError
    else if negb (flt 0 (c / btc)) then Raise ValueError
    else if negb (flt 0 (f / btc)) then Raise ValueError
    else Ok (clamped_mass m (vol * m_sqrt m mins)
               (m_log m (c / btc)) (m_log m (f / btc))).
Proof.
  unfold range_probability, pydiv, pylog, bind, clamped_mass.
  cbn [float_of_int fadd fsub fmul fdiv fle flt feq exact].
  change (inject_Z 0) with 0.
  destruct (Qle_bool mins 0); [reflexivity |]. cbn [orb].
  destruct (negb (Qle_bool (lit 1 1000000000) _)); [reflexivity |].
  destruct (Qeq_bool btc 0); [reflexivity |]. cbv beta iota.
  rewrite !Qeq_bool_refl.
  destruct (Qle_bool (c / btc) 0); [reflexivity |]. cbn [negb].
  destruct (Qle_bool (f / btc) 0); reflexivity.
Qed.

Lemma in_range_scale (k btc f c : Q) :
  0 < k -> in_range (k * btc) (k * f) (k * c) = in_range btc f c.
Proof.
  intros Hk. unfold in_range.
  destruct (fleP (k * f) (k * btc)), (fleP (k * btc) (k * c)),
    (fleP f btc), (fleP btc c); cbn [andb]; try reflexivity;
    exfalso; nra.
Qed.

Lemma in_range_widen (btc f c f' c' : Q) :
  f' <= f -> c <= c' -> in_range btc f c <= in_range btc f' c'.
Proof.
  intros Hf Hc. unfold in_range.
  destruct (fleP f btc), (fleP btc c), (fleP f' btc), (fleP btc c');
    cbn [andb]; try discriminate; exfalso; lra.
Qed.

Lemma general_branch (m : Libm Q) (vol mins : Q) :
  fle mins 0 || flt (vol * m_sqrt m mins) (lit 1 1000000000) = false ->
  0 < vol * m_sqrt m mins.
Proof.
  intros Hb. apply orb_false_iff in Hb as [_ Hs].
  destruct (fltP (vol * m_sqrt m mins) (lit 1 1000000000)) as [| Hn];
    [discriminate |].
  rewrite lit_exact in Hn. apply Qnot_lt_le in Hn.
  eapply Qlt_le_trans; [| exact Hn]. reflexivity.
Qed.

Lemma ratio_positive (a b : Q) : 0 < a -> 0 < b -> 0 < a / b.
Proof.
  intros Ha Hb. apply Qlt_shift_div_l; [exact Hb |]. now rewrite Qmult_0_l.
Qed.

Lemma flt_true (a b : Q) : a < b -> flt a b = true.
Proof. intros Hab. destruct (fltP a b); [reflexivity | tauto]. Qed.

Lemma feq_false (a b : Q) : ~ a == b -> feq a b = false.
Proof. intros Hab. destruct (feqP a b); [tauto | reflexivity]. Qed.

Lemma Qeq_le (a b : Q) : a == b -> a <= b.
Proof. intros ->. apply Qle_refl. Qed.


Lemma stand_in_monotone : monotone_libm stand_in_libm.
Proof.
  split; [| split].
  - intros x y Hxy. cbn.
    apply Q.max_le_compat_l. now apply Q.min_le_compat_l.
  - intros x y _ Hxy. cbn. lra.
  - reflexivity.
Qed.


(** Width alone does not order two ranges: a wider range elsewhere can
    miss the current value. *)
Example wider_range_elsewhere (m : Libm Q) :
  range_probability m 105 100 110 (1 # 1000) 0 = Ok 1
  /\ range_probability m 105 200 220 (1 # 1000) 0 = Ok 0.
Proof. split; reflexivity. Qed.

End RangeFacts.

(* ------------------------------------------------------------------ *)
(** ** Market scanner *)

Section ScannerFacts.
Local Open Scope Q_scope.

Lemma scan_filters_quotes (cfg : Config Q) held now_ts market r :
  scan_filters cfg held now_ts market = Some r ->
  (0 < quote (yes_bid market))%Z
  /\ (0 < quote (yes_ask market) < 100)%Z.
Proof.
  unfold scan_filters.
  destruct (bool_decide _); [discriminate |].
  destruct (close_time market); [| discriminate].
  destruct (negb _); [discriminate |].
  destruct (Z.leb_spec (quote (yes_bid market)) 0); [discriminate |].
  destruct (floor_strike market); [| discriminate].
  destruct (cap_strike market); [| discriminate].
  destruct (negb (truthy _) || _); [discriminate |].
  destruct (Z.leb_spec (quote (yes_ask market)) 0); [discriminate |].
  destruct (Z.leb_spec 100 (quote (yes_ask market))); [discriminate |].
  intros _. lia.
Qed.

Lemma no_ask_price_cases (na yb : Z) :
  ((0 < na < 100)%Z -> no_ask_price na yb = na)
  /\ (~ (0 < na < 100)%Z -> no_ask_price na yb = (100 - yb)%Z).
Proof.
  unfold no_ask_price.
  destruct (Z.ltb_spec 0 na), (Z.ltb_spec na 100); cbn [andb];
    split; intros; solve [reflexivity | lia].
Qed.

Lemma no_ask_price_range (na yb : Z) :
  (0 < yb < 100)%Z -> (0 < no_ask_price na yb < 100)%Z.
Proof.
  intros Hyb. unfold no_ask_price.
  destruct (Z.ltb_spec 0 na), (Z.ltb_spec na 100); cbn [andb]; lia.
Qed.

Lemma edge_yes_exact (p : Q) (ya : Z) :
  edge_yes p ya == p - inject_Z ya / 100.
Proof. unfold edge_yes. cbn. reflexivity. Qed.

Lemma edge_no_exact (p : Q) (nap : Z) :
  edge_no p nap == (1 - p) - inject_Z nap / 100.
Proof. unfold edge_no. cbn. reflexivity. Qed.

Lemma edges_sum (p : Q) (ya nap : Z) :
  edge_yes p ya + edge_no p nap == 1 - inject_Z (ya + nap) / 100.
Proof.
  rewrite edge_yes_exact, edge_no_exact, inject_Z_plus. field.
Qed.

Lemma choose_side_cases (cfg : Config Q) (p : Q) (ya yb na : Z) :
  let nap := no_ask_price na yb in
  (MIN_EDGE cfg <= edge_yes p ya ->
   choose_side cfg p ya yb na = Some (YES, ya, edge_yes p ya))
  /\ (edge_yes p ya < MIN_EDGE cfg -> MIN_EDGE cfg <= edge_no p nap ->
      choose_side cfg p ya yb na = Some (NO, nap, edge_no p nap))
  /\ (edge_yes p ya < MIN_EDGE cfg -> edge_no p nap < MIN_EDGE cfg ->
      choose_side cfg p ya yb na = None).
Proof.
  intros nap. unfold choose_side. fold nap.
  destruct (fleP (MIN_EDGE cfg) (edge_yes p ya)) as [Hy | Hy].
  - repeat split; try reflexivity; intros Hlt; exfalso;
      revert Hlt; now apply Qle_not_lt.
  - destruct (fleP (MIN_EDGE cfg) (edge_no p nap)) as [Hn | Hn].
    + repeat split; try reflexivity; try tauto.
      intros _ Hlt. exfalso. revert Hlt. now apply Qle_not_lt.
    + repeat split; try reflexivity; tauto.
Qed.

Lemma scan_market_priced (cfg : Config Q) m held now_ts btc vol_pm market
    mins_left floor_s cap_s p :
  scan_filters cfg held now_ts market = Some (mins_left, floor_s, cap_s) ->
  range_probability m btc floor_s cap_s vol_pm mins_left = Ok p ->
  scan_market cfg m held now_ts btc vol_pm market
  = scan_priced cfg market btc floor_s cap_s mins_left p.
Proof. intros Hf Hp. unfold scan_market. now rewrite Hf, Hp. Qed.

Lemma scan_priced_appended (cfg : Config Q) market btc floor_s cap_s
    mins_left p c :
  scan_priced cfg market btc floor_s cap_s mins_left p = Appended c ->
  choose_side cfg p (quote (yes_ask market)) (quote (yes_bid market))
    (quote (no_ask market))
  = Some (c_side c, c_price_cents c, c_edge c)
  /\ c_model_prob c = p
  /\ (0 < c_price_cents c < 100)%Z.
Proof.
  unfold scan_priced.
  destruct (choose_side _ _ _ _ _) as [[[s pc] e] |]; [| discriminate].
  destruct (Z.leb_spec pc 0); [discriminate |].
  destruct (Z.leb_spec 100 pc); [discriminate |]. cbn [orb].
  destruct (btc_pos btc floor_s cap_s); [| discriminate].
  intros [= <-]. cbn. repeat split; lia.
Qed.

(** With a nonzero price the position description is computed. *)
Lemma btc_pos_nonzero (btc floor_s cap_s : Q) :
  ~ btc == 0 -> exists b, btc_pos btc floor_s cap_s = Ok b.
Proof.
  intros Hb. unfold btc_pos, pydiv.
  rewrite (feq_false btc (float_of_int 0)) by exact Hb. cbn [bind].
  destruct (flt cap_s btc); [eauto |].
  destruct (flt btc floor_s); eauto.
Qed.




(** The example in binary64: [0.6 - 50 / 100.0] is
    [0.09999999999999998], which meets the threshold 0.08; the midpoint
    would give [0.11499999999999999]. *)
Example edge_yes_binary64 :
  edge_yes (F := float) (lit 60 100) 50 = 0.09999999999999998%float
  /\ fle (MIN_EDGE (main_config false)) (edge_yes (F := float) (lit 60 100) 50)
     = true
  /\ fsub (lit 60 100) (fdiv (float_of_int (47 + 50)) (float_of_int 200))
     = 0.11499999999999999%float.
Proof. repeat split; reflexivity. Qed.



(** The same choice in binary64. *)
Example side_selection_binary64 :
  edge_yes (F := float) (lit 40 100) 30 = 0.10000000000000003%float
  /\ edge_no (F := float) (lit 40 100) (no_ask_price 40 60)
     = 0.19999999999999996%float
  /\ scan_side
       (scan_priced (F := float) (main_config false) market_both_cheap
          100000%float 99000%float 101000%float 60%float (lit 40 100))
     = Some YES.
Proof. repeat split; reflexivity. Qed.

(** A NO side that cannot be priced: YES bid 100, YES ask 50, no NO
    quote.  The market passes the filters and at probability 0.5 the NO
    edge is 0.5, but the NO price is 100 - 100 = 0 and the market is
    dropped; in binary64 too. *)
Example unpriced_no_side :
  (exists r,
      scan_filters (F := Q) (main_config false) ∅ 0 market_bid_100
      = Some r)
  /\ edge_yes (F := Q) (50 # 100) 50 < MIN_EDGE (main_config false)
  /\ edge_no (F := Q) (50 # 100) (no_ask_price 0 100) == 50 # 100
  /\ scan_priced (F := Q) (main_config false) market_bid_100
       100000 99000 101000 60 (50 # 100) = Skipped
  /\ scan_priced (F := float) (main_config false) market_bid_100
       100000%float 99000%float 101000%float 60%float (lit 50 100)
     = Skipped.
Proof.
  split; [eexists; reflexivity |].
  split; [reflexivity |]. repeat split; reflexivity.
Qed.

End ScannerFacts.

(* ------------------------------------------------------------------ *)
(** ** Position monitor: what a pass may do *)

Section MonitorFrame.
Context {F : Type} `{PyFloat F}.
Local Open Scope py_scope.

Lemma check_position_effect (cfg : Config F) (gw : Gateway F) (i : nat)
    (pos : Position F) (market : Market F) (model : option F) (w : World F) :
  is_open pos = true ->
  get_market gw (market_id pos) = Some market ->
  step_effect cfg gw i pos w (check_position cfg gw i pos market model w).
Proof.
  intros Hopen Hmk.
  unfold step_effect, row_outcome, accepted_sale. rewrite Hopen, Hmk.
  unfold check_position, take_profit_no, take_profit_yes,
    stop_loss_stage, status_display, send_close, emit, close_in_store,
    close_position_with_pnl.
  destruct (is_settled market) eqn:Hset.
  { cbn [db orders log]. pick_orders. split; [right |]; reflexivity. }
  destruct (LIVE_MODE cfg) eqn:Hlive; destruct (side pos) eqn:Hside;
    cbn [Side_eqb andb negb].
  all: repeat match goal with
       | |- context [if ?b then _ else _] => destruct b eqn:?
       | |- context [match stop_decision ?a ?b ?c with _ => _ end] =>
           destruct (stop_decision a b c) eqn:?
       end; cbn [db orders log andb negb] in *.
  all: rewrite ?Z.ltb_lt, ?Z.leb_le in *.
  all: pick_orders.
  all: first
    [ split; [left; split; reflexivity | left; reflexivity]
    | split; [right; reflexivity |]; right; eexists;
      (split; [reflexivity |]);
      first
        [ left; reflexivity
        | right;
          match goal with
          | Hacc : close_accepted _ ?n ?o = true |- _ =>
              exists n, o; split; [rewrite ?length_app; lia |]; split;
              [ first [ apply list_lookup_middle; reflexivity
                      | rewrite app_assoc; apply list_lookup_middle;
                        reflexivity ] |];
              split; [exact Hacc |];
              repeat split; cbn; first [congruence | lia]
          end ] ].
Qed.

Lemma monitor_step_effect (cfg : Config F) (gw : Gateway F) (m : Libm F)
    (now : F) (btc vol_pm : option F) (i : nat) (pos : Position F)
    (w : World F) :
  is_open pos = true ->
  step_effect cfg gw i pos w
    (monitor_step cfg gw m now btc vol_pm w (i, pos)).
Proof.
  intros Hopen. cbn [monitor_step].
  destruct (get_market gw (market_id pos)) as [market |] eqn:Hmk.
  - now apply check_position_effect.
  - unfold step_effect, row_outcome. rewrite Hopen, Hmk.
    exists [], (EvError (market_id pos)), pos. cbn [emit db orders log].
    rewrite app_nil_r. repeat split; auto.
Qed.

Lemma accepted_sale_mono (gw : Gateway F) (n0 n1 : nat)
    (sent ext : list Order) (pos : Position F) :
  (n1 <= n0)%nat ->
  accepted_sale gw n0 sent pos -> accepted_sale gw n1 (sent ++ ext) pos.
Proof.
  intros Hn (n & o & Hle & Hlk & Hacc & Hs).
  exists n, o. split; [lia |]. split; [| now split].
  now apply lookup_app_l_Some.
Qed.

Lemma row_outcome_mono (cfg : Config F) (gw : Gateway F) (n0 n1 : nat)
    (sent ext : list Order) (p p' : Position F) :
  (n1 <= n0)%nat ->
  row_outcome cfg gw n0 sent p p' ->
  row_outcome cfg gw n1 (sent ++ ext) p p'.
Proof.
  intros Hn. unfold row_outcome.
  destruct (is_open p); [| auto].
  destruct (get_market gw (market_id p)) as [market |]; [| auto].
  destruct (is_settled market); [auto |].
  intros [-> | (x & -> & [Hl | Hs])]; [now left | right; exists x ..].
  - split; [reflexivity | now left].
  - split; [reflexivity | right]. now apply accepted_sale_mono with n0.
Qed.

Lemma open_from_length (d : list (Position F)) (i j : nat) :
  length (open_from i d) = length (open_from j d).
Proof.
  revert i j. induction d as [| p d IH]; intros i j; cbn [open_from];
    [reflexivity |].
  destruct (is_open p); cbn [length]; [f_equal |]; apply IH.
Qed.

Lemma open_from_ids (d : list (Position F)) (i j : nat) :
  map (fun ip => market_id ip.2) (open_from i d)
  = map (fun ip => market_id ip.2) (open_from j d).
Proof.
  revert i j. induction d as [| p d IH]; intros i j; cbn [open_from];
    [reflexivity |].
  destruct (is_open p); cbn [map]; [f_equal |]; apply IH.
Qed.

(** The whole loop, on the rows [d] that follow the prefix [pre]. *)
Lemma monitor_fold (cfg : Config F) (gw : Gateway F) (m : Libm F)
    (now : F) (btc vol_pm : option F) (d pre : list (Position F))
    (w : World F) :
  db w = pre ++ d ->
  let w' := fold_left (monitor_step cfg gw m now btc vol_pm)
              (open_from (length pre) d) w in
  exists d' os es,
    db w' = pre ++ d'
    /\ orders w' = orders w ++ os
    /\ log w' = log w ++ es
    /\ (LIVE_MODE cfg = false -> os = [])
    /\ (length os <= 2 * length (open_from (length pre) d))%nat
    /\ Forall (fun o => exists p, p ∈ d /\ is_open p = true /\ sells p o) os
    /\ map event_market es
       = map (fun ip => market_id ip.2) (open_from (length pre) d)
    /\ Forall2 (row_outcome cfg gw (length (orders w)) (orders w')) d d'.
Proof.
  revert pre w. induction d as [| p d IH]; intros pre w Hdb; cbv zeta.
  { exists [], [], []. cbn. rewrite !app_nil_r. rewrite app_nil_r in Hdb.
    repeat split; auto. }
  assert (Hlen : forall q, length (pre ++ [q]) = S (length pre))
    by (intros q; rewrite length_app; cbn; lia).
  cbn [open_from]. destruct (is_open p) eqn:Hopen.
  - cbn [fold_left].
    destruct (monitor_step_effect cfg gw m now btc vol_pm (length pre) p w
                Hopen)
      as (os1 & e & p1 & Ho1 & Hl1 & He1 & Hp1 & Hn1 & Hs1 & Hd1 & Hr1).
    set (w1 := monitor_step cfg gw m now btc vol_pm w (length pre, p)) in *.
    assert (Hdb1 : db w1 = (pre ++ [p1]) ++ d).
    { rewrite <- app_assoc. cbn [app].
      destruct Hd1 as [[-> ->] | ->]; [exact Hdb |].
      rewrite Hdb. replace (length pre) with (length pre + 0)%nat by lia.
      now rewrite insert_app_r. }
    specialize (IH (pre ++ [p1]) w1 Hdb1). cbv zeta in IH.
    rewrite Hlen in IH.
    destruct IH as (d' & os2 & es2 & Hd & Ho & Hl & Hp & Hn & Hs & He & Hr).
    exists (p1 :: d'), (os1 ++ os2), (e :: es2).
    split; [rewrite Hd, <- app_assoc; reflexivity |].
    split; [rewrite Ho, Ho1, <- app_assoc; reflexivity |].
    split; [rewrite Hl, Hl1, <- app_assoc; reflexivity |].
    split; [intros Hlive; rewrite Hp1, Hp by exact Hlive; reflexivity |].
    split; [rewrite length_app; cbn [length]; lia |].
    split.
    { apply Forall_app. split.
      - eapply Forall_impl; [exact Hs1 |]. intros o Hso.
        exists p. split; [left | split; [exact Hopen | exact Hso]].
      - eapply Forall_impl; [exact Hs |]. intros o (q & Hq & Hqo).
        exists q. split; [now right | exact Hqo]. }
    split; [cbn [map]; now rewrite He1, He |].
    constructor.
    + rewrite Ho. now apply row_outcome_mono with (length (orders w)).
    + eapply Forall2_impl; [exact Hr |]. intros q q' Hq.
      assert (Hle : (length (orders w) <= length (orders w1))%nat)
        by (rewrite Ho1, length_app; lia).
      pose proof (row_outcome_mono cfg gw _ _ _ [] q q' Hle Hq) as Hq'.
      now rewrite app_nil_r in Hq'.
  - specialize (IH (pre ++ [p]) w). cbv zeta in IH. rewrite Hlen in IH.
    destruct IH as (d' & os & es & Hd & Ho & Hl & Hp & Hn & Hs & He & Hr).
    { rewrite Hdb, <- app_assoc. reflexivity. }
    exists (p :: d'), os, es.
    split; [rewrite Hd, <- app_assoc; reflexivity |].
    do 4 (split; [assumption |]).
    split.
    { eapply Forall_impl; [exact Hs |]. intros o (q & Hq & Hqo).
      exists q. split; [now right | exact Hqo]. }
    split; [exact He |].
    constructor; [| exact Hr]. unfold row_outcome. now rewrite Hopen.
Qed.

Lemma monitor_positions_effect (cfg : Config F) (gw : Gateway F)
    (m : Libm F) (now : F) (btc vol_pm : option F) (w : World F) :
  let w' := monitor_positions cfg gw m now btc vol_pm w in
  exists os es,
    orders w' = orders w ++ os
    /\ log w' = log w ++ es
    /\ (LIVE_MODE cfg = false -> os = [])
    /\ (length os <= 2 * length (get_open_positions (db w)))%nat
    /\ Forall (fun o => exists p, p ∈ db w /\ is_open p = true /\ sells p o)
         os
    /\ map event_market es
       = map (fun ip => market_id ip.2) (get_open_positions (db w))
    /\ Forall2 (row_outcome cfg gw (length (orders w)) (orders w'))
         (db w) (db w').
Proof.
  cbv zeta. unfold monitor_positions, get_open_positions.
  destruct (monitor_fold cfg gw m now btc vol_pm (db w) [] w eq_refl)
    as (d' & os & es & Hd & Ho & Hl & Hp & Hn & Hs & He & Hr).
  cbn [length app] in *. exists os, es. rewrite Hd. auto 10.
Qed.

Lemma row_outcome_kept_or_closed (cfg : Config F) (gw : Gateway F)
    (n0 : nat) (sent : list Order) (p p' : Position F) :
  row_outcome cfg gw n0 sent p p' -> kept_or_closed p p'.
Proof.
  unfold row_outcome, kept_or_closed.
  destruct (is_open p); [| now left].
  destruct (get_market gw (market_id p)) as [market |]; [| now left].
  destruct (is_settled market).
  - intros ->. right. eauto.
  - intros [-> | (x & -> & _)]; [now left | right; eauto].
Qed.

(** X1.  A monitor pass keeps the book: no row is added, removed or
    reopened, a closed row is left as it is, and an open row is either
    left as it is or closed, which changes its status, exit value and
    realized P&L and nothing else. *)
Theorem monitor_keeps_the_book (cfg : Config F) (gw : Gateway F)
    (m : Libm F) (now : F) (btc vol_pm : option F) (w : World F) :
  Forall2 kept_or_closed (db w)
    (db (monitor_positions cfg gw m now btc vol_pm w)).
Proof.
  destruct (monitor_positions_effect cfg gw m now btc vol_pm w)
    as (os & es & _ & _ & _ & _ & _ & _ & Hr).
  eapply Forall2_impl; [exact Hr |].
  intros p p'. apply row_outcome_kept_or_closed.
Qed.

(** X2.  In paper mode a monitor pass sends no order to the venue,
    whatever it closes in the store. *)
Theorem monitor_paper_mode_sends_no_order (cfg : Config F) (gw : Gateway F)
    (m : Libm F) (now : F) (btc vol_pm : option F) (w : World F) :
  LIVE_MODE cfg = false ->
  orders (monitor_positions cfg gw m now btc vol_pm w) = orders w.
Proof.
  intros Hlive.
  destruct (monitor_positions_effect cfg gw m now btc vol_pm w)
    as (os & es & Ho & _ & Hp & _).
  rewrite Ho, (Hp Hlive). apply app_nil_r.
Qed.

(** X3.  The orders of a monitor pass are appended to those sent before,
    at most two per open position (a rejected take-profit order may be
    followed by a stop-loss order), and each sells an open position of
    the store: its ticker, its side and its whole quantity, at a
    positive price. *)
Theorem monitor_orders_sell_open_positions (cfg : Config F)
    (gw : Gateway F) (m : Libm F) (now : F) (btc vol_pm : option F)
    (w : World F) :
  exists os,
    orders (monitor_positions cfg gw m now btc vol_pm w) = orders w ++ os
    /\ (length os <= 2 * length (get_open_positions (db w)))%nat
    /\ Forall (fun o => exists i p,
                 db w !! i = Some p /\ is_open p = true /\ sells p o) os.
Proof.
  destruct (monitor_positions_effect cfg gw m now btc vol_pm w)
    as (os & es & Ho & _ & _ & Hn & Hs & _).
  exists os. split; [exact Ho |]. split; [exact Hn |].
  eapply Forall_impl; [exact Hs |].
  intros o (p & Hin & Hopen & Hso).
  apply list_elem_of_lookup_1 in Hin as [i Hi]. eauto.
Qed.

Lemma closed_not_open (p : Position F) :
  status p = IsClosed -> is_open p = true -> False.
Proof. unfold is_open. intros ->. discriminate. Qed.

(** X4.  In live mode the store follows the venue: when a pass closes an
    open position, its market was fetched and either that market is
    settled or the gateway accepted, during this pass, an order selling
    the position. *)
Theorem monitor_live_close_is_backed (cfg : Config F) (gw : Gateway F)
    (m : Libm F) (now : F) (btc vol_pm : option F) (w : World F)
    (i : nat) (p p' : Position F) :
  LIVE_MODE cfg = true ->
  db w !! i = Some p ->
  is_open p = true ->
  db (monitor_positions cfg gw m now btc vol_pm w) !! i = Some p' ->
  status p' = IsClosed ->
  exists market,
    get_market gw (market_id p) = Some market
    /\ (is_settled market = true
        \/ accepted_sale gw (length (orders w))
             (orders (monitor_positions cfg gw m now btc vol_pm w)) p).
Proof.
  intros Hlive Hi Hopen Hi' Hclosed.
  destruct (monitor_positions_effect cfg gw m now btc vol_pm w)
    as (os & es & _ & _ & _ & _ & _ & _ & Hr).
  pose proof (Forall2_lookup_lr _ _ _ _ _ _ Hr Hi Hi') as Hrow.
  unfold row_outcome in Hrow. rewrite Hopen in Hrow.
  destruct (get_market gw (market_id p)) as [market |].
  - exists market. split; [reflexivity |].
    destruct (is_settled market); [now left | right].
    destruct Hrow as [-> | (x & _ & [Hl | Hs])].
    + exfalso. now apply (closed_not_open p).
    + congruence.
    + exact Hs.
  - subst p'. exfalso. now apply (closed_not_open p).
Qed.

(** X5.  Settlement comes first and needs no order: in either mode an
    open position whose market is settled, closed or finalized with a
    result is closed by the pass at its settlement value. *)
Theorem monitor_settles_position (cfg : Config F) (gw : Gateway F)
    (m : Libm F) (now : F) (btc vol_pm : option F) (w : World F)
    (i : nat) (p : Position F) (market : Market F) :
  db w !! i = Some p ->
  is_open p = true ->
  get_market gw (market_id p) = Some market ->
  is_settled market = true ->
  db (monitor_positions cfg gw m now btc vol_pm w) !! i
  = Some (mark_closed p (settlement_value p (m_result market))).
Proof.
  intros Hi Hopen Hmk Hset.
  destruct (monitor_positions_effect cfg gw m now btc vol_pm w)
    as (os & es & _ & _ & _ & _ & _ & _ & Hr).
  destruct (Forall2_lookup_l _ _ _ _ _ Hr Hi) as (p' & Hi' & Hrow).
  unfold row_outcome in Hrow. rewrite Hopen, Hmk, Hset in Hrow.
  now subst p'.
Qed.

(** X6.  A pass prints exactly one line for each open position, in store
    order, each about that position's market: a settlement, a take
    profit, a stop, a status line, or the error of a failed check. *)
Theorem monitor_reports_each_open_position (cfg : Config F)
    (gw : Gateway F) (m : Libm F) (now : F) (btc vol_pm : option F)
    (w : World F) :
  exists es,
    log (monitor_positions cfg gw m now btc vol_pm w) = log w ++ es
    /\ map event_market es
       = map (fun ip => market_id ip.2) (get_open_positions (db w)).
Proof.
  destruct (monitor_positions_effect cfg gw m now btc vol_pm w)
    as (os & es & _ & Hl & _ & _ & _ & He & _).
  exists es. now split.
Qed.

(** X7.  A position whose market cannot be fetched is left exactly as it
    was: the failure is caught for that position alone. *)
Theorem monitor_failed_fetch_keeps_position (cfg : Config F)
    (gw : Gateway F) (m : Libm F) (now : F) (btc vol_pm : option F)
    (w : World F) (i : nat) (p : Position F) :
  db w !! i = Some p ->
  get_market gw (market_id p) = None ->
  db (monitor_positions cfg gw m now btc vol_pm w) !! i = Some p.
Proof.
  intros Hi Hmk.
  destruct (monitor_positions_effect cfg gw m now btc vol_pm w)
    as (os & es & _ & _ & _ & _ & _ & _ & Hr).
  destruct (Forall2_lookup_l _ _ _ _ _ Hr Hi) as (p' & Hi' & Hrow).
  unfold row_outcome in Hrow. rewrite Hmk in Hrow.
  destruct (is_open p); now subst p'.
Qed.
End MonitorFrame.

Lemma monitor_paper_mode_sends_no_order_witness :
  LIVE_MODE (main_config (F := Q) false) = false
  /\ orders (monitor_positions (F := Q) (main_config false)
               (accepting_gateway tp_market) stand_in_libm 0%Q None None
               tp_world)
     = orders (tp_world (F := Q)).
Proof.
  split; [reflexivity |].
  apply (monitor_paper_mode_sends_no_order (F := Q)). reflexivity.
Defined.

Lemma monitor_live_close_is_backed_witness :
  LIVE_MODE (main_config (F := Q) true) = true
  /\ db (tp_world (F := Q)) !! 0%nat = Some tp_position
  /\ is_open (tp_position (F := Q)) = true
  /\ db (monitor_positions (F := Q) (main_config true)
           (accepting_gateway tp_market) stand_in_libm 0%Q None None
           tp_world) !! 0%nat
     = Some (mark_closed tp_position (cents 80))
  /\ exists market,
       get_market (accepting_gateway (F := Q) tp_market)
         (market_id (tp_position (F := Q))) = Some market
       /\ (is_settled market = true
           \/ accepted_sale (accepting_gateway tp_market)
                (length (orders (tp_world (F := Q))))
                (orders (monitor_positions (main_config true)
                           (accepting_gateway tp_market) stand_in_libm 0%Q
                           None None tp_world))
                tp_position).
Proof.
  split; [reflexivity |]. split; [reflexivity |]. split; [reflexivity |].
  split; [reflexivity |].
  apply (monitor_live_close_is_backed (F := Q) (main_config true)
           (accepting_gateway tp_market) stand_in_libm 0%Q None None tp_world
           0%nat tp_position (mark_closed tp_position (cents 80)));
    reflexivity.
Defined.

Lemma monitor_settles_position_witness :
  db (tp_world (F := Q)) !! 0%nat = Some tp_position
  /\ is_settled (finalized_market (F := Q) "YES") = true
  /\ db (monitor_positions (F := Q) (main_config true)
           (accepting_gateway (finalized_market "YES")) stand_in_libm 0%Q
           None None tp_world) !! 0%nat
     = Some (mark_closed tp_position 1%Q).
Proof.
  split; [reflexivity |]. split; [reflexivity |].
  refine (eq_trans
            (monitor_settles_position (F := Q) (main_config true)
               (accepting_gateway (finalized_market "YES")) stand_in_libm
               0%Q None None tp_world 0%nat tp_position
               (finalized_market "YES") eq_refl eq_refl eq_refl eq_refl) _).
  reflexivity.
Defined.

Lemma monitor_failed_fetch_keeps_position_witness :
  db (tp_world (F := Q)) !! 0%nat = Some tp_position
  /\ db (monitor_positions (F := Q) (main_config true) gateway_down
           stand_in_libm 0%Q None None tp_world) !! 0%nat
     = Some tp_position.
Proof.
  split; [reflexivity |].
  apply (monitor_failed_fetch_keeps_position (F := Q)); reflexivity.
Defined.

Section ExitReasons.
Context {F : Type} `{PyFloat F}.
Local Open Scope py_scope.

Lemma stop_decision_reason (cfg : Config F) (loss : F) (flipped : bool)
    (r : StopReason F) :
  stop_decision cfg loss flipped = Some r ->
  (r = STOP_LOSS loss /\ fle (STOP_LOSS_PCT cfg) loss = true)
  \/ (r = EDGE_FLIPPED loss /\ flipped = true
      /\ flt (lit 5 100) loss = true
      /\ fle (STOP_LOSS_PCT cfg) loss = false).
Proof.
  unfold stop_decision.
  destruct (fle (STOP_LOSS_PCT cfg) loss); [intros [= <-]; now left |].
  destruct flipped; [| discriminate]. cbn [andb].
  destruct (flt (lit 5 100) loss); [| discriminate].
  intros [= <-]. right. auto.
Qed.

Lemma model_view_needs_price (m : Libm F) (now : F) (btc vol_pm : option F)
    (market : Market F) :
  has_model btc vol_pm = false -> model_view m now btc vol_pm market = None.
Proof. destruct btc, vol_pm; (discriminate || reflexivity). Qed.

Lemma check_position_event (cfg : Config F) (gw : Gateway F) (i : nat)
    (pos : Position F) (market : Market F) (model : Market F -> option F)
    (d : list (Position F)) (w : World F) :
  pos ∈ d -> is_open pos = true ->
  get_market gw (market_id pos) = Some market ->
  exists e,
    log (check_position cfg gw i pos market (model market) w)
    = log w ++ [e]
    /\ exit_justified cfg gw model d e
    /\ (model market = None -> is_edge_flip e = false).
Proof.
  intros Hin Hopen Hmk.
  assert (Hflip : model market = None ->
                  edge_flipped pos market (model market) = false)
    by (intros ->; reflexivity).
  unfold check_position, take_profit_no, take_profit_yes,
    stop_loss_stage, status_display, send_close, emit, close_in_store,
    close_position_with_pnl.
  destruct (is_settled market) eqn:Hset.
  { cbn [log]. eexists. split; [reflexivity |].
    split; [| reflexivity]. exists pos, market. auto 10. }
  destruct (stop_decision cfg (unrealized_loss_pct pos (curr_val pos market))
              (edge_flipped pos market (model market))) as [r |] eqn:Hstop.
  - apply stop_decision_reason in Hstop.
    destruct (side pos) eqn:Hside; cbn [Side_eqb andb negb].
    all: repeat match goal with
         | |- context [if ?b then _ else _] => destruct b eqn:?
         end; cbn [db orders log andb negb] in *.
    all: rewrite ?Z.ltb_lt, ?Z.leb_le, ?Z.ltb_ge in *.
    all: eexists; (split; [reflexivity |]); cbn [exit_justified is_edge_flip].
    all: try (split; [exact I | reflexivity]).
    all: try (split; [| reflexivity]; exists pos, market; rewrite Hside;
              do 6 (split; [first [assumption | reflexivity] |]);
              split; [reflexivity |];
              first
                [ split; [assumption | reflexivity]
                | split; [lia |];
                  repeat match goal with
                  | |- context [(?a <? ?b)%Z] =>
                      destruct (Z.ltb_spec a b); try lia
                  end; reflexivity ]).
    all: destruct Hstop as [[-> Hs] | (-> & Hf & Hl & Hs)].
    all: try (split; [| reflexivity]; exists pos, market;
              do 5 (split; [first [assumption | reflexivity] |]);
              do 2 (split; [reflexivity |]); split; [reflexivity | exact Hs]).
    all: split; [exists pos, market;
                 do 5 (split; [first [assumption | reflexivity] |]);
                 do 2 (split; [reflexivity |]);
                 split; [reflexivity | auto]
                | intros Hnone; rewrite (Hflip Hnone) in Hf; discriminate].
  - destruct (side pos) eqn:Hside; cbn [Side_eqb andb negb].
    all: repeat match goal with
         | |- context [if ?b then _ else _] => destruct b eqn:?
         end; cbn [db orders log andb negb] in *.
    all: rewrite ?Z.ltb_lt, ?Z.leb_le, ?Z.ltb_ge in *.
    all: eexists; (split; [reflexivity |]); cbn [exit_justified is_edge_flip].
    all: try (split; [exact I | reflexivity]).
    all: split; [| reflexivity]; exists pos, market; rewrite Hside;
         do 6 (split; [first [assumption | reflexivity] |]);
         split; [reflexivity |];
         first
           [ split; [assumption | reflexivity]
           | split; [lia |];
             repeat match goal with
             | |- context [(?a <? ?b)%Z] =>
                 destruct (Z.ltb_spec a b); try lia
             end; reflexivity ].
Qed.

Lemma open_from_elems (d : list (Position F)) (k : nat) :
  Forall (fun ip => ip.2 ∈ d /\ is_open ip.2 = true) (open_from k d).
Proof.
  revert k. induction d as [| p d IH]; intros k; cbn [open_from];
    [constructor |].
  assert (Hd : Forall (fun ip => ip.2 ∈ p :: d /\ is_open ip.2 = true)
                 (open_from (S k) d)).
  { eapply Forall_impl; [apply IH |]. intros ip [Hin Ho].
    split; [now right | exact Ho]. }
  destruct (is_open p) eqn:Ho; [| exact Hd].
  constructor; [| exact Hd]. split; [left | exact Ho].
Qed.

Lemma monitor_fold_events (cfg : Config F) (gw : Gateway F) (m : Libm F)
    (now : F) (btc vol_pm : option F) (d : list (Position F))
    (l : list (nat * Position F)) (w : World F) :
  Forall (fun ip => ip.2 ∈ d /\ is_open ip.2 = true) l ->
  exists es,
    log (fold_left (monitor_step cfg gw m now btc vol_pm) l w) = log w ++ es
    /\ Forall (exit_justified cfg gw (model_view m now btc vol_pm) d) es
    /\ (has_model btc vol_pm = false ->
        Forall (fun e => is_edge_flip e = false) es).
Proof.
  intros Hl. revert w.
  induction Hl as [| [i pos] l [Hin Hopen] _ IH]; intros w; cbn [fold_left].
  { exists []. rewrite app_nil_r. repeat split; constructor. }
  destruct (IH (monitor_step cfg gw m now btc vol_pm w (i, pos)))
    as (es & -> & Hes & Hno).
  assert (Hstep : exists e,
             log (monitor_step cfg gw m now btc vol_pm w (i, pos))
             = log w ++ [e]
             /\ exit_justified cfg gw (model_view m now btc vol_pm) d e
             /\ (has_model btc vol_pm = false -> is_edge_flip e = false)).
  { cbn [monitor_step]. cbn [snd] in Hin, Hopen.
    destruct (get_market gw (market_id pos)) as [market |] eqn:Hmk.
    - destruct (check_position_event cfg gw i pos market
                  (model_view m now btc vol_pm) d w Hin Hopen Hmk)
        as (e & He & Hj & Hf).
      exists e. split; [exact He |]. split; [exact Hj |].
      intros Hm. apply Hf. now apply model_view_needs_price.
    - exists (EvError (market_id pos)).
      split; [reflexivity |]. split; [exact I | reflexivity]. }
  destruct Hstep as (e & -> & He & Hne).
  exists (e :: es). rewrite <- app_assoc. split; [reflexivity |].
  split; [now constructor |].
  intros Hm. constructor; auto.
Qed.

(** X8.  Every exit a pass reports has its reason in the store the pass
    started from and the market the gateway returned for it: the line
    is about an open position of that market and reports its value and
    P&L.  A settlement follows a settled market.  A stop names the loss
    fraction of the position, which reached the stop-loss fraction or,
    short of it, lies above 5% while the model view of that market
    turned against the position; the turn takes a BTC price and a
    volatility, so the first pass of a cycle, which has neither, never
    stops on it.  A take-profit on YES follows a YES bid of at least 80
    cents and exits at it; one on NO follows a YES ask from 1 to 5
    cents and exits at the NO bid, or at the complement of that ask
    when there is no NO bid. *)
Theorem monitor_exits_are_justified (cfg : Config F) (gw : Gateway F)
    (m : Libm F) (now : F) (btc vol_pm : option F) (w : World F) :
  exists es,
    log (monitor_positions cfg gw m now btc vol_pm w) = log w ++ es
    /\ Forall
         (exit_justified cfg gw (model_view m now btc vol_pm) (db w)) es
    /\ (has_model btc vol_pm = false ->
        Forall (fun e => is_edge_flip e = false) es).
Proof. apply monitor_fold_events, open_from_elems. Qed.
End ExitReasons.

(* ------------------------------------------------------------------ *)
(** ** Reconciliation, capital check, settlement and closing orders *)

Section ReconcileFrame.
Context {F : Type} `{PyFloat F}.

Lemma reconcile_fold_frame (lp : gmap string Z)
    (l : list (nat * Position F)) (w : World F) :
  let w' := fold_left (reconcile_step lp) l w in
  orders w' = orders w
  /\ log w'
     = log w ++ map (fun ip => EvReconcile (market_id ip.2))
                  (List.filter (fun ip => zero_on_venue lp ip.2) l).
Proof.
  cbv zeta. revert w. induction l as [| [i p] l IH]; intros w.
  { cbn. now rewrite app_nil_r. }
  cbn [fold_left List.filter reconcile_step snd].
  destruct (IH (if zero_on_venue lp p
                then emit (EvReconcile (market_id p))
                       (close_in_store i p (entry_price p) w)
                else w)) as [Ho Hl].
  rewrite Ho, Hl. destruct (zero_on_venue lp p); cbn; [| now split].
  split; [reflexivity |]. now rewrite <- app_assoc.
Qed.

(** X9.  Reconciliation sends no order and keeps every row in its
    place; it leaves alone the closed rows, the open rows the venue
    still holds and, in paper mode, all of them; and it prints one line
    for each row it closes. *)
Theorem reconcile_touches_only_flat_rows (cfg : Config F)
    (venue : list (string * option Z)) (w : World F) :
  let lp := live_positions venue in
  let w' := reconcile cfg venue w in
  orders w' = orders w
  /\ length (db w') = length (db w)
  /\ (forall i p,
        db w !! i = Some p ->
        LIVE_MODE cfg && is_open p && zero_on_venue lp p = false ->
        db w' !! i = Some p)
  /\ log w'
     = log w ++ map (fun ip => EvReconcile (market_id ip.2))
                  (List.filter
                     (fun ip => LIVE_MODE cfg && zero_on_venue lp ip.2)
                     (get_open_positions (db w))).
Proof.
  cbv zeta. destruct (LIVE_MODE cfg) eqn:Hlive; cbn [andb].
  - pose proof (reconcile_db cfg venue w Hlive) as Hdb.
    unfold reconcile in *. rewrite Hlive in *.
    destruct (reconcile_fold_frame (live_positions venue)
                (get_open_positions (db w)) w) as [Ho Hl].
    split; [exact Ho |]. rewrite Hdb.
    split; [apply length_map |]. split; [| exact Hl].
    intros i p Hi Hp. change map with (@fmap list _).
    rewrite list_lookup_fmap, Hi. cbn. unfold reconciled. now rewrite Hp.
  - unfold reconcile. rewrite Hlive.
    split; [reflexivity |]. split; [reflexivity |].
    split; [auto |].
    assert (Hnil : forall l : list (nat * Position F),
               List.filter (fun _ => false) l = []).
    { induction l; cbn; auto. }
    rewrite Hnil. cbn. now rewrite app_nil_r.
Qed.
End ReconcileFrame.

Section EntryGate.
Local Open Scope Q_scope.

(** X10.  With no open position the capital check depends on the mode
    alone: a paper run always goes on to scan (an empty account trades
    a notional 1000), a live run goes on exactly when the balance is
    positive; the store is not touched. *)
Theorem empty_book_entry_gate (live : bool) (reported : Q)
    (venue : list (string * option Z)) (w : World Q) :
  get_open_positions (db w) = [] ->
  capital_check (main_config live) reported venue w
  = (live && fle reported 0, w).
Proof.
  intros He. unfold capital_check, reconcile. rewrite He.
  assert (Hw : (if LIVE_MODE (main_config (F := Q) live)
                then fold_left
                       (reconcile_step (live_positions venue)) [] w
                else w) = w) by (destruct live; reflexivity).
  rewrite Hw, He. f_equal.
  unfold skips_new_trades, exp_pct, effective_balance, exposure_of.
  cbn [fold_left main_config LIVE_MODE MAX_EXPOSURE_PCT].
  change (float_of_int 0) with (0 : Q).
  destruct (fleP reported 0) as [Hle | Hgt]; destruct live; cbn [andb negb].
  all: repeat match goal with
       | |- context [flt ?a ?b] => destruct (fltP a b)
       | |- context [fle ?a ?b] => destruct (fleP a b)
       end; try reflexivity; exfalso.
  all: repeat match goal with
       | H : context [lit ?n (Zpos ?d)] |- _ => rewrite lit_exact in H
       end.
  all: cbn [fadd fdiv float_of_int exact] in *.
  all: unfold Qdiv in *;
    repeat match goal with
    | H : context [0 * ?x] |- _ => rewrite (Qmult_0_l x) in H
    end; try lra.
  match goal with
  | Hn : ~ _ <= inject_Z 1 |- _ => apply Hn; discriminate
  end.
Qed.

Lemma empty_book_entry_gate_witness :
  get_open_positions (db (w_empty (F := Q))) = []
  /\ capital_check (main_config false) (-5) [] w_empty = (false, w_empty)
  /\ capital_check (main_config true) (-5) [] w_empty = (true, w_empty).
Proof.
  split; [reflexivity |]. split.
  - exact (empty_book_entry_gate false (-5) [] w_empty eq_refl).
  - exact (empty_book_entry_gate true (-5) [] w_empty eq_refl).
Defined.
End EntryGate.

Lemma lower_ascii_idempotent (c : ascii) :
  lower_ascii (lower_ascii c) = lower_ascii c.
Proof. destruct c as [[] [] [] [] [] [] [] []]; reflexivity. Qed.

Lemma lower_idempotent (s : string) : lower (lower s) = lower s.
Proof.
  induction s as [| c s IH]; [reflexivity |].
  cbn [lower]. now rewrite lower_ascii_idempotent, IH.
Qed.

Section SettlementFacts.
Local Open Scope Q_scope.

(** X11.  Settlement reads the result without regard to case and books
    a P&L of the expected sign: for an entry price between 0 and 1 and
    a quantity that is not negative, a position on the side of the
    result books no loss, one on the other side no gain, and a result
    that is neither yes nor no books exactly zero. *)
Theorem settlement_pnl_sign (pos : Position Q) (res : string) (pnl : Q) :
  0 <= entry_price pos <= 1 ->
  (0 <= quantity pos)%Z ->
  realized_pnl (mark_closed pos (settlement_value pos res)) = Some pnl ->
  settlement_value pos (lower res) = settlement_value pos res
  /\ (lower res = side_name_lower (side pos) -> 0 <= pnl)
  /\ (lower res = side_name_lower (other_side (side pos)) -> pnl <= 0)
  /\ (lower res <> "yes" -> lower res <> "no" -> pnl == 0).
Proof.
  intros He Hq. cbn [mark_closed realized_pnl]. intros [= <-].
  assert (Hqq : 0 <= inject_Z (quantity pos)).
  { change 0 with (inject_Z 0). now rewrite <- Zle_Qle. }
  unfold settlement_value. rewrite lower_idempotent.
  split; [reflexivity |].
  destruct (String.eqb_spec (lower res) "yes") as [Hy | Hy];
    [| destruct (String.eqb_spec (lower res) "no") as [Hn | Hn]];
    destruct (side pos); cbn [side_name_lower other_side];
    (split; [| split]); intros; try congruence;
    cbn [float_of_int fsub fmul exact];
    try (change (inject_Z 1) with 1); try (change (inject_Z 0) with 0);
    try nra.
Qed.

Lemma settlement_pnl_sign_witness :
  0 <= entry_price (tp_position (F := Q)) <= 1
  /\ (0 <= quantity (tp_position (F := Q)))%Z
  /\ settlement_value tp_position (lower "YES")
     = settlement_value (tp_position (F := Q)) "YES"
  /\ realized_pnl (mark_closed tp_position (settlement_value tp_position "YES"))
     = Some (20 # 100).
Proof.
  assert (He : 0 <= entry_price (tp_position (F := Q)) <= 1)
    by (split; discriminate).
  assert (Hq : (0 <= quantity (tp_position (F := Q)))%Z) by discriminate.
  split; [exact He |]. split; [exact Hq |].
  split; [| reflexivity].
  exact (proj1 (settlement_pnl_sign tp_position "YES" _ He Hq eq_refl)).
Defined.
End SettlementFacts.

Section ClosingOrders.
Context {F : Type} `{PyFloat F}.

Lemma close_payload_valid (pos : Position F) (o : Order) :
  sells pos o -> valid_close_body o (close_payload o).
Proof.
  intros (_ & _ & _ & Hp). unfold valid_close_body, close_payload,
    close_position.
  destruct (o_side o); cbn; do 3 (split; [reflexivity |]); eexists;
    (split; [split; reflexivity | lia]).
Qed.

End ClosingOrders.

(* ------------------------------------------------------------------ *)
(** ** Price window and volatility estimate *)

Lemma deque_append_latest {A} (n : nat) (h : list A) (x : A) :
  deque_append n (drop (length h - n) h) x
  = drop (length (h ++ [x]) - n) (h ++ [x]).
Proof.
  unfold deque_append.
  rewrite <- (drop_app_le h [x]) by lia.
  rewrite drop_drop. f_equal.
  rewrite length_drop, !length_app. cbn [length]. lia.
Qed.

Lemma btc_prices_latest {A} (history : list A) :
  btc_prices history = drop (length history - VOL_LOOKBACK) history.
Proof.
  unfold btc_prices.
  induction history as [| x h IH] using rev_ind; [reflexivity |].
  rewrite fold_left_app. cbn [fold_left]. rewrite IH.
  apply deque_append_latest.
Qed.

(** X13.  The price window holds the latest samples, oldest first: all
    of them until there are [VOL_LOOKBACK], the last [VOL_LOOKBACK]
    from then on. *)
Theorem price_window_keeps_latest {A} (history : list A) :
  btc_prices history = drop (length history - VOL_LOOKBACK) history
  /\ length (btc_prices history) = Nat.min (length history) VOL_LOOKBACK.
Proof.
  rewrite btc_prices_latest. split; [reflexivity |].
  rewrite length_drop. lia.
Qed.

Section VolatilityAnyFloat.
Context {F : Type} `{PyFloat F}.
Local Open Scope py_scope.

(** X14.  Until the fifth price sample the estimate is the default
    annual volatility scaled to a minute, whatever the samples are. *)
Theorem estimate_vol_short_history (m : Libm F) (stdev : list F -> F)
    (history : list F) :
  (length history < 5)%nat ->
  estimate_vol m stdev (btc_prices history)
  = Ok (DEFAULT_ANN_VOL / m_sqrt m (float_of_int 525600)).
Proof.
  intros Hlen. unfold estimate_vol.
  rewrite btc_prices_latest, length_drop.
  destruct (Nat.ltb_spec (length history - (length history - VOL_LOOKBACK))
              5) as [_ | Hge]; [reflexivity | lia].
Qed.
End VolatilityAnyFloat.

Section VolatilityFacts.
Local Open Scope Q_scope.

Lemma log_returns_total (m : Libm Q) (rest : list Q) (prev : Q) :
  exists rs, log_returns m prev rest = Ok rs
             /\ (length rs <= length rest)%nat.
Proof.
  revert prev. induction rest as [| x rest IH]; intros prev;
    cbn [log_returns].
  - exists []. split; [reflexivity | cbn; lia].
  - destruct (fltP (float_of_int 0) prev) as [Hp | Hp]; cbn [andb].
    + destruct (fltP (float_of_int 0) x) as [Hx | Hx].
      * unfold pylog.
        assert (Hr : 0 < x / prev) by (apply ratio_positive; assumption).
        destruct (fltP (float_of_int 0) (x / prev)%py) as [_ | Hn];
          [| contradiction].
        cbn [bind]. destruct (IH x) as (rs & -> & Hlen). cbn [bind].
        eexists. split; [reflexivity |]. cbn [length]. lia.
      * destruct (IH x) as (rs & -> & Hlen).
        exists rs. split; [reflexivity |]. cbn [length]. lia.
    + destruct (IH x) as (rs & -> & Hlen).
      exists rs. split; [reflexivity |]. cbn [length]. lia.
Qed.

Lemma default_above_floor (s : Q) :
  0 < s -> MIN_ANN_VOL / s <= DEFAULT_ANN_VOL / s /\ 0 < MIN_ANN_VOL / s.
Proof.
  intros Hs. unfold MIN_ANN_VOL, DEFAULT_ANN_VOL. rewrite !lit_exact.
  assert (Hi : 0 < / s) by now apply Qinv_lt_0_compat.
  unfold Qdiv. split; [| nra].
  apply Qmult_le_compat_r; [discriminate | now apply Qlt_le_weak].
Qed.

(** X15.  In exact arithmetic, once the square root of the minutes of a
    year is positive, the estimate never raises, whatever the samples
    (zero and negative prices are left out of the returns), and it is
    never below the floor [MIN_ANN_VOL] scaled to a minute; so it is
    positive. *)
Theorem estimate_vol_floor (m : Libm Q) (stdev : list Q -> Q)
    (prices : list Q) :
  0 < m_sqrt m 525600 ->
  exists v,
    estimate_vol m stdev prices = Ok v
    /\ MIN_ANN_VOL / m_sqrt m 525600 <= v
    /\ 0 < v.
Proof.
  intros Hs.
  destruct (default_above_floor _ Hs) as [Hdef Hpos].
  assert (Hd : exists v,
             Ok (DEFAULT_ANN_VOL / m_sqrt m 525600)%py = Ok v
             /\ MIN_ANN_VOL / m_sqrt m 525600 <= v /\ 0 < v).
  { eexists. split; [reflexivity |]. split; [exact Hdef |].
    eapply Qlt_le_trans; [exact Hpos | exact Hdef]. }
  unfold estimate_vol. change (float_of_int 525600) with (525600 : Q).
  destruct (length prices <? 5)%nat; [exact Hd |].
  assert (Hl : exists rs,
             match prices with
             | [] => Ok []
             | p0 :: rest => log_returns m p0 rest
             end = Ok rs).
  { destruct prices as [| p0 rest]; [now exists [] |].
    destruct (log_returns_total m rest p0) as (rs & Hrs & _). eauto. }
  destruct Hl as (rs & ->). cbn [bind].
  destruct (length rs <? 3)%nat; [exact Hd |].
  eexists. split; [reflexivity |]. unfold pymax.
  destruct (fltP (stdev rs / m_sqrt m (float_of_int 2))%py
              (MIN_ANN_VOL / m_sqrt m 525600)%py) as [Hlt | Hge].
  - split; [apply Qle_refl | exact Hpos].
  - apply Qnot_lt_le in Hge. split; [exact Hge |].
    eapply Qlt_le_trans; [exact Hpos | exact Hge].
Qed.

Lemma estimate_vol_floor_witness :
  0 < m_sqrt stand_in_libm 525600
  /\ exists v,
       estimate_vol stand_in_libm (fun _ => 0) [100; 101; 0; 102; 103; 104]
       = Ok v
       /\ MIN_ANN_VOL / m_sqrt stand_in_libm 525600 <= v
       /\ 0 < v.
Proof.
  assert (Hs : 0 < m_sqrt stand_in_libm 525600) by reflexivity.
  split; [exact Hs |].
  exact (estimate_vol_floor stand_in_libm (fun _ => 0)
           [100; 101; 0; 102; 103; 104] Hs).
Defined.
End VolatilityFacts.

Lemma estimate_vol_short_history_witness :
  (length [100%Q; 101%Q] < 5)%nat
  /\ estimate_vol stand_in_libm (fun _ => 0%Q) (btc_prices [100%Q; 101%Q])
     = Ok (fdiv DEFAULT_ANN_VOL (m_sqrt stand_in_libm (float_of_int 525600))).
Proof.
  assert (Hl : (length [100%Q; 101%Q] < 5)%nat) by (cbn; lia).
  split; [exact Hl |].
  exact (estimate_vol_short_history stand_in_libm (fun _ => 0%Q)
           [100%Q; 101%Q] Hl).
Defined.

(* ------------------------------------------------------------------ *)
(** ** The market list *)

Section MarketList.
Context {F : Type} `{PyFloat F}.

Lemma get_btc_markets_flat (events : list (list (Market F))) acc :
  fold_left (fun acc markets => fold_left collect_market markets acc)
    events acc
  = fold_left collect_market (concat events) acc.
Proof.
  revert acc. induction events as [| ms events IH]; intros acc;
    [reflexivity |].
  cbn [fold_left concat]. now rewrite IH, fold_left_app.
Qed.

Lemma collect_markets_effect (l : list (Market F)) (seen : gset string)
    (acc : list (Market F)) :
  exists k,
    fold_left collect_market l (seen, acc)
    = (list_to_set (map ticker k) ∪ seen, acc ++ k)
    /\ sublist k l
    /\ NoDup (map ticker k)
    /\ Forall (fun m => ticker m <> "" /\ ticker m ∉ seen) k
    /\ Forall (fun m => ticker m <> "" ->
                 ticker m ∈ seen \/ ticker m ∈ map ticker k) l
    /\ (forall pre m post,
          k = pre ++ m :: post ->
          exists pre' post',
            l = pre' ++ m :: post' /\ ticker m ∉ map ticker pre').
Proof.
  revert seen acc. induction l as [| m l IH]; intros seen acc.
  { exists []. cbn. rewrite app_nil_r.
    split; [f_equal; set_solver |]. split; [constructor |].
    split; [constructor |]. split; [constructor |].
    split; [constructor |]. intros [| ? ?] ? ? ?; discriminate. }
  cbn [fold_left]. unfold collect_market at 2. cbn [fst snd].
  destruct (String.eqb_spec (ticker m) "") as [Hemp | Hne]; cbn [negb andb].
  - destruct (IH seen acc) as (k & -> & Hsub & Hnd & Hk & Hl & Hfirst).
    exists k. split; [reflexivity |].
    split; [now apply sublist_cons |]. split; [exact Hnd |].
    split; [exact Hk |].
    split; [constructor; [congruence | exact Hl] |].
    intros pre x post Hx.
    destruct (Hfirst pre x post Hx) as (pre' & post' & -> & Hnot).
    exists (m :: pre'), post'. split; [reflexivity |].
    cbn [map]. rewrite Hemp. intros Hin.
    apply elem_of_cons in Hin as [Hin | Hin]; [| tauto].
    assert (Hxk : x ∈ k) by (rewrite Hx; set_solver).
    rewrite Forall_forall in Hk. destruct (Hk x Hxk) as [Hxne _].
    congruence.
  - destruct (decide (ticker m ∈ seen)) as [Hin | Hnin].
    + rewrite bool_decide_eq_true_2 by exact Hin. cbn [negb].
      destruct (IH seen acc) as (k & -> & Hsub & Hnd & Hk & Hl & Hfirst).
      exists k. split; [reflexivity |].
      split; [now apply sublist_cons |]. split; [exact Hnd |].
      split; [exact Hk |].
      split; [constructor; [now left | exact Hl] |].
      intros pre x post Hx.
      destruct (Hfirst pre x post Hx) as (pre' & post' & -> & Hnot).
      exists (m :: pre'), post'. split; [reflexivity |].
      cbn [map]. intros Hin'.
      apply elem_of_cons in Hin' as [Hin' | Hin']; [| tauto].
      assert (Hxk : x ∈ k) by (rewrite Hx; set_solver).
      rewrite Forall_forall in Hk. destruct (Hk x Hxk) as [_ Hxs].
      congruence.
    + rewrite bool_decide_eq_false_2 by exact Hnin. cbn [negb].
      destruct (IH ({[ticker m]} ∪ seen) (acc ++ [m]))
        as (k & -> & Hsub & Hnd & Hk & Hl & Hfirst).
      exists (m :: k). split.
      { rewrite <- app_assoc. cbn [app map list_to_set].
        f_equal. set_solver. }
      split; [now apply sublist_skip |].
      split.
      { cbn [map]. apply NoDup_cons. split; [| exact Hnd].
        intros Hin. apply list_elem_of_fmap in Hin as (x & Hx & Hxk).
        rewrite Forall_forall in Hk. destruct (Hk x Hxk) as [_ Hxs].
        set_solver. }
      split.
      { constructor; [now split |].
        eapply Forall_impl; [exact Hk |]. intros x [Hx1 Hx2].
        split; [exact Hx1 | set_solver]. }
      split.
      { constructor; [intros _; right; cbn [map]; set_solver |].
        eapply Forall_impl; [exact Hl |]. intros x Hx Hxne.
        destruct (Hx Hxne) as [Hx' | Hx']; cbn [map]; set_solver. }
      intros pre x post Hx. destruct pre as [| y pre].
      * injection Hx as <- _. exists [], l. split; [reflexivity |].
        cbn. set_solver.
      * injection Hx as <- Hx.
        destruct (Hfirst pre x post Hx) as (pre' & post' & -> & Hnot).
        exists (m :: pre'), post'. split; [reflexivity |].
        cbn [map]. intros Hin.
        apply elem_of_cons in Hin as [Hin | Hin]; [| tauto].
        assert (Hxk : x ∈ k) by (rewrite Hx; set_solver).
        rewrite Forall_forall in Hk. destruct (Hk x Hxk) as [_ Hxs].
        set_solver.
Qed.

Lemma get_btc_markets_spec (events : list (list (Market F))) :
  let kept := get_btc_markets events in
  sublist kept (concat events)
  /\ NoDup (map ticker kept)
  /\ Forall (fun m => ticker m <> "") kept
  /\ (forall m, m ∈ concat events -> ticker m <> "" ->
        ticker m ∈ map ticker kept)
  /\ (forall pre m post,
        kept = pre ++ m :: post ->
        exists pre' post',
          concat events = pre' ++ m :: post'
          /\ ticker m ∉ map ticker pre').
Proof.
  cbv zeta. unfold get_btc_markets. rewrite get_btc_markets_flat.
  destruct (collect_markets_effect (concat events) ∅ [])
    as (k & -> & Hsub & Hnd & Hk & Hl & Hfirst).
  cbn [snd app].
  split; [exact Hsub |]. split; [exact Hnd |].
  split; [eapply Forall_impl; [exact Hk |]; now intros m [? _] |].
  split; [| exact Hfirst].
  intros m Hm Hne. rewrite Forall_forall in Hl.
  destruct (Hl m Hm Hne) as [Hin | Hin]; [set_solver | exact Hin].
Qed.

(** X16.  [get_btc_markets] returns the markets of the response that
    carry a ticker, each ticker once: the list is a subsequence of the
    response, no ticker is empty or repeated, every non-empty ticker of
    the response is there, and a market that is kept is the first of the
    response with its ticker. *)
Theorem get_btc_markets_distinct_tickers (events : list (list (Market F))) :
  let kept := get_btc_markets events in
  sublist kept (concat events)
  /\ NoDup (map ticker kept)
  /\ Forall (fun m => ticker m <> "") kept
  /\ (forall m, m ∈ concat events -> ticker m <> "" ->
        ticker m ∈ map ticker kept)
  /\ (forall pre m post,
        kept = pre ++ m :: post ->
        exists pre' post',
          concat events = pre' ++ m :: post'
          /\ ticker m ∉ map ticker pre').
Proof. exact (get_btc_markets_spec events). Qed.
End MarketList.

(* ------------------------------------------------------------------ *)
(** ** Ranking *)

Section RankingAnyFloat.
Context {F : Type} `{PyFloat F}.

Lemma insert_ranked_perm (c : Candidate F) (l : list (Candidate F)) :
  insert_ranked c l ≡ₚ c :: l.
Proof.
  induction l as [| d l IH]; cbn [insert_ranked]; [reflexivity |].
  destruct (flt (abs_edge c) (abs_edge d)); [| reflexivity].
  rewrite IH. apply Permutation_swap.
Qed.

Lemma rank_perm (cs : list (Candidate F)) : rank cs ≡ₚ cs.
Proof.
  induction cs as [| c cs IH]; [reflexivity |].
  cbn [rank foldr]. fold (rank cs). rewrite insert_ranked_perm.
  now constructor.
Qed.
End RankingAnyFloat.

Section RankingFacts.
Local Open Scope Q_scope.

Lemma insert_ranked_sorted (c : Candidate Q) (l : list (Candidate Q)) :
  StronglySorted ranked_before l ->
  StronglySorted ranked_before (insert_ranked c l).
Proof.
  induction 1 as [| d l Hs IH Hd]; cbn [insert_ranked].
  - repeat constructor.
  - destruct (fltP (abs_edge c) (abs_edge d)) as [Hlt | Hge].
    + constructor; [exact IH |].
      rewrite insert_ranked_perm. constructor; [| exact Hd].
      now apply Qlt_le_weak.
    + apply Qnot_lt_le in Hge.
      constructor; [now constructor |].
      constructor; [exact Hge |].
      eapply Forall_impl; [exact Hd |]. intros x Hx.
      unfold ranked_before in *. now apply Qle_trans with (abs_edge d).
Qed.

Lemma insert_ranked_stable (k : Q) (c : Candidate Q)
    (l : list (Candidate Q)) :
  List.filter (fun x => feq (abs_edge x) k) (insert_ranked c l)
  = List.filter (fun x => feq (abs_edge x) k) (c :: l).
Proof.
  induction l as [| d l IH]; cbn [insert_ranked]; [reflexivity |].
  destruct (fltP (abs_edge c) (abs_edge d)) as [Hlt | Hge]; [| reflexivity].
  cbn [List.filter] in *. rewrite IH.
  destruct (feqP (abs_edge c) k) as [Hc | Hc];
    destruct (feqP (abs_edge d) k) as [Hd | Hd]; try reflexivity.
  exfalso. rewrite Hc, Hd in Hlt. revert Hlt. apply Qlt_irrefl.
Qed.

(** X17.  Ranking loses and invents no candidate, puts a larger absolute
    edge before a smaller one, and keeps candidates of equal absolute
    edge in the order in which the scan found them. *)
Theorem rank_sorts_by_abs_edge (cs : list (Candidate Q)) :
  rank cs ≡ₚ cs
  /\ StronglySorted (fun a b => abs_edge b <= abs_edge a) (rank cs)
  /\ (forall k,
        List.filter (fun c => feq (abs_edge c) k) (rank cs)
        = List.filter (fun c => feq (abs_edge c) k) cs).
Proof.
  split; [apply rank_perm |]. split.
  - induction cs as [| c cs IH]; [constructor |].
    cbn [rank foldr]. fold (rank cs). now apply insert_ranked_sorted.
  - intros k. induction cs as [| c cs IH]; [reflexivity |].
    cbn [rank foldr]. fold (rank cs). rewrite insert_ranked_stable.
    cbn [List.filter]. now rewrite IH.
Qed.
End RankingFacts.

(* ------------------------------------------------------------------ *)
(** ** The scan loop *)

Section ScanAnyFloat.
Context {F : Type} `{PyFloat F}.
Local Open Scope py_scope.

(** X18.  Whatever the float arithmetic (a NaN from the math library
    included), a probability [range_probability] returns is 0, 1, or
    strictly between the two. *)
Theorem range_probability_unit_interval (m : Libm F)
    (btc floor_s cap_s vol_per_min mins r : F) :
  range_probability m btc floor_s cap_s vol_per_min mins = Ok r ->
  r = float_of_int 0 \/ r = float_of_int 1
  \/ ((float_of_int 0 <? r) = true /\ (r <? float_of_int 1) = true).
Proof.
  unfold range_probability, in_range, pydiv, bind.
  destruct (mins <=? float_of_int 0).
  { destruct (_ && _); intros [= <-]; auto. }
  destruct (_ <? lit 1 1000000000).
  { destruct (_ && _); intros [= <-]; auto. }
  destruct (feq btc (float_of_int 0)); [discriminate |].
  destruct (pylog m (cap_s / btc)) as [l_cap |]; [| discriminate].
  destruct (pylog m (floor_s / btc)) as [l_floor |]; [| discriminate].
  intros [= <-]. unfold pymax, pymin.
  set (x := normal_cdf m _ - normal_cdf m _).
  destruct (x <? float_of_int 1) eqn:E1.
  - destruct (float_of_int 0 <? x) eqn:E0; auto.
  - destruct (float_of_int 0 <? float_of_int 1) eqn:E0; auto.
Qed.

Lemma scan_market_appended (cfg : Config F) (m : Libm F)
    (held : gset string) (now_ts btc vol_pm : F) (market : Market F)
    (c : Candidate F) :
  scan_market cfg m held now_ts btc vol_pm market = Appended c ->
  c_ticker c = ticker market
  /\ (c_ticker c ∉ held)
  /\ (0 < c_price_cents c < 100)%Z
  /\ c_exec_prob c = cents (c_price_cents c)
  /\ fle (MIN_EDGE cfg) (c_edge c) = true
  /\ (float_of_int (TIME_MIN_MINS cfg) <=? c_mins_left c) = true
  /\ (c_mins_left c <=? float_of_int (TIME_MAX_MINS cfg)) = true
  /\ (0 < quote (yes_bid market))%Z.
Proof.
  unfold scan_market, scan_filters.
  destruct (decide (ticker market ∈ held)) as [Hin | Hnin].
  { rewrite bool_decide_eq_true_2 by exact Hin. discriminate. }
  rewrite bool_decide_eq_false_2 by exact Hnin.
  destruct (close_time market) as [close_ts |]; [| discriminate].
  cbv zeta.
  destruct (float_of_int (TIME_MIN_MINS cfg) <=? _) eqn:Hlo;
    [| discriminate].
  destruct (_ <=? float_of_int (TIME_MAX_MINS cfg)) eqn:Hhi;
    [| discriminate].
  cbn [andb negb].
  destruct (Z.leb_spec (quote (yes_bid market)) 0) as [| Hyb];
    [discriminate |].
  destruct (floor_strike market) as [floor_s |]; [| discriminate].
  destruct (cap_strike market) as [cap_s |]; [| discriminate].
  destruct (negb (truthy floor_s) || negb (truthy cap_s)); [discriminate |].
  destruct (_ || _); [discriminate |].
  destruct (range_probability _ _ _ _ _ _) as [p | e]; [| discriminate].
  unfold scan_priced, choose_side.
  destruct (edge_yes p _ >=? MIN_EDGE cfg) eqn:Hy.
  - destruct (Z.leb_spec (quote (yes_ask market)) 0); [discriminate |].
    destruct (Z.leb_spec 100 (quote (yes_ask market))); [discriminate |].
    cbn [orb]. destruct (btc_pos btc floor_s cap_s); [| discriminate].
    intros [= <-]. cbn. repeat split; auto; lia.
  - destruct (edge_no p _ >=? MIN_EDGE cfg) eqn:Hn; [| discriminate].
    set (nap := no_ask_price _ _) in *.
    destruct (Z.leb_spec nap 0); [discriminate |].
    destruct (Z.leb_spec 100 nap); [discriminate |].
    cbn [orb]. destruct (btc_pos btc floor_s cap_s); [| discriminate].
    intros [= <-]. cbn. repeat split; auto; lia.
Qed.

Lemma scan_markets_sound (cfg : Config F) (m : Libm F)
    (held : gset string) (now_ts btc vol_pm : F)
    (markets : list (Market F)) (cs : list (Candidate F)) :
  scan_markets cfg m held now_ts btc vol_pm markets = Ok cs ->
  sublist (map c_ticker cs) (map ticker markets)
  /\ Forall (fun c =>
       (c_ticker c ∉ held)
       /\ (0 < c_price_cents c < 100)%Z
       /\ c_exec_prob c = cents (c_price_cents c)
       /\ fle (MIN_EDGE cfg) (c_edge c) = true
       /\ (float_of_int (TIME_MIN_MINS cfg) <=? c_mins_left c) = true
       /\ (c_mins_left c <=? float_of_int (TIME_MAX_MINS cfg)) = true) cs.
Proof.
  revert cs. induction markets as [| market rest IH]; intros cs;
    cbn [scan_markets].
  { intros [= <-]. split; constructor. }
  destruct (scan_market cfg m held now_ts btc vol_pm market) as [| c | e]
    eqn:Hsm.
  - intros Hcs. destruct (IH cs Hcs) as [Hsub Hall].
    split; [cbn [map]; now apply sublist_cons | exact Hall].
  - destruct (scan_markets cfg m held now_ts btc vol_pm rest) as [cs' | e];
      [| discriminate].
    cbn [bind]. intros [= <-]. destruct (IH cs' eq_refl) as [Hsub Hall].
    apply scan_market_appended in Hsm as (Ht & Hrest).
    split.
    + cbn [map]. rewrite Ht. now apply sublist_skip.
    + constructor; [| exact Hall]. tauto.
  - discriminate.
Qed.

(** X19.  The candidates of a scan that ran to its end follow the
    market list (at most one per market, in its order, under its
    ticker); none is for a ticker already held; each has a price
    strictly between 0 and 100 cents, which is its execution
    probability, an edge of at least [MIN_EDGE], and a time to close
    within the window. *)
Theorem scan_candidates_well_formed (cfg : Config F) (m : Libm F)
    (held : gset string) (now_ts btc vol_pm : F)
    (markets : list (Market F)) (cs : list (Candidate F)) :
  scan_markets cfg m held now_ts btc vol_pm markets = Ok cs ->
  sublist (map c_ticker cs) (map ticker markets)
  /\ Forall (fun c =>
       (c_ticker c ∉ held)
       /\ (0 < c_price_cents c < 100)%Z
       /\ c_exec_prob c = cents (c_price_cents c)
       /\ fle (MIN_EDGE cfg) (c_edge c) = true
       /\ (float_of_int (TIME_MIN_MINS cfg) <=? c_mins_left c) = true
       /\ (c_mins_left c <=? float_of_int (TIME_MAX_MINS cfg)) = true) cs.
Proof. apply scan_markets_sound. Qed.

Lemma scan_markets_raise_iff (cfg : Config F) (m : Libm F)
    (held : gset string) (now_ts btc vol_pm : F)
    (markets : list (Market F)) (e : PyErr) :
  scan_markets cfg m held now_ts btc vol_pm markets = Raise e
  <-> exists pre market post,
        markets = pre ++ market :: post
        /\ scan_market cfg m held now_ts btc vol_pm market = CycleError e
        /\ Forall (fun mk => forall e',
                     scan_market cfg m held now_ts btc vol_pm mk
                     <> CycleError e') pre.
Proof.
  induction markets as [| market rest IH]; cbn [scan_markets].
  { split; [discriminate |]. intros ([| ? ?] & ? & ? & Hm & _);
      discriminate. }
  destruct (scan_market cfg m held now_ts btc vol_pm market) as [| c | e0]
    eqn:Hsm.
  - rewrite IH. split.
    + intros (pre & mk & post & -> & Hmk & Hpre).
      exists (market :: pre), mk, post. split; [reflexivity |].
      split; [exact Hmk |]. constructor; [| exact Hpre].
      intros e'. rewrite Hsm. discriminate.
    + intros ([| x pre] & mk & post & Hm & Hmk & Hpre).
      * injection Hm as <- _. congruence.
      * injection Hm as <- ->. apply Forall_cons in Hpre as [_ Hpre].
        eauto 6.
  - assert (Hb : scan_markets cfg m held now_ts btc vol_pm rest = Raise e
                 <-> (let* cs :=
                        scan_markets cfg m held now_ts btc vol_pm rest in
                      Ok (c :: cs)) = Raise e).
    { destruct (scan_markets cfg m held now_ts btc vol_pm rest);
        cbn [bind]; split; congruence. }
    rewrite <- Hb, IH. split.
    + intros (pre & mk & post & -> & Hmk & Hpre).
      exists (market :: pre), mk, post. split; [reflexivity |].
      split; [exact Hmk |]. constructor; [| exact Hpre].
      intros e'. rewrite Hsm. discriminate.
    + intros ([| x pre] & mk & post & Hm & Hmk & Hpre).
      * injection Hm as <- _. congruence.
      * injection Hm as <- ->. apply Forall_cons in Hpre as [_ Hpre].
        eauto 6.
  - split.
    + intros [= <-]. exists [], market, rest.
      split; [reflexivity |]. split; [exact Hsm | constructor].
    + intros ([| x pre] & mk & post & Hm & Hmk & Hpre).
      * injection Hm as <- _. congruence.
      * injection Hm as <- _. apply Forall_cons in Hpre as [Hx _].
        now destruct (Hx e0).
Qed.
Lemma scan_market_raises_iff (cfg : Config F) (m : Libm F)
    (held : gset string) (now_ts btc vol_pm : F) (market : Market F)
    (e : PyErr) :
  scan_market cfg m held now_ts btc vol_pm market = CycleError e
  <-> scan_raises cfg m held now_ts btc vol_pm market e.
Proof.
  unfold scan_raises, scan_market. split.
  - destruct (scan_filters cfg held now_ts market) as [[[ml f] c] |];
      [| discriminate].
    destruct (range_probability m btc f c vol_pm ml) as [p | e0] eqn:Hr.
    + unfold scan_priced.
      destruct (choose_side _ _ _ _ _) as [[[s pr] ed] |] eqn:Hc;
        [| discriminate].
      destruct (Z.leb_spec pr 0); [discriminate |].
      destruct (Z.leb_spec 100 pr); [discriminate |]. cbn [orb].
      destruct (btc_pos btc f c) as [b | e0] eqn:Hb; [discriminate |].
      intros [= <-]. exists ml, f, c. split; [reflexivity |].
      right. exists p, s, pr, ed. repeat split; auto; lia.
    + intros [= <-]. exists ml, f, c. split; [reflexivity | now left].
  - intros (ml & f & c & -> & [-> | (p & s & pr & ed & -> & Hc & Hp & Hb)]);
      [reflexivity |].
    unfold scan_priced. rewrite Hc.
    destruct (Z.leb_spec pr 0); [lia |].
    destruct (Z.leb_spec 100 pr); [lia |]. cbn [orb]. now rewrite Hb.
Qed.

Lemma scan_markets_raises (cfg : Config F) (m : Libm F)
    (held : gset string) (now_ts btc vol_pm : F)
    (markets : list (Market F)) (e : PyErr) :
  scan_markets cfg m held now_ts btc vol_pm markets = Raise e
  <-> exists pre market post,
        markets = pre ++ market :: post
        /\ scan_raises cfg m held now_ts btc vol_pm market e
        /\ Forall (fun mk => forall e',
                     ~ scan_raises cfg m held now_ts btc vol_pm mk e') pre.
Proof.
  rewrite scan_markets_raise_iff. split.
  - intros (pre & mk & post & -> & Hmk & Hpre).
    exists pre, mk, post. split; [reflexivity |].
    split; [now apply scan_market_raises_iff |].
    eapply Forall_impl; [exact Hpre |]. intros x Hx e' He'.
    apply (Hx e'). now apply scan_market_raises_iff.
  - intros (pre & mk & post & -> & Hmk & Hpre).
    exists pre, mk, post. split; [reflexivity |].
    split; [now apply scan_market_raises_iff |].
    eapply Forall_impl; [exact Hpre |]. intros x Hx e' He'.
    apply (Hx e'). now apply scan_market_raises_iff.
Qed.
End ScanAnyFloat.

Section ScanFacts.
Local Open Scope Q_scope.

Lemma range_probability_total (m : Libm Q)
    (btc floor_s cap_s vol_per_min mins : Q) :
  0 < btc -> 0 < floor_s -> 0 < cap_s ->
  exists p, range_probability m btc floor_s cap_s vol_per_min mins = Ok p.
Proof.
  intros Hb Hf Hc. rewrite range_probability_cases.
  destruct (_ || _); [eauto |].
  rewrite feq_false by (intros E; rewrite E in Hb; revert Hb;
                        apply Qlt_irrefl).
  rewrite !flt_true by (apply ratio_positive; assumption).
  cbn [negb]. eauto.
Qed.

Lemma range_probability_raises_iff (m : Libm Q)
    (btc f c vol mins : Q) (e : PyErr) :
  range_probability m btc f c vol mins = Raise e
  <-> 0 < mins /\ 1 # 1000000000 <= vol * m_sqrt m mins
      /\ ((btc == 0 /\ e = ZeroDivisionError)
          \/ (~ btc == 0 /\ (c / btc <= 0 \/ f / btc <= 0)
              /\ e = ValueError)).
Proof.
  rewrite range_probability_cases.
  destruct (fleP mins 0) as [Hm | Hm]; cbn [orb].
  { split; [discriminate |]. intros (Hp & _). exfalso.
    revert Hp. now apply Qle_not_lt. }
  apply Qnot_le_lt in Hm.
  destruct (fltP (vol * m_sqrt m mins) (lit 1 1000000000)) as [Hs | Hs];
    rewrite lit_exact in Hs.
  { split; [discriminate |]. intros (_ & Hge & _). exfalso.
    revert Hs. now apply Qle_not_lt. }
  apply Qnot_lt_le in Hs.
  destruct (feqP btc 0) as [Hb | Hb].
  { split.
    - intros [= <-]. auto.
    - intros (_ & _ & [[_ ->] | [Hn _]]); [reflexivity | contradiction]. }
  destruct (fltP 0 (c / btc)) as [Hc | Hc]; cbn [negb].
  - destruct (fltP 0 (f / btc)) as [Hf | Hf]; cbn [negb].
    + split; [discriminate |].
      intros (_ & _ & [[Hz _] | (_ & [Hle | Hle] & _)]);
        [contradiction | |]; exfalso; revert Hle; now apply Qlt_not_le.
    + apply Qnot_lt_le in Hf. split.
      * intros [= <-]. auto 8.
      * intros (_ & _ & [[Hz _] | (_ & _ & ->)]);
          [contradiction | reflexivity].
  - apply Qnot_lt_le in Hc. split.
    + intros [= <-]. auto 8.
    + intros (_ & _ & [[Hz _] | (_ & _ & ->)]);
        [contradiction | reflexivity].
Qed.

Lemma btc_pos_raises_iff (btc f c : Q) (e : PyErr) :
  btc_pos btc f c = Raise e
  <-> btc == 0 /\ (c < btc \/ btc < f) /\ e = ZeroDivisionError.
Proof.
  unfold btc_pos, pydiv.
  destruct (feqP btc (float_of_int 0)) as [Hb | Hb]; cbn [bind];
    change (float_of_int 0) with 0 in Hb.
  - destruct (fltP c btc) as [Hc | Hc].
    + split; [intros [= <-]; auto | now intros (_ & _ & ->)].
    + destruct (fltP btc f) as [Hf | Hf].
      * split; [intros [= <-]; auto | now intros (_ & _ & ->)].
      * split; [discriminate | intros (_ & [? | ?] & _); contradiction].
  - destruct (fltP c btc); [| destruct (fltP btc f)];
      (split; [discriminate | intros (? & _); contradiction]).
Qed.

(** X20.  What ends a scan with an exception, in exact arithmetic.  The
    scan raises exactly when some market raises, with the exception of
    the first such market, and the candidates found before it are lost
    with the cycle.  A market raises only if it passes the filters, and
    then either in the model or in the position description of a
    candidate.  The model raises only outside its two guards (time left
    and [sigma_t] of at least 1e-9): a division by zero for a zero BTC
    price, a domain error of the logarithm when a strike divided by a
    nonzero BTC price is not positive.  The position description raises
    only a division by zero, for a zero BTC price outside the range. *)
Theorem scan_raises_first_model_error (cfg : Config Q) (m : Libm Q)
    (held : gset string) (now_ts btc vol_pm : Q)
    (markets : list (Market Q)) (e : PyErr) :
  (scan_markets cfg m held now_ts btc vol_pm markets = Raise e
   <-> exists pre market post,
         markets = pre ++ market :: post
         /\ scan_raises cfg m held now_ts btc vol_pm market e
         /\ Forall (fun mk => forall e',
                      ~ scan_raises cfg m held now_ts btc vol_pm mk e')
              pre)
  /\ (forall floor_s cap_s mins_left,
        range_probability m btc floor_s cap_s vol_pm mins_left = Raise e
        <-> 0 < mins_left
            /\ 1 # 1000000000 <= vol_pm * m_sqrt m mins_left
            /\ ((btc == 0 /\ e = ZeroDivisionError)
                \/ (~ btc == 0
                    /\ (cap_s / btc <= 0 \/ floor_s / btc <= 0)
                    /\ e = ValueError)))
  /\ (forall floor_s cap_s,
        btc_pos btc floor_s cap_s = Raise e
        <-> btc == 0 /\ (cap_s < btc \/ btc < floor_s)
            /\ e = ZeroDivisionError).
Proof.
  split; [apply scan_markets_raises |].
  split.
  - intros floor_s cap_s mins_left. apply range_probability_raises_iff.
  - intros floor_s cap_s. apply btc_pos_raises_iff.
Qed.

(** X21.  In exact arithmetic the scan cannot fail on sound data: with
    a positive BTC price and positive strikes on every market that has
    both, it runs to its end. *)
Theorem scan_total_on_positive_data (cfg : Config Q) (m : Libm Q)
    (held : gset string) (now_ts btc vol_pm : Q)
    (markets : list (Market Q)) :
  0 < btc ->
  Forall (fun mk => forall f c,
            floor_strike mk = Some f -> cap_strike mk = Some c ->
            0 < f /\ 0 < c) markets ->
  exists cs, scan_markets cfg m held now_ts btc vol_pm markets = Ok cs.
Proof.
  intros Hb Hall. induction Hall as [| mk rest Hmk _ IH];
    cbn [scan_markets]; [eauto |].
  destruct IH as (cs & Hcs).
  assert (Hne : forall e,
             scan_market cfg m held now_ts btc vol_pm mk <> CycleError e).
  { intros e. unfold scan_market.
    destruct (scan_filters cfg held now_ts mk) as [[[ml f] c] |] eqn:Hf;
      [| discriminate].
    assert (Hs : floor_strike mk = Some f /\ cap_strike mk = Some c).
    { revert Hf. unfold scan_filters.
      destruct (bool_decide _); [discriminate |].
      destruct (close_time mk); [| discriminate]. cbv zeta.
      destruct (negb _); [discriminate |].
      destruct (_ <=? _)%Z; [discriminate |].
      destruct (floor_strike mk); [| discriminate].
      destruct (cap_strike mk); [| discriminate].
      destruct (_ || _); [discriminate |].
      destruct (_ || _); [discriminate |].
      intros [= _ <- <-]. now split. }
    destruct Hs as [Hfs Hcs'].
    destruct (Hmk f c Hfs Hcs') as [Hfp Hcp].
    destruct (range_probability_total m btc f c vol_pm ml Hb Hfp Hcp)
      as (p & ->).
    assert (Hbn : ~ btc == 0)
      by (intros E; rewrite E in Hb; revert Hb; apply Qlt_irrefl).
    destruct (btc_pos_nonzero btc f c Hbn) as (bp & Hbp).
    unfold scan_priced. rewrite Hbp.
    destruct (choose_side _ _ _ _ _) as [[[? ?] ?] |]; [| discriminate].
    destruct (_ || _); discriminate. }
  destruct (scan_market cfg m held now_ts btc vol_pm mk) as [| c | e].
  - eauto.
  - rewrite Hcs. cbn [bind]. eauto.
  - now destruct (Hne e).
Qed.
End ScanFacts.

(* ------------------------------------------------------------------ *)
(** ** Execution *)

Section ExecuteFacts.
Context {F : Type} `{PyFloat F} `{PyInt F}.
Local Open Scope py_scope.

Lemma filled_mono (cfg : Config F) (br : Broker) (n0 n1 : nat)
    (placed : list BuyOrder) (c : Candidate F) :
  (n1 <= n0)%nat -> filled cfg br n0 placed c -> filled cfg br n1 placed c.
Proof.
  intros Hn (n & o & Hle & Hrest). exists n, o. split; [lia | exact Hrest].
Qed.

(** What the loop does, from any state it may have reached. *)
Lemma execute_effect (cfg : Config F) (br : Broker)
    (cs : list (Candidate F)) (st st' : Desk F) :
  execute cfg br cs st = Some st' ->
  exists cs' new os,
    sublist cs' cs
    /\ Forall2 (traded cfg) cs' new
    /\ d_db st' = d_db st ++ new
    /\ d_placed st' = d_placed st ++ os
    /\ (LIVE_MODE cfg = false -> os = [])
    /\ d_analysed st' = list_to_set (map c_ticker cs') ∪ d_analysed st
    /\ d_trades st' = (d_trades st + Z.of_nat (length cs'))%Z
    /\ (Z.of_nat (length cs')
        <= Z.max 0 (MAX_TRADES_PER_CYCLE cfg - d_trades st))%Z
    /\ Forall (fun c => c_ticker c ∉ d_analysed st) cs'
    /\ (LIVE_MODE cfg = true ->
        Forall (filled cfg br (length (d_placed st)) (d_placed st')) cs').
Proof.
  revert st. induction cs as [| c rest IH]; intros st; cbn [execute].
  { intros [= <-]. exists [], [], []. rewrite !app_nil_r.
    repeat split; try constructor; try set_solver; cbn; lia. }
  destruct (Z.leb_spec (MAX_TRADES_PER_CYCLE cfg) (d_trades st))
    as [Hcap | Hcap].
  { intros [= <-]. exists [], [], []. rewrite !app_nil_r.
    repeat split; try constructor; try set_solver; try (cbn; lia).
    apply sublist_nil_l. }
  unfold was_recently_analyzed.
  destruct (decide (c_ticker c ∈ d_analysed st)) as [Hrec | Hrec].
  { rewrite bool_decide_eq_true_2 by exact Hrec. intros Hex.
    destruct (IH st Hex)
      as (cs' & new & os & Hsub & Ht & Hd & Hp & Hl & Ha & Hn & Hc & Hf & Hfl).
    exists cs', new, os. split; [now apply sublist_cons |]. auto 12. }
  rewrite bool_decide_eq_false_2 by exact Hrec.
  destruct (trade_quantity cfg (c_price_cents c)) as [qty |] eqn:Hq;
    [| discriminate].
  assert (Htr : traded cfg c (new_position cfg c qty))
    by (exists qty; now split).
  destruct (LIVE_MODE cfg) eqn:Hlive.
  - destruct (place_market_order _ _ _ _) as [o |] eqn:Ho; [| discriminate].
    cbv zeta.
    destruct (place_accepted br (length (d_placed st)) o) eqn:Hacc.
    + intros Hex.
      destruct (IH _ Hex)
        as (cs' & new & os & Hsub & Ht & Hd & Hp & Hl & Ha & Hn & Hc & Hf
            & Hfl).
      cbn [open_trade send_order d_db d_placed d_analysed d_trades] in *.
      exists (c :: cs'), (new_position cfg c qty :: new), (o :: os).
      split; [now apply sublist_skip |].
      split; [now constructor |].
      split; [rewrite Hd, <- app_assoc; reflexivity |].
      split; [rewrite Hp, <- app_assoc; reflexivity |].
      split; [discriminate |].
      split; [rewrite Ha; cbn [map list_to_set]; set_solver |].
      split; [rewrite Hn; cbn [length]; lia |].
      split; [cbn [length]; lia |].
      split.
      { constructor; [exact Hrec |].
        eapply Forall_impl; [exact Hf |]. intros x Hx. set_solver. }
      intros _. constructor.
      * exists (length (d_placed st)), o. split; [lia |].
        split; [| now split].
        rewrite Hp, <- app_assoc. now apply list_lookup_middle.
      * eapply Forall_impl; [exact (Hfl eq_refl) |]. intros x.
        apply filled_mono. rewrite length_app. lia.
    + intros Hex.
      destruct (IH _ Hex)
        as (cs' & new & os & Hsub & Ht & Hd & Hp & Hl & Ha & Hn & Hc & Hf
            & Hfl).
      cbn [send_order d_db d_placed d_analysed d_trades] in *.
      exists cs', new, (o :: os).
      split; [now apply sublist_cons |].
      split; [exact Ht |]. split; [exact Hd |].
      split; [rewrite Hp, <- app_assoc; reflexivity |].
      split; [discriminate |].
      do 4 (split; [assumption |]).
      intros _. eapply Forall_impl; [exact (Hfl eq_refl) |]. intros x.
      apply filled_mono. rewrite length_app. lia.
  - intros Hex.
    destruct (IH _ Hex)
      as (cs' & new & os & Hsub & Ht & Hd & Hp & Hl & Ha & Hn & Hc & Hf
          & Hfl).
    cbn [open_trade d_db d_placed d_analysed d_trades] in *.
    exists (c :: cs'), (new_position cfg c qty :: new), os.
    split; [now apply sublist_skip |].
    split; [now constructor |].
    split; [rewrite Hd, <- app_assoc; reflexivity |].
    split; [exact Hp |]. split; [exact Hl |].
    split; [rewrite Ha; cbn [map list_to_set]; set_solver |].
    split; [rewrite Hn; cbn [length]; lia |].
    split; [cbn [length]; lia |].
    split; [| discriminate].
    constructor; [exact Hrec |].
    eapply Forall_impl; [exact Hf |]. intros x Hx. set_solver.
Qed.

Lemma traded_position (cfg : Config F) (c : Candidate F) (p : Position F) :
  traded cfg c p ->
  market_id p = c_ticker c /\ side p = c_side c
  /\ entry_price p = cents (c_price_cents c)
  /\ status p = IsOpen /\ live p = LIVE_MODE cfg
  /\ exit_value p = None /\ realized_pnl p = None
  /\ (1 <= quantity p)%Z.
Proof.
  intros (qty & Hq & ->). cbn.
  do 7 (split; [reflexivity |]).
  unfold trade_quantity in Hq.
  destruct (py_int _); [| discriminate].
  destruct (Z.eqb _ 0); [discriminate |]. injection Hq as <-.
  apply Z.le_max_l.
Qed.

(** X22.  Phase 5 only appends to the store, at most
    [MAX_TRADES_PER_CYCLE] positions in a cycle; each is open, carries
    the mode of the run, and holds at least one contract. *)
Theorem execute_respects_trade_cap (cfg : Config F) (br : Broker)
    (cs : list (Candidate F)) (d : list (Position F))
    (analysed : gset string) (st' : Desk F) :
  execute_phase cfg br cs d analysed = Some st' ->
  exists new,
    d_db st' = d ++ new
    /\ (Z.of_nat (length new) <= Z.max 0 (MAX_TRADES_PER_CYCLE cfg))%Z
    /\ Forall (fun p => status p = IsOpen /\ live p = LIVE_MODE cfg
                        /\ exit_value p = None /\ (1 <= quantity p)%Z) new.
Proof.
  intros Hex. apply execute_effect in Hex
    as (cs' & new & os & _ & Ht & Hd & _ & _ & _ & _ & Hc & _).
  cbn [d_db d_trades] in *. exists new. split; [exact Hd |].
  split.
  - rewrite <- (Forall2_length _ _ _ Ht). lia.
  - clear Hd Hc. induction Ht as [| c p cs' new Hcp _ IH]; constructor;
      [| exact IH].
    apply traded_position in Hcp. tauto.
Qed.

Lemma filled_order (cfg : Config F) (br : Broker) (n0 : nat)
    (placed : list BuyOrder) (c : Candidate F) (p : Position F) :
  (0 < c_price_cents c)%Z ->
  traded cfg c p -> filled cfg br n0 placed c ->
  exists n o,
    placed !! n = Some o /\ place_accepted br n o = true
    /\ b_ticker o = market_id p /\ b_side o = side p
    /\ b_count o = quantity p
    /\ cents (b_price_cents o) = entry_price p.
Proof.
  intros Hpos (qty & Hq & ->) (n & o & _ & Hlk & Hacc & Ho).
  exists n, o. split; [exact Hlk |]. split; [exact Hacc |].
  unfold place_market_order in Ho. unfold trade_quantity in Hq.
  destruct (py_int _) as [budget |]; [| discriminate].
  destruct (Z.eqb_spec (c_price_cents c) 0); [discriminate |].
  rewrite (Z.max_r 1 (c_price_cents c)) in Ho by lia.
  injection Hq as <-. injection Ho as <-. cbn. repeat split.
Qed.

(** X23.  In live mode, for candidates at positive prices, every
    position Phase 5 opens stands on an order the venue accepted: an
    order for its ticker and side, at its entry price, whose count is
    the quantity recorded.  The decisions recorded are those of the
    positions opened: a rejected order leaves neither a position nor an
    analysis record. *)
Theorem execute_live_positions_are_filled (cfg : Config F) (br : Broker)
    (cs : list (Candidate F)) (d : list (Position F))
    (analysed : gset string) (st' : Desk F) :
  LIVE_MODE cfg = true ->
  Forall (fun c => (0 < c_price_cents c)%Z) cs ->
  execute_phase cfg br cs d analysed = Some st' ->
  exists new,
    d_db st' = d ++ new
    /\ Forall (fun p => exists n o,
                 d_placed st' !! n = Some o
                 /\ place_accepted br n o = true
                 /\ b_ticker o = market_id p /\ b_side o = side p
                 /\ b_count o = quantity p
                 /\ cents (b_price_cents o) = entry_price p) new
    /\ d_analysed st' = list_to_set (map market_id new) ∪ analysed.
Proof.
  intros Hlive Hpos Hex. apply execute_effect in Hex
    as (cs' & new & os & Hsub & Ht & Hd & _ & _ & Ha & _ & _ & _ & Hfl).
  specialize (Hfl Hlive). cbn [d_db d_placed d_analysed] in *.
  assert (Hpos' : Forall (fun c => (0 < c_price_cents c)%Z) cs').
  { rewrite Forall_forall in *. intros c Hc. apply Hpos.
    eapply elem_of_sublist; eassumption. }
  assert (Hids : map market_id new = map c_ticker cs').
  { clear -Ht. induction Ht as [| c p cs' new Hcp _ IH]; [reflexivity |].
    cbn [map]. rewrite IH.
    destruct (traded_position cfg c p Hcp) as (-> & _). reflexivity. }
  exists new. split; [exact Hd |].
  split; [| now rewrite Hids].
  clear Hd Hsub Hpos Ha Hids.
  induction Ht as [| c p cs' new Hcp _ IH]; [constructor |].
  apply Forall_cons in Hpos' as [Hc Hpos'].
  apply Forall_cons in Hfl as [Hfc Hfl].
  constructor; [| now apply IH].
  now apply (filled_order cfg br 0 _ c p).
Qed.

Lemma filter_agree {A} (P Q : A -> Prop) `{!forall x, Decision (P x)}
    `{!forall x, Decision (Q x)} (l : list A) :
  Forall (fun x => P x <-> Q x) l -> filter P l = filter Q l.
Proof.
  induction 1 as [| x l Hx _ IH]; [reflexivity |].
  destruct (decide (P x)) as [Hp | Hp].
  - rewrite !filter_cons_True by tauto. now rewrite IH.
  - rewrite !filter_cons_False by tauto. exact IH.
Qed.

Lemma execute_paper (cfg : Config F) (br : Broker)
    (cs : list (Candidate F)) (st st' : Desk F) :
  LIVE_MODE cfg = false ->
  NoDup (map c_ticker cs) ->
  execute cfg br cs st = Some st' ->
  exists new,
    d_db st' = d_db st ++ new
    /\ Forall2 (traded cfg)
         (take (Z.to_nat (MAX_TRADES_PER_CYCLE cfg - d_trades st))
            (filter (fun c => c_ticker c ∉ d_analysed st) cs))
         new
    /\ d_placed st' = d_placed st.
Proof.
  intros Hlive. revert st. induction cs as [| c rest IH]; intros st Hnd;
    cbn [execute].
  { intros [= <-]. exists []. rewrite app_nil_r, filter_nil, take_nil.
    repeat split. constructor. }
  cbn [map] in Hnd. apply NoDup_cons in Hnd as [Hc Hnd].
  destruct (Z.leb_spec (MAX_TRADES_PER_CYCLE cfg) (d_trades st))
    as [Hcap | Hcap].
  { intros [= <-]. exists []. rewrite app_nil_r.
    replace (Z.to_nat _) with 0%nat by lia. repeat split. constructor. }
  unfold was_recently_analyzed.
  destruct (decide (c_ticker c ∈ d_analysed st)) as [Hrec | Hrec].
  { rewrite bool_decide_eq_true_2 by exact Hrec. intros Hex.
    rewrite filter_cons_False by tauto. now apply IH. }
  rewrite bool_decide_eq_false_2 by exact Hrec.
  destruct (trade_quantity cfg (c_price_cents c)) as [qty |] eqn:Hq;
    [| discriminate].
  rewrite Hlive. intros Hex.
  destruct (IH _ Hnd Hex) as (new & Hd & Ht & Hp).
  cbn [open_trade d_db d_placed d_analysed d_trades] in *.
  exists (new_position cfg c qty :: new).
  split; [rewrite Hd, <- app_assoc; reflexivity |].
  split; [| exact Hp].
  rewrite filter_cons_True by exact Hrec.
  replace (Z.to_nat (MAX_TRADES_PER_CYCLE cfg - d_trades st))
    with (S (Z.to_nat (MAX_TRADES_PER_CYCLE cfg - (d_trades st + 1))))
    by lia.
  cbn [take]. constructor; [exists qty; now split |].
  erewrite filter_agree; [exact Ht |].
  apply Forall_forall. intros x Hx.
  assert (Hne : c_ticker x <> c_ticker c).
  { intros Heq. apply Hc. rewrite <- Heq.
    apply list_elem_of_fmap. eauto. }
  set_solver.
Qed.

(** X24.  In paper mode no order is placed, and (the candidates having
    distinct tickers) the positions opened are those of the first
    [MAX_TRADES_PER_CYCLE] candidates, in rank order, whose market was
    not analysed recently. *)
Theorem execute_paper_takes_top_candidates (cfg : Config F) (br : Broker)
    (cs : list (Candidate F)) (d : list (Position F))
    (analysed : gset string) (st' : Desk F) :
  LIVE_MODE cfg = false ->
  NoDup (map c_ticker cs) ->
  execute_phase cfg br cs d analysed = Some st' ->
  d_placed st' = []
  /\ exists new,
       d_db st' = d ++ new
       /\ Forall2 (traded cfg)
            (take (Z.to_nat (MAX_TRADES_PER_CYCLE cfg))
               (filter (fun c => c_ticker c ∉ analysed) cs))
            new.
Proof.
  intros Hlive Hnd Hex.
  destruct (execute_paper cfg br cs _ st' Hlive Hnd Hex)
    as (new & Hd & Ht & Hp).
  cbn [d_db d_placed d_analysed d_trades] in *.
  rewrite Z.sub_0_r in Ht. split; [exact Hp |]. eauto.
Qed.

(** X25.  The quantity of a trade: when the price is positive and
    within the budget (the per-trade budget in cents), it is the number
    of contracts the budget buys, so that the cost does not exceed the
    budget and one more contract would; it is also the count of the
    order placed.  A contract dearer than the budget is still bought,
    once. *)
Theorem trade_quantity_within_budget (cfg : Config F) (budget price : Z) :
  py_int (MAX_TRADE_USD cfg * float_of_int 100) = Some budget ->
  (0 < price)%Z ->
  exists qty,
    trade_quantity cfg price = Some qty
    /\ (forall id s o,
          place_market_order id s (MAX_TRADE_USD cfg) price = Some o ->
          b_count o = qty /\ b_price_cents o = price)
    /\ ((price <= budget)%Z ->
        qty = (budget / price)%Z
        /\ (qty * price <= budget < (qty + 1) * price)%Z)
    /\ ((budget < price)%Z -> qty = 1%Z).
Proof.
  intros Hb Hp. unfold trade_quantity, place_market_order. rewrite Hb.
  destruct (Z.eqb_spec price 0) as [| _]; [lia |].
  exists (Z.max 1 (budget / price)). split; [reflexivity |].
  split.
  { intros id s o [= <-]. cbn. now rewrite (Z.max_r 1 price) by lia. }
  split.
  - intros Hle.
    assert (Hq : (1 <= budget / price)%Z)
      by (apply Z.div_le_lower_bound; lia).
    rewrite Z.max_r by exact Hq. split; [reflexivity |].
    pose proof (Z.mul_div_le budget price Hp).
    pose proof (Z.mul_succ_div_gt budget price Hp). nia.
  - intros Hlt. destruct (Z.lt_ge_cases budget 0).
    + assert (budget / price < 0)%Z by (apply Z.div_lt_upper_bound; lia).
      lia.
    + rewrite Z.div_small by lia. reflexivity.
Qed.

Lemma open_from_filter (d : list (Position F)) (i : nat) :
  map (fun ip => market_id ip.2) (open_from i d)
  = map market_id (List.filter is_open d).
Proof.
  revert i. induction d as [| p d IH]; intros i; [reflexivity |].
  cbn [open_from List.filter]. destruct (is_open p); cbn [map];
    now rewrite IH.
Qed.

Lemma open_ids_app (cfg : Config F) (d new : list (Position F))
    (cs : list (Candidate F)) :
  Forall2 (traded cfg) cs new ->
  open_ids (d ++ new) = open_ids d ++ map c_ticker cs.
Proof.
  intros Ht. unfold open_ids, get_open_positions.
  rewrite !open_from_filter, List.filter_app, map_app. f_equal.
  induction Ht as [| c p cs new Hcp _ IH]; [reflexivity |].
  destruct (traded_position cfg c p Hcp) as (Hid & _ & _ & Hst & _).
  cbn [List.filter map]. unfold is_open at 1. rewrite Hst.
  cbn [map]. now rewrite Hid, IH.
Qed.

(** X26.  One open position per ticker, across a whole entry phase: if
    the open positions of the store have distinct tickers before the
    scan of the markets [get_btc_markets] returned, they have after the
    ranked candidates were executed, in either mode and whatever the
    venue accepts. *)
Theorem entry_keeps_one_position_per_ticker (cfg : Config F)
    (m : Libm F) (br : Broker) (now_ts btc vol_pm : F)
    (events : list (list (Market F))) (w : World F)
    (analysed : gset string) (cs : list (Candidate F)) (st' : Desk F) :
  NoDup (open_ids (db w)) ->
  scan_phase cfg m now_ts btc vol_pm (get_btc_markets events) w = Ok cs ->
  execute_phase cfg br (rank cs) (db w) analysed = Some st' ->
  NoDup (open_ids (d_db st')).
Proof.
  intros Hnd Hscan Hex. unfold scan_phase in Hscan.
  apply scan_markets_sound in Hscan as [Hsub Hall].
  destruct (get_btc_markets_spec events) as (_ & Hmk & _).
  apply execute_effect in Hex
    as (cs' & new & os & Hsub' & Ht & Hd & _).
  cbn [d_db] in Hd. rewrite Hd, (open_ids_app cfg _ _ _ Ht).
  assert (Hcs : NoDup (map c_ticker cs)).
  { eapply sublist_NoDup; [exact Hmk | exact Hsub]. }
  assert (Hin : forall c, c ∈ cs' -> c ∈ cs).
  { intros c Hc. rewrite <- (rank_perm cs).
    eapply elem_of_sublist; eassumption. }
  apply NoDup_app. split; [exact Hnd |]. split.
  - intros id Hid Hnew.
    apply list_elem_of_fmap in Hnew as (c & -> & Hc).
    rewrite Forall_forall in Hall.
    destruct (Hall c (Hin c Hc)) as [Hheld _]. apply Hheld.
    unfold held_ids. apply elem_of_list_to_set. exact Hid.
  - eapply sublist_NoDup; [| apply fmap_sublist; exact Hsub'].
    change (NoDup (c_ticker <$> rank cs)). now rewrite (rank_perm cs).
Qed.
End ExecuteFacts.

(* ------------------------------------------------------------------ *)
(** ** Worked runs *)

(** The general formula on the stand-in library: BTC at 100000 in the
    range 99000 to 101000, an hour to go. *)
Lemma range_probability_unit_interval_witness :
  exists r,
    range_probability stand_in_libm 100000%Q 99000%Q 101000%Q (1 # 1000)%Q
      60%Q = Ok r
    /\ (r = float_of_int 0 \/ r = float_of_int 1
        \/ (flt (float_of_int 0) r = true /\ flt r (float_of_int 1) = true)).
Proof.
  eexists. split; [vm_compute; reflexivity |].
  apply (range_probability_unit_interval (F := Q) stand_in_libm 100000%Q
           99000%Q 101000%Q (1 # 1000)%Q 60%Q).
  vm_compute. reflexivity.
Defined.

(** A scan of two listed markets, an hour before they close. *)
Lemma scan_candidates_well_formed_witness :
  exists cs,
    scan_markets (F := Q) (main_config false) stand_in_libm ∅ 0%Q 100000%Q
      0%Q [market_47_50; market_both_cheap] = Ok cs
    /\ sublist (map c_ticker cs)
         (map ticker [market_47_50 (F := Q); market_both_cheap])
    /\ length cs = 2%nat.
Proof.
  eexists. split; [vm_compute; reflexivity |].
  split; [| reflexivity].
  refine (proj1 (scan_candidates_well_formed (F := Q) (main_config false)
                   stand_in_libm ∅ 0%Q 100000%Q 0%Q
                   [market_47_50; market_both_cheap] _ _)).
  vm_compute. reflexivity.
Defined.

Lemma scan_total_on_positive_data_witness :
  (0 < 100000)%Q
  /\ exists cs,
       scan_markets (F := Q) (main_config false) stand_in_libm ∅ 0%Q
         100000%Q (1 # 1000)%Q [market_47_50; market_both_cheap] = Ok cs.
Proof.
  assert (Hb : (0 < 100000)%Q) by reflexivity.
  split; [exact Hb |].
  apply (scan_total_on_positive_data (main_config false) stand_in_libm ∅
           0%Q 100000%Q (1 # 1000)%Q [market_47_50; market_both_cheap] Hb).
  constructor; [intros f c [= <-] [= <-]; split; reflexivity |].
  constructor; [intros f c [= <-] [= <-]; split; reflexivity |].
  constructor.
Defined.

(** Phase 5 on four ranked candidates, live, with a venue that rejects
    the first order: the second, third and fourth are opened. *)
Lemma execute_respects_trade_cap_witness :
  exists st',
    execute_phase (F := Q) (main_config true) retry_broker four_candidates
      [] ∅ = Some st'
    /\ map market_id (d_db st') = ["KXBTC-Q"; "KXBTC-R"; "KXBTC-S"]
    /\ exists new,
         d_db st' = [] ++ new
         /\ (Z.of_nat (length new) <= Z.max 0 3)%Z
         /\ Forall (fun p => status p = IsOpen /\ live p = true
                             /\ exit_value p = None
                             /\ (1 <= quantity p)%Z) new.
Proof.
  eexists. split; [vm_compute; reflexivity |].
  split; [reflexivity |].
  apply (execute_respects_trade_cap (F := Q) (main_config true)
           retry_broker four_candidates [] ∅).
  vm_compute. reflexivity.
Defined.

Lemma execute_live_positions_are_filled_witness :
  LIVE_MODE (main_config (F := Q) true) = true
  /\ Forall (fun c => (0 < c_price_cents c)%Z) (four_candidates (F := Q))
  /\ exists st',
       execute_phase (F := Q) (main_config true) retry_broker
         four_candidates [] ∅ = Some st'
       /\ map b_count (d_placed st') = [5; 3; 16; 2]%Z
       /\ map quantity (d_db st') = [3; 16; 2]%Z
       /\ exists new,
            d_db st' = [] ++ new
            /\ Forall (fun p => exists n o,
                         d_placed st' !! n = Some o
                         /\ place_accepted retry_broker n o = true
                         /\ b_ticker o = market_id p /\ b_side o = side p
                         /\ b_count o = quantity p
                         /\ cents (b_price_cents o) = entry_price p) new
            /\ d_analysed st' = list_to_set (map market_id new) ∪ ∅.
Proof.
  assert (Hp : Forall (fun c => (0 < c_price_cents c)%Z)
                 (four_candidates (F := Q)))
    by (repeat constructor).
  split; [reflexivity |]. split; [exact Hp |].
  eexists. split; [vm_compute; reflexivity |].
  split; [reflexivity |]. split; [reflexivity |].
  apply (execute_live_positions_are_filled (F := Q) (main_config true)
           retry_broker four_candidates [] ∅ _ eq_refl Hp).
  vm_compute. reflexivity.
Defined.

(** The same candidates in paper mode, the second analysed an hour ago:
    the first, the third and the fourth are opened. *)
Lemma execute_paper_takes_top_candidates_witness :
  LIVE_MODE (main_config (F := Q) false) = false
  /\ NoDup (map c_ticker (four_candidates (F := Q)))
  /\ exists st',
       execute_phase (F := Q) (main_config false) retry_broker
         four_candidates [] {[ "KXBTC-Q" ]} = Some st'
       /\ map market_id (d_db st') = ["KXBTC-P"; "KXBTC-R"; "KXBTC-S"]
       /\ d_placed st' = [].
Proof.
  assert (Hn : NoDup (map c_ticker (four_candidates (F := Q)))).
  { cbn. repeat (apply NoDup_cons; split; [set_solver |]).
    apply NoDup_nil_2. }
  split; [reflexivity |]. split; [exact Hn |].
  eexists. split; [vm_compute; reflexivity |].
  split; [reflexivity |].
  refine (proj1 (execute_paper_takes_top_candidates (F := Q)
                   (main_config false) retry_broker four_candidates []
                   {[ "KXBTC-Q" ]} _ eq_refl Hn _)).
  vm_compute. reflexivity.
Defined.

(** The budget of [main.py] is 200 cents; at 37 cents it buys 5
    contracts for 185 cents. *)
Lemma trade_quantity_within_budget_witness :
  py_int (fmul (MAX_TRADE_USD (main_config (F := Q) true)) (float_of_int 100))
  = Some 200%Z
  /\ (0 < 37)%Z
  /\ exists qty,
       trade_quantity (F := Q) (main_config true) 37 = Some qty
       /\ ((37 <= 200)%Z ->
           qty = (200 / 37)%Z /\ (qty * 37 <= 200 < (qty + 1) * 37)%Z).
Proof.
  assert (Hb : py_int (fmul (MAX_TRADE_USD (main_config (F := Q) true))
                         (float_of_int 100)) = Some 200%Z) by reflexivity.
  assert (Hp : (0 < 37)%Z) by reflexivity.
  split; [exact Hb |]. split; [exact Hp |].
  destruct (trade_quantity_within_budget (F := Q) (main_config true) 200 37
              Hb Hp) as (qty & Hq & _ & Hle & _).
  exists qty. split; [exact Hq | exact Hle].
Defined.

(** In binary64 the budget is the same integer, and so are the
    quantities. *)
Example trade_quantity_binary64 :
  py_int (fmul (MAX_TRADE_USD (main_config (F := float) true))
            (float_of_int 100)) = Some 200%Z
  /\ trade_quantity (F := float) (main_config true) 37 = Some 5%Z
  /\ trade_quantity (F := float) (main_config true) 99 = Some 2%Z
  /\ trade_quantity (F := float) (main_config true) 1 = Some 200%Z.
Proof. repeat split; reflexivity. Qed.

(** A response that lists one market twice and a market already held:
    after the entry phase the store holds three tickers, each once. *)
Lemma entry_keeps_one_position_per_ticker_witness :
  NoDup (open_ids (db (tp_world (F := Q))))
  /\ exists cs st',
       scan_phase (F := Q) (main_config false) stand_in_libm 0%Q 100000%Q
         0%Q
         (get_btc_markets
            [[market_47_50; tp_market; market_both_cheap]; [market_47_50]])
         tp_world = Ok cs
       /\ execute_phase (main_config false) retry_broker (rank cs)
            (db tp_world) ∅ = Some st'
       /\ open_ids (d_db st') = ["KXBTC-C"; "KXBTC-X"; "KXBTC-H"]
       /\ NoDup (open_ids (d_db st')).
Proof.
  assert (Hn : NoDup (open_ids (db (tp_world (F := Q)))))
    by (apply NoDup_singleton).
  split; [exact Hn |].
  eexists. eexists. split; [vm_compute; reflexivity |].
  split; [vm_compute; reflexivity |].
  split; [reflexivity |].
  refine (entry_keeps_one_position_per_ticker (F := Q) (main_config false)
            stand_in_libm retry_broker 0%Q 100000%Q 0%Q
            [[market_47_50; tp_market; market_both_cheap]; [market_47_50]]
            tp_world ∅ _ _ Hn _ _);
    vm_compute; reflexivity.
Defined.
